(** * AppleSmartBattery: the battery telemetry state machine

    A shallow embedding of [AppleSmartBatteryManager/AppleSmartBattery.cpp]:
    the asynchronous read sequencer [transactionCompletion], its retry
    policy, the poll scheduler ([pollBatteryState], [pollingTimeOut]), the
    read-all watchdog ([incompleteReadTimeOut]) and the external event
    handlers.

    The driver object is a record threaded through a state monad.  What the
    driver sends to its collaborators (the SMBus transport, the kernel
    delay primitives, the power-management root domain, the status
    publication of [IOPMPowerSource], the error log) is appended to the
    [trace] field, in program order. *)

From Stdlib Require Import ZArith Lia.
From Stdlib.Strings Require Import Byte Ascii.
From stdpp Require Import gmap strings list pretty.

Open Scope Z_scope.

(** ** Constants of the source file *)

(** The two machine paths ("Bitfield" enum at the top of the file). *)
Definition kExistingBatteryPath : Z := 1.
Definition kNewBatteryPath : Z := 2.

Definition kRetryAttempts : Z := 5.
Definition kInitialPollCountdown : Z := 5.
Definition kIncompleteReadRetryMax : Z := 10.

Definition kSecondsUntilValidOnWake : Z := 30.
Definition kPostChargeWaitSeconds : Z := 120.
Definition kPostDischargeWaitSeconds : Z := 120.

Definition kDefaultPollInterval : Z := 0.
Definition kQuickPollInterval : Z := 1.

Definition kErrorRetryAttemptsExceeded : string := "Read Retry Attempts Exceeded".
Definition kErrorOverallTimeoutExpired : string := "Overall Read Timeout Expired".
Definition kErrorZeroCapacity : string := "Capacity Read Zero".
Definition kErrorPermanentFailure : string := "Permanent Battery Failure".
Definition kErrorNonRecoverableStatus : string := "Non-recoverable status failure".

(** Initial contents of the static, mutable [milliSecPollingTable]. *)
Definition milliSecPollingTable_init : list Z := [30000; 1000].

Definition kBatteryReadAllTimeout : Z := 10000.

(** Delays, in microseconds, on successive re-reads. *)
Definition microSecDelayTable : list Z := [10; 100; 1000; 10000; 250000].

(** ** Declarations of the headers

    The headers [AppleSmartBattery.h], [AppleSmartBatteryManager.h] and the
    IOKit headers are not among the sources.  Their enumerations are
    embedded as inductive types carrying exactly the enumerators this file
    names; their bit masks are taken as parameters ([HeaderConstants]). *)

(** [IOSMBusStatus]: the statuses listed by [STATUS_ERROR_NEEDS_RETRY] and
    [STATUS_ERROR_NON_RECOVERABLE], whose union "should equal the entirety
    of SMBus errors", and the success status. *)
Inductive IOSMBusStatus : Set :=
| kIOSMBusStatusOK
| kIOSMBusStatusDeviceAddressNotAcknowledged
| kIOSMBusStatusDeviceCommandAccessDenied
| kIOSMBusStatusDeviceAccessDenied
| kIOSMBusStatusUnknownHostError
| kIOSMBusStatusUnknownFailure
| kIOSMBusStatusDeviceError
| kIOSMBusStatusTimeout
| kIOSMBusStatusBusy
| kIOSMBusStatusHostUnsupportedProtocol
| kIOSMBusStatusPECError.

Inductive IOSMBusProtocol : Set :=
| kIOSMBusProtocolReadWord
| kIOSMBusProtocolReadBlock.

Inductive SMBusAddress : Set :=
| kSMBusManagerAddr
| kSMBusBatteryAddr.

(** The command codes the state machine issues.  A command code doubles as
    the state token handed to the completion callback ([(void * )cmd]). *)
Inductive SMBusCommand : Set :=
| kMStateContCmd
| kMStateCmd
| kBBatteryStatusCmd
| kBManufactureNameCmd
| kBManufactureDateCmd
| kBDeviceNameCmd
| kBSerialNumberCmd
| kBDesignCapacityCmd
| kBRemainingCapacityCmd
| kBFullChargeCapacityCmd
| kBAverageCurrentCmd
| kBVoltageCmd
| kBMaxErrorCmd
| kBCycleCountCmd
| kBAverageTimeToEmptyCmd
| kBAverageTimeToFullCmd
| kBTemperatureCmd
| kBReadCellVoltage1Cmd
| kBReadCellVoltage2Cmd
| kBReadCellVoltage3Cmd
| kBReadCellVoltage4Cmd
| kBCurrentCmd.

#[global] Instance IOSMBusStatus_eq_dec : EqDecision IOSMBusStatus.
Proof. solve_decision. Defined.
#[global] Instance IOSMBusProtocol_eq_dec : EqDecision IOSMBusProtocol.
Proof. solve_decision. Defined.
#[global] Instance SMBusAddress_eq_dec : EqDecision SMBusAddress.
Proof. solve_decision. Defined.
#[global] Instance SMBusCommand_eq_dec : EqDecision SMBusCommand.
Proof. solve_decision. Defined.

(** Bit masks, flag words and enumerator values declared in the absent
    headers. *)
Class HeaderConstants : Set := {
  (* numeric values of the enumerators above *)
  statusCode : IOSMBusStatus -> Z;
  commandCode : SMBusCommand -> Z;
  (* BatterySystemStateCont *)
  kMACPresentBit : Z;
  kMPowerNotGoodBit : Z;
  (* BatterySystemState *)
  kMPresentBatt_A_Bit : Z;
  kMChargingBatt_A_Bit : Z;
  (* BatteryStatus *)
  kBFullyChargedStatusBit : Z;
  kBFullyDischargedStatusBit : Z;
  kBTerminateDischargeAlarmBit : Z;
  kBTerminateChargeAlarmBit : Z;
  (* IOPM.h *)
  kIOPMSetACAdaptorConnected : Z;
  kIOPMSetValue : Z;
  kIOPMACInstalled : Z;
  kIOPMBatteryInstalled : Z;
  kIOPMBatteryCharging : Z
}.

(** ** libkern objects and the SMBus transaction *)

#[warnings="-register-all"]
Inductive OSObject : Type :=
| OSBoolean (b : bool)
| OSNumber (value : Z) (numberOfBits : Z)
| OSString (s : string)
| OSArray (elems : list OSObject)
| OSDictionary (entries : list (string * OSObject)).

(** [OSNumber::withNumber(value, bits)] keeps the low [bits] bits. *)
Definition OSNumber_withNumber (value bits : Z) : OSObject :=
  OSNumber (value mod 2 ^ bits) bits.

Definition kOSBoolean (b : bool) : OSObject := OSBoolean b.

Record IOSMBusTransaction : Type := mkTransaction {
  protocol : IOSMBusProtocol;
  address : SMBusAddress;
  command : SMBusCommand;
  status : IOSMBusStatus;
  receiveData : list byte;
  receiveDataCount : Z
}.

(** [transaction->receiveData[i]]; the buffer is zero-filled before every
    transaction, so bytes the device did not write read as 0. *)
Definition receiveByte (t : IOSMBusTransaction) (i : nat) : Z :=
  Z.of_N (Byte.to_N (nth i (receiveData t) x00)).

(** [(receiveData[1] << 8) | receiveData[0]] *)
Definition receiveWord (t : IOSMBusTransaction) : Z :=
  Z.lor (Z.shiftl (receiveByte t 1) 8) (receiveByte t 0).

(** Conversion of a 16-bit pattern to [int16_t]. *)
Definition to_int16 (w : Z) : Z :=
  if w <? 32768 then w else w - 65536.

(** The C string held by a zero-filled buffer after [bcopy] of the received
    bytes: the bytes up to the first NUL. *)
Fixpoint cstring (bytes : list byte) : string :=
  match bytes with
  | [] => EmptyString
  | b :: rest =>
      match b with
      | x00 => EmptyString
      | _ => String (ascii_of_byte b) (cstring rest)
      end
  end.

Definition recv_str (t : IOSMBusTransaction) : string :=
  cstring (take (Z.to_nat (receiveDataCount t)) (receiveData t)).

(** What the driver hands to its collaborators: the kernel delay
    primitives, the provider ([performTransaction], [handleFullDischarge]),
    the error log of [logReadError], the status publication of
    [IOPMPowerSource::updateStatus] with the properties published, and the
    root domain. *)
Inductive Event : Type :=
| IODelay (microseconds : Z)
| IOSleep (milliseconds : Z)
| performTransaction (p : IOSMBusProtocol) (a : SMBusAddress) (c : SMBusCommand)
| BattLogError (error_type : string) (additional_error : Z)
    (t : option IOSMBusTransaction)
| updateStatus_published (snapshot : gmap string OSObject)
| receivePowerNotification (flags : Z)
| handleFullDischarge.

(** ** The driver object *)

Record AppleSmartBattery : Type := mkAppleSmartBattery {
  fPollingNow : bool;
  fCancelPolling : bool;
  fRebootPolling : bool;
  fStalledByUserClient : bool;
  fMachinePath : Z;
  fRetryAttempts : Z;
  fFullyDischarged : bool;
  fFullyCharged : bool;
  fBatteryPresent : bool;
  fACConnected : bool;
  fInflowDisabled : bool;
  fChargeInhibited : bool;
  fAvgCurrent : Z;
  fRemainingCapacity : Z;
  fFullChargeCapacity : Z;
  fPollingInterval : Z;
  fPollingOverridden : bool;
  fInitialPollCountdown : Z;
  fIncompleteReadRetries : Z;
  fCellVoltages : option (list OSObject);
  fTransaction : option IOSMBusTransaction;
  milliSecPollingTable : list Z;
  (* IOPMPowerSource::properties *)
  properties : gmap string OSObject;
  (* the registry entry's property table (setProperty / removeProperty) *)
  registry : gmap string OSObject;
  (* armed timers, with their timeout in milliseconds *)
  fPollTimer : option Z;
  fBatteryReadAllTimer : option Z;
  trace : list Event
}.

Definition set_fPollingNow (v : bool) (this : AppleSmartBattery) :=
  let '(mkAppleSmartBattery _ b c d e f g h i j k l m n o p q r s t u w x y z a1 a2) := this in
  mkAppleSmartBattery v b c d e f g h i j k l m n o p q r s t u w x y z a1 a2.
Definition set_fCancelPolling (v : bool) (this : AppleSmartBattery) :=
  let '(mkAppleSmartBattery a _ c d e f g h i j k l m n o p q r s t u w x y z a1 a2) := this in
  mkAppleSmartBattery a v c d e f g h i j k l m n o p q r s t u w x y z a1 a2.
Definition set_fRebootPolling (v : bool) (this : AppleSmartBattery) :=
  let '(mkAppleSmartBattery a b _ d e f g h i j k l m n o p q r s t u w x y z a1 a2) := this in
  mkAppleSmartBattery a b v d e f g h i j k l m n o p q r s t u w x y z a1 a2.
Definition set_fStalledByUserClient (v : bool) (this : AppleSmartBattery) :=
  let '(mkAppleSmartBattery a b c _ e f g h i j k l m n o p q r s t u w x y z a1 a2) := this in
  mkAppleSmartBattery a b c v e f g h i j k l m n o p q r s t u w x y z a1 a2.
Definition set_fMachinePath (v : Z) (this : AppleSmartBattery) :=
  let '(mkAppleSmartBattery a b c d _ f g h i j k l m n o p q r s t u w x y z a1 a2) := this in
  mkAppleSmartBattery a b c d v f g h i j k l m n o p q r s t u w x y z a1 a2.
Definition set_fRetryAttempts (v : Z) (this : AppleSmartBattery) :=
  let '(mkAppleSmartBattery a b c d e _ g h i j k l m n o p q r s t u w x y z a1 a2) := this in
  mkAppleSmartBattery a b c d e v g h i j k l m n o p q r s t u w x y z a1 a2.
Definition set_fFullyDischarged (v : bool) (this : AppleSmartBattery) :=
  let '(mkAppleSmartBattery a b c d e f _ h i j k l m n o p q r s t u w x y z a1 a2) := this in
  mkAppleSmartBattery a b c d e f v h i j k l m n o p q r s t u w x y z a1 a2.
Definition set_fFullyCharged (v : bool) (this : AppleSmartBattery) :=
  let '(mkAppleSmartBattery a b c d e f g _ i j k l m n o p q r s t u w x y z a1 a2) := this in
  mkAppleSmartBattery a b c d e f g v i j k l m n o p q r s t u w x y z a1 a2.
Definition set_fBatteryPresent (v : bool) (this : AppleSmartBattery) :=
  let '(mkAppleSmartBattery a b c d e f g h _ j k l m n o p q r s t u w x y z a1 a2) := this in
  mkAppleSmartBattery a b c d e f g h v j k l m n o p q r s t u w x y z a1 a2.
Definition set_fACConnected (v : bool) (this : AppleSmartBattery) :=
  let '(mkAppleSmartBattery a b c d e f g h i _ k l m n o p q r s t u w x y z a1 a2) := this in
  mkAppleSmartBattery a b c d e f g h i v k l m n o p q r s t u w x y z a1 a2.
Definition set_fInflowDisabled (v : bool) (this : AppleSmartBattery) :=
  let '(mkAppleSmartBattery a b c d e f g h i j _ l m n o p q r s t u w x y z a1 a2) := this in
  mkAppleSmartBattery a b c d e f g h i j v l m n o p q r s t u w x y z a1 a2.
Definition set_fChargeInhibited (v : bool) (this : AppleSmartBattery) :=
  let '(mkAppleSmartBattery a b c d e f g h i j k _ m n o p q r s t u w x y z a1 a2) := this in
  mkAppleSmartBattery a b c d e f g h i j k v m n o p q r s t u w x y z a1 a2.
Definition set_fAvgCurrent (v : Z) (this : AppleSmartBattery) :=
  let '(mkAppleSmartBattery a b c d e f g h i j k l _ n o p q r s t u w x y z a1 a2) := this in
  mkAppleSmartBattery a b c d e f g h i j k l v n o p q r s t u w x y z a1 a2.
Definition set_fRemainingCapacity (v : Z) (this : AppleSmartBattery) :=
  let '(mkAppleSmartBattery a b c d e f g h i j k l m _ o p q r s t u w x y z a1 a2) := this in
  mkAppleSmartBattery a b c d e f g h i j k l m v o p q r s t u w x y z a1 a2.
Definition set_fFullChargeCapacity (v : Z) (this : AppleSmartBattery) :=
  let '(mkAppleSmartBattery a b c d e f g h i j k l m n _ p q r s t u w x y z a1 a2) := this in
  mkAppleSmartBattery a b c d e f g h i j k l m n v p q r s t u w x y z a1 a2.
Definition set_fPollingInterval (v : Z) (this : AppleSmartBattery) :=
  let '(mkAppleSmartBattery a b c d e f g h i j k l m n o _ q r s t u w x y z a1 a2) := this in
  mkAppleSmartBattery a b c d e f g h i j k l m n o v q r s t u w x y z a1 a2.
Definition set_fPollingOverridden (v : bool) (this : AppleSmartBattery) :=
  let '(mkAppleSmartBattery a b c d e f g h i j k l m n o p _ r s t u w x y z a1 a2) := this in
  mkAppleSmartBattery a b c d e f g h i j k l m n o p v r s t u w x y z a1 a2.
Definition set_fInitialPollCountdown (v : Z) (this : AppleSmartBattery) :=
  let '(mkAppleSmartBattery a b c d e f g h i j k l m n o p q _ s t u w x y z a1 a2) := this in
  mkAppleSmartBattery a b c d e f g h i j k l m n o p q v s t u w x y z a1 a2.
Definition set_fIncompleteReadRetries (v : Z) (this : AppleSmartBattery) :=
  let '(mkAppleSmartBattery a b c d e f g h i j k l m n o p q r _ t u w x y z a1 a2) := this in
  mkAppleSmartBattery a b c d e f g h i j k l m n o p q r v t u w x y z a1 a2.
Definition set_fCellVoltages (v : option (list OSObject)) (this : AppleSmartBattery) :=
  let '(mkAppleSmartBattery a b c d e f g h i j k l m n o p q r s _ u w x y z a1 a2) := this in
  mkAppleSmartBattery a b c d e f g h i j k l m n o p q r s v u w x y z a1 a2.
Definition set_fTransaction (v : option IOSMBusTransaction) (this : AppleSmartBattery) :=
  let '(mkAppleSmartBattery a b c d e f g h i j k l m n o p q r s t _ w x y z a1 a2) := this in
  mkAppleSmartBattery a b c d e f g h i j k l m n o p q r s t v w x y z a1 a2.
Definition set_milliSecPollingTable (v : list Z) (this : AppleSmartBattery) :=
  let '(mkAppleSmartBattery a b c d e f g h i j k l m n o p q r s t u _ x y z a1 a2) := this in
  mkAppleSmartBattery a b c d e f g h i j k l m n o p q r s t u v x y z a1 a2.
Definition set_properties (v : gmap string OSObject) (this : AppleSmartBattery) :=
  let '(mkAppleSmartBattery a b c d e f g h i j k l m n o p q r s t u w _ y z a1 a2) := this in
  mkAppleSmartBattery a b c d e f g h i j k l m n o p q r s t u w v y z a1 a2.
Definition set_registry (v : gmap string OSObject) (this : AppleSmartBattery) :=
  let '(mkAppleSmartBattery a b c d e f g h i j k l m n o p q r s t u w x _ z a1 a2) := this in
  mkAppleSmartBattery a b c d e f g h i j k l m n o p q r s t u w x v z a1 a2.
Definition set_fPollTimer (v : option Z) (this : AppleSmartBattery) :=
  let '(mkAppleSmartBattery a b c d e f g h i j k l m n o p q r s t u w x y _ a1 a2) := this in
  mkAppleSmartBattery a b c d e f g h i j k l m n o p q r s t u w x y v a1 a2.
Definition set_fBatteryReadAllTimer (v : option Z) (this : AppleSmartBattery) :=
  let '(mkAppleSmartBattery a b c d e f g h i j k l m n o p q r s t u w x y z _ a2) := this in
  mkAppleSmartBattery a b c d e f g h i j k l m n o p q r s t u w x y z v a2.
Definition set_trace (v : list Event) (this : AppleSmartBattery) :=
  let '(mkAppleSmartBattery a b c d e f g h i j k l m n o p q r s t u w x y z a1 a2) := this in
  mkAppleSmartBattery a b c d e f g h i j k l m n o p q r s t u w x y z a1 v.

(** ** The state monad of the driver's member functions *)

Definition M (A : Type) : Type := AppleSmartBattery → A * AppleSmartBattery.

#[global] Instance M_ret : MRet M := λ A a this, (a, this).
#[global] Instance M_bind : MBind M :=
  λ A B f c this, let '(a, this') := c this in f a this'.

Definition gets {A} (f : AppleSmartBattery → A) : M A := λ this, (f this, this).
Definition modify (f : AppleSmartBattery → AppleSmartBattery) : M unit :=
  λ this, (tt, f this).
Definition when (b : bool) (c : M unit) : M unit := if b then c else mret tt.
Definition emit (e : Event) : M unit :=
  modify (λ this, set_trace (trace this ++ [e]) this).

(** The object after a member function has run. *)
Definition exec {A} (c : M A) (this : AppleSmartBattery) : AppleSmartBattery :=
  (c this).2.

(** A C integer used as a condition. *)
Definition nonzero (n : Z) : bool := negb (n =? 0).

(** ** Collaborators: property tables, timers, IOPMPowerSource *)

Definition properties_setObject (key : string) (o : OSObject) : M unit :=
  modify (λ this, set_properties (<[key := o]> (properties this)) this).
Definition properties_removeObject (key : string) : M unit :=
  modify (λ this, set_properties (delete key (properties this)) this).
Definition properties_getObject (key : string) : M (option OSObject) :=
  gets (λ this, properties this !! key).

Definition setProperty (key : string) (o : OSObject) : M unit :=
  modify (λ this, set_registry (<[key := o]> (registry this)) this).
Definition removeProperty (key : string) : M unit :=
  modify (λ this, set_registry (delete key (registry this)) this).
Definition getProperty (key : string) : M (option OSObject) :=
  gets (λ this, registry this !! key).

Definition fPollTimer_cancelTimeout : M unit := modify (set_fPollTimer None).
Definition fPollTimer_setTimeoutMS (ms : Z) : M unit := modify (set_fPollTimer (Some ms)).
Definition fBatteryReadAllTimer_cancelTimeout : M unit :=
  modify (set_fBatteryReadAllTimer None).
Definition fBatteryReadAllTimer_setTimeoutMS (ms : Z) : M unit :=
  modify (set_fBatteryReadAllTimer (Some ms)).

(** Keys of the property tables.  The strings come from IOKit headers; the
    embedding only needs them pairwise different within one table. *)
Definition externalConnectedKey : string := "ExternalConnected".
Definition externalChargeCapableKey : string := "ExternalChargeCapable".
Definition batteryInstalledKey : string := "BatteryInstalled".
Definition chargingKey : string := "IsCharging".
Definition currentCapacityKey : string := "CurrentCapacity".
Definition maxCapacityKey : string := "MaxCapacity".
Definition timeRemainingKey : string := "TimeRemaining".
Definition amperageKey : string := "Amperage".
Definition voltageKey : string := "Voltage".
Definition cycleCountKey : string := "CycleCount".
Definition adapterInfoKey : string := "AdapterInfo".
Definition locationKey : string := "Location".
Definition manufacturerKey : string := "Manufacturer".
Definition serialKey : string := "BatterySerialNumber".
Definition batteryInfoKey : string := "LegacyBatteryInfo".

Definition _MaxErrSym : string := "MaxErr".
Definition _DeviceNameSym : string := "DeviceName".
Definition _FullyChargedSym : string := "FullyCharged".
Definition _AvgTimeToEmptySym : string := "AvgTimeToEmpty".
Definition _AvgTimeToFullSym : string := "AvgTimeToFull".
Definition _ManfDateSym : string := "ManufactureDate".
Definition _DesignCapacitySym : string := "DesignCapacity".
Definition _TemperatureSym : string := "Temperature".
Definition _CellVoltageSym : string := "CellVoltage".

Definition kIOBatteryFlagsKey : string := "Flags".
Definition kIOBatteryCurrentChargeKey : string := "Current".
Definition kIOBatteryCapacityKey : string := "Capacity".
Definition kIOBatteryVoltageKey : string := "Voltage".
Definition kIOBatteryAmperageKey : string := "Amperage".
Definition kIOBatteryCycleCountKey : string := "Cycle Count".

Definition kIOPMPSInvalidWakeSecondsKey : string := "BatteryInvalidWakeSeconds".
Definition kIOPMPSPostChargeWaitSecondsKey : string := "PostChargeWaitSeconds".
Definition kIOPMPSPostDishargeWaitSecondsKey : string := "PostDischargeWaitSeconds".

(** The superclass [IOPMPowerSource] belongs to the kernel.  Its setters
    store one object under one key of [properties]; its boolean getters
    compare the stored object with [kOSBooleanTrue]; [updateStatus]
    publishes the current [properties] to the clients. *)
Definition setExternalConnected (b : bool) : M unit :=
  properties_setObject externalConnectedKey (kOSBoolean b).
Definition setExternalChargeCapable (b : bool) : M unit :=
  properties_setObject externalChargeCapableKey (kOSBoolean b).
Definition setBatteryInstalled (b : bool) : M unit :=
  properties_setObject batteryInstalledKey (kOSBoolean b).
Definition setIsCharging (b : bool) : M unit :=
  properties_setObject chargingKey (kOSBoolean b).
Definition setCurrentCapacity (val : Z) : M unit :=
  properties_setObject currentCapacityKey (OSNumber_withNumber val 32).
Definition setMaxCapacity (val : Z) : M unit :=
  properties_setObject maxCapacityKey (OSNumber_withNumber val 32).
Definition setTimeRemaining (val : Z) : M unit :=
  properties_setObject timeRemainingKey (OSNumber_withNumber val 32).
Definition setAmperage (val : Z) : M unit :=
  properties_setObject amperageKey (OSNumber_withNumber val 32).
Definition setVoltage (val : Z) : M unit :=
  properties_setObject voltageKey (OSNumber_withNumber val 32).
Definition setCycleCount (val : Z) : M unit :=
  properties_setObject cycleCountKey (OSNumber_withNumber val 32).
Definition setAdapterInfo (val : Z) : M unit :=
  properties_setObject adapterInfoKey (OSNumber_withNumber val 32).
Definition setLocation (val : Z) : M unit :=
  properties_setObject locationKey (OSNumber_withNumber val 32).
Definition setManufacturer (sym : string) : M unit :=
  properties_setObject manufacturerKey (OSString sym).
Definition setSerial (sym : string) : M unit :=
  properties_setObject serialKey (OSString sym).
Definition setLegacyIOBatteryInfo (d : OSObject) : M unit :=
  properties_setObject batteryInfoKey d.

Definition isTrue (o : option OSObject) : bool :=
  match o with
  | Some (OSBoolean true) => true
  | _ => false
  end.

Definition externalConnected : M bool :=
  gets (λ this, isTrue (properties this !! externalConnectedKey)).
Definition batteryInstalled : M bool :=
  gets (λ this, isTrue (properties this !! batteryInstalledKey)).
Definition isCharging : M bool :=
  gets (λ this, isTrue (properties this !! chargingKey)).

Definition updateStatus : M unit :=
  snapshot ← gets properties;
  emit (updateStatus_published snapshot).

(** ** New value accessors of the source file *)

Definition setMaxErr (error : Z) : M unit :=
  properties_setObject _MaxErrSym (OSNumber_withNumber error 32).
Definition setDeviceName (sym : string) : M unit :=
  properties_setObject _DeviceNameSym (OSString sym).
Definition setFullyCharged (charged : bool) : M unit :=
  properties_setObject _FullyChargedSym (kOSBoolean charged).
Definition fullyCharged : M bool :=
  gets (λ this, isTrue (properties this !! _FullyChargedSym)).
Definition setAverageTimeToEmpty (seconds : Z) : M unit :=
  properties_setObject _AvgTimeToEmptySym (OSNumber_withNumber seconds 32).
Definition setAverageTimeToFull (seconds : Z) : M unit :=
  properties_setObject _AvgTimeToFullSym (OSNumber_withNumber seconds 32).
Definition setManufactureDate (date : Z) : M unit :=
  properties_setObject _ManfDateSym (OSNumber_withNumber date 32).

(** The getters. *)

(** An unsigned 32-bit pattern returned as [int]. *)
Definition to_int32 (w : Z) : Z :=
  if w <? 2 ^ 31 then w else w - 2 ^ 32.

(** [OSNumber::unsigned32BitValue] *)
Definition unsigned32BitValue (value : Z) : Z := value mod 2 ^ 32.

(** [maxErr]: [OSDynamicCast(OSNumber, ...)] fails on a missing object and
    on an object of another class. *)
Definition maxErr : M Z :=
  n ← properties_getObject _MaxErrSym;
  match n with
  | Some (OSNumber value _) => mret (to_int32 (unsigned32BitValue value))
  | _ => mret 0
  end.

(** [deviceName]: the strings this driver stores are all [OSSymbol]s, the
    [OSString] objects of the table; NULL is [None]. *)
Definition deviceName : M (option string) :=
  sym ← properties_getObject _DeviceNameSym;
  match sym with
  | Some (OSString s) => mret (Some s)
  | _ => mret None
  end.

Definition averageTimeToEmpty : M Z :=
  n ← properties_getObject _AvgTimeToEmptySym;
  match n with
  | Some (OSNumber value _) => mret (to_int32 (unsigned32BitValue value))
  | _ => mret 0
  end.

Definition averageTimeToFull : M Z :=
  n ← properties_getObject _AvgTimeToFullSym;
  match n with
  | Some (OSNumber value _) => mret (to_int32 (unsigned32BitValue value))
  | _ => mret 0
  end.

Definition manufactureDate : M Z :=
  n ← properties_getObject _ManfDateSym;
  match n with
  | Some (OSNumber value _) => mret (to_int32 (unsigned32BitValue value))
  | _ => mret 0
  end.

(** ** Status classification *)

Definition STATUS_ERROR_NEEDS_RETRY (err : IOSMBusStatus) : bool :=
  bool_decide (kIOSMBusStatusDeviceAddressNotAcknowledged = err)
  || bool_decide (kIOSMBusStatusDeviceCommandAccessDenied = err)
  || bool_decide (kIOSMBusStatusDeviceAccessDenied = err)
  || bool_decide (kIOSMBusStatusUnknownHostError = err)
  || bool_decide (kIOSMBusStatusUnknownFailure = err)
  || bool_decide (kIOSMBusStatusDeviceError = err)
  || bool_decide (kIOSMBusStatusTimeout = err)
  || bool_decide (kIOSMBusStatusBusy = err).

Definition STATUS_ERROR_NON_RECOVERABLE (err : IOSMBusStatus) : bool :=
  bool_decide (kIOSMBusStatusHostUnsupportedProtocol = err)
  || bool_decide (kIOSMBusStatusPECError = err).

(** ** The member functions *)

Section Driver.

Context {hdr : HeaderConstants}.

(** [w & mask] used as a condition. *)
Definition bit_set (w mask : Z) : bool := nonzero (Z.land w mask).

(** [logReadError]; every caller passes a string literal. *)
Definition logReadError (error_type : string) (additional_error : Z)
    (t : option IOSMBusTransaction) : M unit :=
  setProperty "LatestErrorType" (OSString error_type);;
  emit (BattLogError error_type additional_error t).

(** [setPollingInterval]; the [int] argument is stored in a [uint32_t]
    entry of the table. *)
Definition setPollingInterval (milliSeconds : Z) : M unit :=
  overridden ← gets fPollingOverridden;
  when (negb overridden)
    (modify (λ this, set_milliSecPollingTable
                       (<[Z.to_nat kDefaultPollInterval := milliSeconds mod 2 ^ 32]>
                          (milliSecPollingTable this)) this);;
     modify (set_fPollingInterval kDefaultPollInterval)).

(** [readWordAsync] and [readBlockAsync]: the transaction buffer is zeroed,
    filled in and handed to the provider with the command as reference.
    The completed transaction a handler receives is this buffer, filled in
    by the controller; every handler decodes it before it issues the next
    read, so the handlers take it by value. *)
Definition readWordAsync (addr : SMBusAddress) (cmd : SMBusCommand) : M unit :=
  modify (set_fTransaction
            (Some (mkTransaction kIOSMBusProtocolReadWord addr cmd
                     kIOSMBusStatusOK [] 0)));;
  emit (performTransaction kIOSMBusProtocolReadWord addr cmd).

Definition readBlockAsync (addr : SMBusAddress) (cmd : SMBusCommand) : M unit :=
  modify (set_fTransaction
            (Some (mkTransaction kIOSMBusProtocolReadBlock addr cmd
                     kIOSMBusStatusOK [] 0)));;
  emit (performTransaction kIOSMBusProtocolReadBlock addr cmd).

(** [rebuildLegacyIOBatteryInfo]; [OSDictionary::setObject] ignores a NULL
    object. *)
Definition legacy_entry (key : string) (o : option OSObject)
  : list (string * OSObject) :=
  match o with
  | Some v => [(key, v)]
  | None => []
  end.

Definition legacyFlags (ac installed charging : bool) : Z :=
  let flags := 0 in
  let flags := if ac then Z.lor flags kIOPMACInstalled else flags in
  let flags := if installed then Z.lor flags kIOPMBatteryInstalled else flags in
  let flags := if charging then Z.lor flags kIOPMBatteryCharging else flags in
  flags.

Definition rebuildLegacyIOBatteryInfo : M unit :=
  ac ← externalConnected;
  installed ← batteryInstalled;
  charging ← isCharging;
  let flags := legacyFlags ac installed charging in
  cur ← properties_getObject currentCapacityKey;
  cap ← properties_getObject maxCapacityKey;
  volt ← properties_getObject voltageKey;
  amp ← properties_getObject amperageKey;
  cyc ← properties_getObject cycleCountKey;
  setLegacyIOBatteryInfo
    (OSDictionary
       ([(kIOBatteryFlagsKey, OSNumber_withNumber flags 32)]
          ++ legacy_entry kIOBatteryCurrentChargeKey cur
          ++ legacy_entry kIOBatteryCapacityKey cap
          ++ legacy_entry kIOBatteryVoltageKey volt
          ++ legacy_entry kIOBatteryAmperageKey amp
          ++ legacy_entry kIOBatteryCycleCountKey cyc)).

(** [clearBatteryState] *)
Definition clearBatteryState (do_update : bool) : M unit :=
  modify (set_fRetryAttempts 0);;
  modify (set_fFullyDischarged false);;
  modify (set_fFullyCharged false);;
  modify (set_fBatteryPresent false);;
  modify (set_fACConnected false);;
  modify (set_fAvgCurrent 0);;
  setBatteryInstalled false;;
  setIsCharging false;;
  setCurrentCapacity 0;;
  setMaxCapacity 0;;
  setTimeRemaining 0;;
  setAmperage 0;;
  setVoltage 0;;
  setCycleCount 0;;
  setAdapterInfo 0;;
  setLocation 0;;
  properties_removeObject manufacturerKey;;
  properties_removeObject serialKey;;
  properties_removeObject batteryInfoKey;;
  failed ← getProperty kErrorPermanentFailure;
  when (bool_decide (is_Some failed)) (removeProperty kErrorPermanentFailure);;
  rebuildLegacyIOBatteryInfo;;
  when do_update updateStatus.

(** [handleBatteryRemoved] *)
Definition handleBatteryRemoved : M unit :=
  polling ← gets fPollingNow;
  when polling
    (modify (set_fCancelPolling true);;
     fPollTimer_cancelTimeout;;
     fBatteryReadAllTimer_cancelTimeout);;
  clearBatteryState true.

(** *** [transactionCompletion], block by block *)

(** "Do we need to abort an ongoing polling session?"  [true]: the function
    returns at once. *)
Definition abortOngoingPoll (transaction : option IOSMBusTransaction) : M bool :=
  cancel ← gets fCancelPolling;
  if (cancel : bool) then
    modify (set_fCancelPolling false);;
    match transaction with
    | Some _ => modify (set_fPollingNow false);; mret true
    | None => mret false
    end
  else mret false.

Definition capacityCmd_zeroInvalid (cmd : SMBusCommand) (fullyDischarged : bool)
  : bool :=
  bool_decide (kBFullChargeCapacityCmd = cmd)
  || bool_decide (kBDesignCapacityCmd = cmd)
  || (bool_decide (kBRemainingCapacityCmd = cmd) && negb fullyDischarged).

Definition capacityCmd (cmd : SMBusCommand) : bool :=
  bool_decide (kBRemainingCapacityCmd = cmd)
  || bool_decide (kBDesignCapacityCmd = cmd)
  || bool_decide (kBFullChargeCapacityCmd = cmd).

(** "Too many consecutive failures to read this entry.  Give up, and go on
    to attempt a read on the next element in the state machine." *)
Definition giveUpOnRetries (transaction : IOSMBusTransaction) : M unit :=
  setProperty "LastBattReadError"
    (OSNumber_withNumber (statusCode (status transaction)) 16);;
  setProperty "LastBattReadErrorCmd"
    (OSNumber_withNumber (commandCode (command transaction)) 16);;
  logReadError kErrorRetryAttemptsExceeded (statusCode (status transaction))
    (Some transaction);;
  modify (set_fRetryAttempts 0).

(** The status and absurd-value checks up to and including "Too many
    retries already?".  The result is the final value of the local
    [transaction_needs_retry]. *)
Definition needsRetry (transaction : IOSMBusTransaction) : M bool :=
  let transaction_status := status transaction in
  let transaction_needs_retry := false in
  (* If the last transaction wasn't successful at the SMBus level, retry. *)
  transaction_needs_retry ←
    (if STATUS_ERROR_NEEDS_RETRY transaction_status then mret true
     else if STATUS_ERROR_NON_RECOVERABLE transaction_status then
       logReadError kErrorNonRecoverableStatus (statusCode transaction_status)
         (Some transaction);;
       mret false
     else mret transaction_needs_retry);
  (* EVENTUAL SUCCESS after some number of status retries *)
  attempts ← gets fRetryAttempts;
  transaction_needs_retry ←
    (if bool_decide (kIOSMBusStatusOK = transaction_status) && nonzero attempts
     then modify (set_fRetryAttempts 0);; mret false
     else mret transaction_needs_retry);
  transaction_needs_retry ←
    (if bool_decide (kIOSMBusStatusOK = transaction_status) then
       (* absurd value _zero_ *)
       discharged ← gets fFullyDischarged;
       transaction_needs_retry ←
         mret (if capacityCmd_zeroInvalid (command transaction) discharged
                  && ((receiveByte transaction 1 =? 0)
                      && (receiveByte transaction 0 =? 0))
               then true else transaction_needs_retry);
       (* EVENTUAL SUCCESS after zero capacity retry *)
       attempts ← gets fRetryAttempts;
       if capacityCmd (command transaction)
          && (nonzero (receiveByte transaction 1)
              || nonzero (receiveByte transaction 0))
          && nonzero attempts
       then modify (set_fRetryAttempts 0);; mret false
       else mret transaction_needs_retry
     else mret transaction_needs_retry);
  (* Too many retries already? *)
  attempts ← gets fRetryAttempts;
  if (transaction_needs_retry : bool) && (kRetryAttempts =? attempts) then
    giveUpOnRetries transaction;;
    mret false
  else mret transaction_needs_retry.

(** "Finally we actually retry!!"  [microSecDelayTable[fRetryAttempts]] is
    read as 0 outside the table (the C program reads past the array there;
    [fRetryAttempts] stays within 0..4 at this point, see
    [transactionCompletion_retry_bound]). *)
Definition retryTransaction (transaction : IOSMBusTransaction) : M unit :=
  attempts ← gets fRetryAttempts;
  let delay_for := nth (Z.to_nat attempts) microSecDelayTable 0 in
  when (nonzero delay_for)
    (if delay_for <? 1000 then emit (IODelay delay_for)
     else emit (IOSleep (delay_for / 1000)));;
  modify (λ this, set_fRetryAttempts (fRetryAttempts this + 1) this);;
  (* Kick off the same transaction that just failed *)
  readWordAsync (address transaction) (command transaction).

(** [case 0]: the start state. *)
Definition state_start : M unit :=
  fPollTimer_cancelTimeout;;
  modify (set_fCancelPolling false);;
  modify (set_fPollingNow true);;
  fBatteryReadAllTimer_cancelTimeout;;
  fBatteryReadAllTimer_setTimeoutMS kBatteryReadAllTimeout;;
  readWordAsync kSMBusManagerAddr kMStateContCmd.

(** [case kMStateContCmd]: AC plugged or unplugged, charge capable.
    [getPMRootDomain()] is taken to return the root domain. *)
Definition state_kMStateContCmd (transaction : IOSMBusTransaction) : M unit :=
  (if bool_decide (kIOSMBusStatusOK = status transaction) then
     let my_unsigned_16 := receiveWord transaction in
     inflow ← gets fInflowDisabled;
     let new_ac_connected :=
       negb inflow && bit_set my_unsigned_16 kMACPresentBit in
     ac ← gets fACConnected;
     when (negb (Bool.eqb new_ac_connected ac))
       (if new_ac_connected
        then emit (receivePowerNotification
                     (Z.lor kIOPMSetACAdaptorConnected kIOPMSetValue))
        else emit (receivePowerNotification kIOPMSetACAdaptorConnected));;
     modify (set_fACConnected new_ac_connected);;
     ac ← gets fACConnected;
     setExternalConnected ac;;
     setExternalChargeCapable
       (if bit_set my_unsigned_16 kMPowerNotGoodBit then false else true)
   else
     modify (set_fACConnected false);;
     setExternalConnected true;;
     setExternalChargeCapable false);;
  readWordAsync kSMBusManagerAddr kMStateCmd.

(** [case kMStateCmd]: battery present, battery charging. *)
Definition state_kMStateCmd (transaction : IOSMBusTransaction) : M unit :=
  (if bool_decide (kIOSMBusStatusOK = status transaction) then
     let my_unsigned_16 := receiveWord transaction in
     modify (set_fBatteryPresent (bit_set my_unsigned_16 kMPresentBatt_A_Bit));;
     present ← gets fBatteryPresent;
     setBatteryInstalled present;;
     inhibited ← gets fChargeInhibited;
     setIsCharging
       (if negb inhibited && bit_set my_unsigned_16 kMChargingBatt_A_Bit
        then true else false)
   else
     modify (set_fBatteryPresent false);;
     setBatteryInstalled false;;
     setIsCharging false);;
  present ← gets fBatteryPresent;
  if negb present then
    (* absent battery: clean up and do no further battery work *)
    modify (set_fPollingNow false);;
    clearBatteryState true
  else
    readWordAsync kSMBusBatteryAddr kBBatteryStatusCmd.

(** [case kBBatteryStatusCmd] *)
Definition permanentFailureMask : Z :=
  Z.lor kBTerminateDischargeAlarmBit kBTerminateChargeAlarmBit.

Definition state_kBBatteryStatusCmd (transaction : IOSMBusTransaction) : M unit :=
  (if negb (bool_decide (kIOSMBusStatusOK = status transaction)) then
     modify (set_fFullyCharged false);;
     modify (set_fFullyDischarged false)
   else
     let my_unsigned_16 := receiveWord transaction in
     (if bit_set my_unsigned_16 kBFullyChargedStatusBit
      then modify (set_fFullyCharged true)
      else modify (set_fFullyCharged false));;
     (if bit_set my_unsigned_16 kBFullyDischargedStatusBit then
        discharged ← gets fFullyDischarged;
        when (negb discharged)
          (modify (set_fFullyDischarged true);;
           (* Immediately cancel AC Inflow disable *)
           emit handleFullDischarge)
      else modify (set_fFullyDischarged false));;
     (* Detect battery permanent failure *)
     when (Z.land my_unsigned_16 permanentFailureMask =? permanentFailureMask)
       (logReadError kErrorPermanentFailure 0 (Some transaction);;
        setProperty kErrorPermanentFailure (OSBoolean true);;
        (* abort polling; report battery as missing *)
        fBatteryReadAllTimer_cancelTimeout;;
        modify (set_fPollingNow false);;
        handleBatteryRemoved));;
  charged ← gets fFullyCharged;
  setFullyCharged charged;;
  (* The battery read state machine may fork at this stage. *)
  path ← gets fMachinePath;
  if kNewBatteryPath =? path
  then readBlockAsync kSMBusBatteryAddr kBManufactureNameCmd
  else readWordAsync kSMBusBatteryAddr kBRemainingCapacityCmd.

(** [case kBManufactureNameCmd] (new battery path only) *)
Definition state_kBManufactureNameCmd (transaction : IOSMBusTransaction) : M unit :=
  (if bool_decide (kIOSMBusStatusOK = status transaction) then
     when (nonzero (receiveDataCount transaction))
       (setManufacturer (recv_str transaction))
   else properties_removeObject manufacturerKey);;
  readWordAsync kSMBusBatteryAddr kBManufactureDateCmd.

(** [case kBManufactureDateCmd] (new battery path only) *)
Definition state_kBManufactureDateCmd (transaction : IOSMBusTransaction) : M unit :=
  (if bool_decide (kIOSMBusStatusOK = status transaction)
   then setManufactureDate
          (Z.lor (receiveByte transaction 0) (Z.shiftl (receiveByte transaction 1) 8))
   else setManufactureDate 0);;
  readBlockAsync kSMBusBatteryAddr kBDeviceNameCmd.

(** [case kBDeviceNameCmd] (new battery path only) *)
Definition state_kBDeviceNameCmd (transaction : IOSMBusTransaction) : M unit :=
  (if bool_decide (kIOSMBusStatusOK = status transaction) then
     when (nonzero (receiveDataCount transaction))
       (setDeviceName (recv_str transaction))
   else properties_removeObject _DeviceNameSym);;
  readWordAsync kSMBusBatteryAddr kBSerialNumberCmd.

(** [case kBSerialNumberCmd] (new battery path only): the 16-bit number is
    printed in decimal. *)
Definition state_kBSerialNumberCmd (transaction : IOSMBusTransaction) : M unit :=
  (if bool_decide (kIOSMBusStatusOK = status transaction)
   then setSerial
          (pretty (Z.lor (receiveByte transaction 0)
                     (Z.shiftl (receiveByte transaction 1) 8)))
   else properties_removeObject serialKey);;
  readWordAsync kSMBusBatteryAddr kBDesignCapacityCmd.

(** [case kBDesignCapacityCmd] (new battery path only) *)
Definition state_kBDesignCapacityCmd (transaction : IOSMBusTransaction) : M unit :=
  (if bool_decide (kIOSMBusStatusOK = status transaction)
   then properties_setObject _DesignCapacitySym
          (OSNumber_withNumber
             (Z.lor (receiveByte transaction 0)
                (Z.shiftl (receiveByte transaction 1) 8)) 32)
   else properties_setObject _DesignCapacitySym (OSNumber_withNumber 0 32));;
  readWordAsync kSMBusBatteryAddr kBRemainingCapacityCmd.

(** [case kBRemainingCapacityCmd] *)
Definition state_kBRemainingCapacityCmd (transaction : IOSMBusTransaction) : M unit :=
  (if bool_decide (kIOSMBusStatusOK = status transaction) then
     let my_unsigned_16 := receiveWord transaction in
     modify (set_fRemainingCapacity my_unsigned_16);;
     setCurrentCapacity my_unsigned_16
   else
     modify (set_fRemainingCapacity 0);;
     setCurrentCapacity 0);;
  remaining ← gets fRemainingCapacity;
  when (0 =? remaining)
    (logReadError kErrorZeroCapacity (commandCode kBRemainingCapacityCmd)
       (Some transaction));;
  readWordAsync kSMBusBatteryAddr kBFullChargeCapacityCmd.

(** [case kBFullChargeCapacityCmd].  In the failure branch the source has the
    expression statement [fFullChargeCapacity == 0;], a comparison whose
    value is dropped: the field keeps its value. *)
Definition state_kBFullChargeCapacityCmd (transaction : IOSMBusTransaction) : M unit :=
  (if bool_decide (kIOSMBusStatusOK = status transaction) then
     let my_unsigned_16 := receiveWord transaction in
     modify (set_fFullChargeCapacity my_unsigned_16);;
     setMaxCapacity my_unsigned_16;;
     overridden ← gets fPollingOverridden;
     full ← gets fFullChargeCapacity;
     when (negb overridden && nonzero full)
       (remaining ← gets fRemainingCapacity;
        ac ← gets fACConnected;
        if ((100 * remaining) / full <? 5) && ac then
          setProperty "Quick Poll" (OSBoolean true);;
          modify (set_fPollingInterval kQuickPollInterval)
        else
          setProperty "Quick Poll" (OSBoolean false);;
          modify (set_fPollingInterval kDefaultPollInterval))
   else
     full ← gets fFullChargeCapacity;
     let _ := full =? 0 in
     setMaxCapacity 0);;
  full ← gets fFullChargeCapacity;
  when (0 =? full)
    (logReadError kErrorZeroCapacity (commandCode kBFullChargeCapacityCmd)
       (Some transaction));;
  readWordAsync kSMBusBatteryAddr kBAverageCurrentCmd.

(** [case kBAverageCurrentCmd] *)
Definition state_kBAverageCurrentCmd (transaction : IOSMBusTransaction) : M unit :=
  (if bool_decide (kIOSMBusStatusOK = status transaction) then
     let my_signed_16 := to_int16 (receiveWord transaction) in
     setAmperage my_signed_16;;
     modify (set_fAvgCurrent my_signed_16)
   else
     (* Battery not present, or general error *)
     modify (set_fAvgCurrent 0);;
     setAmperage 0;;
     setTimeRemaining 0);;
  readWordAsync kSMBusBatteryAddr kBVoltageCmd.

(** [case kBVoltageCmd] *)
Definition state_kBVoltageCmd (transaction : IOSMBusTransaction) : M unit :=
  (if bool_decide (kIOSMBusStatusOK = status transaction)
   then setVoltage (receiveWord transaction)
   else setVoltage 0);;
  readWordAsync kSMBusBatteryAddr kBMaxErrorCmd.

(** [case kBMaxErrorCmd] *)
Definition state_kBMaxErrorCmd (transaction : IOSMBusTransaction) : M unit :=
  (if bool_decide (kIOSMBusStatusOK = status transaction)
   then setMaxErr (receiveWord transaction)
   else setMaxErr 0);;
  readWordAsync kSMBusBatteryAddr kBCycleCountCmd.

(** [case kBCycleCountCmd] *)
Definition state_kBCycleCountCmd (transaction : IOSMBusTransaction) : M unit :=
  (if bool_decide (kIOSMBusStatusOK = status transaction)
   then setCycleCount (receiveWord transaction)
   else setCycleCount 0);;
  readWordAsync kSMBusBatteryAddr kBAverageTimeToEmptyCmd.

(** [case kBAverageTimeToEmptyCmd] *)
Definition state_kBAverageTimeToEmptyCmd (transaction : IOSMBusTransaction) : M unit :=
  (if bool_decide (kIOSMBusStatusOK = status transaction) then
     let my_unsigned_16 := receiveWord transaction in
     setAverageTimeToEmpty my_unsigned_16;;
     current ← gets fAvgCurrent;
     when (current <? 0) (setTimeRemaining my_unsigned_16)
   else
     setTimeRemaining 0;;
     setAverageTimeToEmpty 0);;
  readWordAsync kSMBusBatteryAddr kBAverageTimeToFullCmd.

(** [case kBAverageTimeToFullCmd] *)
Definition state_kBAverageTimeToFullCmd (transaction : IOSMBusTransaction) : M unit :=
  (if bool_decide (kIOSMBusStatusOK = status transaction) then
     let my_unsigned_16 := receiveWord transaction in
     setAverageTimeToFull my_unsigned_16;;
     current ← gets fAvgCurrent;
     when (0 <? current) (setTimeRemaining my_unsigned_16)
   else
     setTimeRemaining 0;;
     setAverageTimeToFull 0);;
  readWordAsync kSMBusBatteryAddr kBTemperatureCmd.

(** [case kBTemperatureCmd] *)
Definition state_kBTemperatureCmd (transaction : IOSMBusTransaction) : M unit :=
  (if bool_decide (kIOSMBusStatusOK = status transaction)
   then setProperty "Temperature" (OSNumber_withNumber (receiveWord transaction) 16)
   else setProperty "Temperature" (OSNumber_withNumber 0 16));;
  readWordAsync kSMBusBatteryAddr kBReadCellVoltage1Cmd.

(** [next_state - 1] on the cell-voltage commands: "kBReadCellVoltage2Cmd ==
    kBReadCellVoltage1Cmd - 1", and so on down to cell 4. *)
Definition cellVoltage_pred (next_state : SMBusCommand) : SMBusCommand :=
  match next_state with
  | kBReadCellVoltage1Cmd => kBReadCellVoltage2Cmd
  | kBReadCellVoltage2Cmd => kBReadCellVoltage3Cmd
  | _ => kBReadCellVoltage4Cmd
  end.

(** [case kBReadCellVoltage4Cmd .. kBReadCellVoltage1Cmd] *)
Definition state_kBReadCellVoltageCmd (next_state : SMBusCommand)
    (transaction : IOSMBusTransaction) : M unit :=
  let my_unsigned_16 :=
    if bool_decide (kIOSMBusStatusOK = status transaction)
    then receiveWord transaction else 0 in
  (* Executed for first of 4 *)
  when (bool_decide (kBReadCellVoltage1Cmd = next_state))
    (modify (set_fCellVoltages (Some [])));;
  (* Executed for all 4 CellVoltage calls through here *)
  modify (λ this,
    match fCellVoltages this with
    | Some cells =>
        set_fCellVoltages (Some (cells ++ [OSNumber_withNumber my_unsigned_16 16])) this
    | None => this
    end);;
  (* Executed for last of 4 *)
  if bool_decide (kBReadCellVoltage4Cmd = next_state) then
    cells ← gets fCellVoltages;
    match cells with
    | Some l =>
        setProperty _CellVoltageSym (OSArray l);;
        modify (set_fCellVoltages None)
    | None => removeProperty _CellVoltageSym
    end;;
    readWordAsync kSMBusBatteryAddr kBCurrentCmd
  else
    readWordAsync kSMBusBatteryAddr (cellVoltage_pred next_state).

(** [case kBCurrentCmd]: the terminal state.  [pollBatteryState] is the
    member function called in the continuous-polling debug mode. *)
Definition state_kBCurrentCmd (pollBatteryState : Z → M unit)
    (transaction : IOSMBusTransaction) : M unit :=
  (if bool_decide (kIOSMBusStatusOK = status transaction)
   then setProperty "RealCurrent"
          (OSNumber_withNumber (to_int16 (receiveWord transaction)) 16)
   else setProperty "RealCurrent" (OSNumber_withNumber 0 16));;
  (* Cancel read-completion timeout; Successfully read battery state *)
  fBatteryReadAllTimer_cancelTimeout;;
  rebuildLegacyIOBatteryInfo;;
  updateStatus;;
  modify (set_fPollingNow false);;
  overridden ← gets fPollingOverridden;
  interval ← gets fPollingInterval;
  if overridden && (interval =? 0) then
    (* diabolical. Never stop polling battery state. *)
    pollBatteryState kNewBatteryPath
  else
    countdown ← gets fInitialPollCountdown;
    ac ← gets fACConnected;
    charged ← gets fFullyCharged;
    present ← gets fBatteryPresent;
    if (0 <? countdown) || negb ac || (negb charged && present) || overridden
    then
      when (0 <? countdown)
        (modify (set_fInitialPollCountdown (countdown - 1)));;
      if negb overridden then
        (* Restart timer with standard polling interval *)
        table ← gets milliSecPollingTable;
        fPollTimer_setTimeoutMS (nth (Z.to_nat interval) table 0)
      else
        (* restart timer with debug value *)
        fPollTimer_setTimeoutMS ((1000 * interval) mod 2 ^ 32)
    else
      (* We'll let the polling timer expire. *)
      mret tt.

(** The [switch (next_state)].  State 0 is [None]; the other states are the
    command codes, whose completed transaction is at hand. *)
Definition runState (pollBatteryState : Z → M unit)
    (next_state : option SMBusCommand) (transaction : IOSMBusTransaction)
  : M unit :=
  match next_state with
  | None => state_start
  | Some kMStateContCmd => state_kMStateContCmd transaction
  | Some kMStateCmd => state_kMStateCmd transaction
  | Some kBBatteryStatusCmd => state_kBBatteryStatusCmd transaction
  | Some kBManufactureNameCmd => state_kBManufactureNameCmd transaction
  | Some kBManufactureDateCmd => state_kBManufactureDateCmd transaction
  | Some kBDeviceNameCmd => state_kBDeviceNameCmd transaction
  | Some kBSerialNumberCmd => state_kBSerialNumberCmd transaction
  | Some kBDesignCapacityCmd => state_kBDesignCapacityCmd transaction
  | Some kBRemainingCapacityCmd => state_kBRemainingCapacityCmd transaction
  | Some kBFullChargeCapacityCmd => state_kBFullChargeCapacityCmd transaction
  | Some kBAverageCurrentCmd => state_kBAverageCurrentCmd transaction
  | Some kBVoltageCmd => state_kBVoltageCmd transaction
  | Some kBMaxErrorCmd => state_kBMaxErrorCmd transaction
  | Some kBCycleCountCmd => state_kBCycleCountCmd transaction
  | Some kBAverageTimeToEmptyCmd => state_kBAverageTimeToEmptyCmd transaction
  | Some kBAverageTimeToFullCmd => state_kBAverageTimeToFullCmd transaction
  | Some kBTemperatureCmd => state_kBTemperatureCmd transaction
  | Some kBReadCellVoltage1Cmd =>
      state_kBReadCellVoltageCmd kBReadCellVoltage1Cmd transaction
  | Some kBReadCellVoltage2Cmd =>
      state_kBReadCellVoltageCmd kBReadCellVoltage2Cmd transaction
  | Some kBReadCellVoltage3Cmd =>
      state_kBReadCellVoltageCmd kBReadCellVoltage3Cmd transaction
  | Some kBReadCellVoltage4Cmd =>
      state_kBReadCellVoltageCmd kBReadCellVoltage4Cmd transaction
  | Some kBCurrentCmd => state_kBCurrentCmd pollBatteryState transaction
  end.

(** [transactionCompletion(ref, transaction)], with the member function it
    calls back left open.  Every path returns [true]. *)
Definition transactionCompletion_with (pollBatteryState : Z → M unit)
    (ref : option SMBusCommand) (transaction : option IOSMBusTransaction)
  : M bool :=
  aborted ← abortOngoingPoll transaction;
  if (aborted : bool) then mret true
  else
    reboot ← gets fRebootPolling;
    match transaction with
    | Some t =>
        if (reboot : bool) then
          modify (set_fRebootPolling false);;
          state_start;;
          mret true
        else
          transaction_needs_retry ← needsRetry t;
          if (transaction_needs_retry : bool) then
            retryTransaction t;;
            mret true
          else
            runState pollBatteryState ref t;;
            mret true
    | None =>
        (* NULL argument for transaction means we should start the state
           machine from scratch.  Zero is the start state. *)
        modify (set_fRebootPolling false);;
        state_start;;
        mret true
    end.

(** [pollBatteryState].  Its result is dropped by every caller.  The call
    [transactionCompletion((void * )0, NULL)] runs the start state, which
    calls nothing back ([transactionCompletion_start]), so the callee
    handed to it is inert. *)
Definition pollBatteryState (path : Z) : M unit :=
  stalled ← gets fStalledByUserClient;
  if (stalled : bool) then mret tt
  else
    modify (set_fMachinePath path);;
    polling ← gets fPollingNow;
    if negb polling then
      (* Start the battery polling state machine in the 0 start state *)
      transactionCompletion_with (λ _, mret tt) None None;;
      mret tt
    else
      (* Outstanding transaction in process; flag it to restart polling *)
      modify (set_fRebootPolling true).

Definition transactionCompletion
    (ref : option SMBusCommand) (transaction : option IOSMBusTransaction)
  : M bool :=
  transactionCompletion_with pollBatteryState ref transaction.

Definition handleBatteryInserted : M unit :=
  pollBatteryState kNewBatteryPath.

Definition handleInflowDisabled (inflow_state : bool) : M unit :=
  modify (set_fInflowDisabled inflow_state);;
  pollBatteryState kExistingBatteryPath.

Definition handleChargeInhibited (charge_state : bool) : M unit :=
  modify (set_fChargeInhibited charge_state);;
  pollBatteryState kExistingBatteryPath.

Definition handleUCStalled (stall : bool) : M unit :=
  if stall then
    setProperty "BatteryUpdatesUserClientStalled" (OSBoolean true);;
    modify (set_fStalledByUserClient true);;
    fPollTimer_cancelTimeout;;
    polling ← gets fPollingNow;
    when polling
      (modify (set_fCancelPolling true);;
       fBatteryReadAllTimer_cancelTimeout)
  else
    removeProperty "BatteryUpdatesUserClientStalled";;
    modify (set_fStalledByUserClient false);;
    pollBatteryState kNewBatteryPath.

(** [pollingTimeOut]: regular poll expiration handler. *)
Definition pollingTimeOut : M unit :=
  polling ← gets fPollingNow;
  when (negb polling) (pollBatteryState kExistingBatteryPath).

(** [incompleteReadTimeOut]: the whole read has not completed in time. *)
Definition incompleteReadTimeOut : M unit :=
  logReadError kErrorOverallTimeoutExpired 0 None;;
  retries ← gets fIncompleteReadRetries;
  when (0 <? retries)
    (modify (set_fIncompleteReadRetries (retries - 1));;
     (* Re-start *)
     pollBatteryState kNewBatteryPath).

(** A freshly allocated object: [OSObject::operator new] zero-fills. *)
Definition zeroed : AppleSmartBattery :=
  {| fPollingNow := false; fCancelPolling := false; fRebootPolling := false;
     fStalledByUserClient := false; fMachinePath := 0; fRetryAttempts := 0;
     fFullyDischarged := false; fFullyCharged := false;
     fBatteryPresent := false; fACConnected := false;
     fInflowDisabled := false; fChargeInhibited := false;
     fAvgCurrent := 0; fRemainingCapacity := 0; fFullChargeCapacity := 0;
     fPollingInterval := 0; fPollingOverridden := false;
     fInitialPollCountdown := 0; fIncompleteReadRetries := 0;
     fCellVoltages := None; fTransaction := None;
     milliSecPollingTable := milliSecPollingTable_init;
     properties := ∅; registry := ∅;
     fPollTimer := None; fBatteryReadAllTimer := None; trace := [] |}.

(** [start], on the path where the provider, the work loop and the timers
    are obtained.  [debugPollingSetting] is the value of the
    "BatteryPollingPeriodOverride" property, if the provider has one. *)
Definition start (debugPollingSetting : option Z) : M bool :=
  match debugPollingSetting with
  | Some seconds =>
      modify (set_fPollingInterval (seconds mod 2 ^ 32));;
      modify (set_fPollingOverridden true)
  | None =>
      modify (set_fPollingInterval kDefaultPollInterval);;
      modify (set_fPollingOverridden false)
  end;;
  modify (set_fPollingNow false);;
  modify (set_fCancelPolling false);;
  modify (set_fRetryAttempts 0);;
  modify (set_fFullyDischarged false);;
  modify (set_fFullyCharged false);;
  modify (set_fBatteryPresent false);;
  modify (set_fACConnected false);;
  modify (set_fAvgCurrent 0);;
  modify (set_fInflowDisabled false);;
  modify (set_fRebootPolling false);;
  modify (set_fCellVoltages None);;
  modify (set_fIncompleteReadRetries kIncompleteReadRetryMax);;
  (* read battery state at least 5 times after system boot *)
  modify (set_fInitialPollCountdown kInitialPollCountdown);;
  setProperty kIOPMPSInvalidWakeSecondsKey
    (OSNumber_withNumber kSecondsUntilValidOnWake 32);;
  setProperty kIOPMPSPostChargeWaitSecondsKey
    (OSNumber_withNumber kPostChargeWaitSeconds 32);;
  setProperty kIOPMPSPostDishargeWaitSecondsKey
    (OSNumber_withNumber kPostDischargeWaitSeconds 32);;
  clearBatteryState false;;
  pollBatteryState kNewBatteryPath;;
  mret true.

End Driver.

(** ** One assignment of the header constants

    The values given by the Smart Battery Data and Smart Battery System
    Manager specifications (rev 1.1) and by IOKit.  The theorems below hold
    for every assignment; this one serves to run the machine on concrete
    inputs. *)
Definition sbs_statusCode (s : IOSMBusStatus) : Z :=
  match s with
  | kIOSMBusStatusOK => 0x00
  | kIOSMBusStatusUnknownFailure => 0x07
  | kIOSMBusStatusDeviceAddressNotAcknowledged => 0x10
  | kIOSMBusStatusDeviceError => 0x11
  | kIOSMBusStatusDeviceCommandAccessDenied => 0x12
  | kIOSMBusStatusUnknownHostError => 0x13
  | kIOSMBusStatusDeviceAccessDenied => 0x17
  | kIOSMBusStatusTimeout => 0x18
  | kIOSMBusStatusHostUnsupportedProtocol => 0x19
  | kIOSMBusStatusBusy => 0x1a
  | kIOSMBusStatusPECError => 0x1f
  end.

Definition sbs_commandCode (c : SMBusCommand) : Z :=
  match c with
  | kMStateCmd => 0x01
  | kMStateContCmd => 0x02
  | kBTemperatureCmd => 0x08
  | kBVoltageCmd => 0x09
  | kBCurrentCmd => 0x0a
  | kBAverageCurrentCmd => 0x0b
  | kBMaxErrorCmd => 0x0c
  | kBRemainingCapacityCmd => 0x0f
  | kBFullChargeCapacityCmd => 0x10
  | kBAverageTimeToEmptyCmd => 0x12
  | kBAverageTimeToFullCmd => 0x13
  | kBBatteryStatusCmd => 0x16
  | kBCycleCountCmd => 0x17
  | kBDesignCapacityCmd => 0x18
  | kBManufactureDateCmd => 0x1b
  | kBSerialNumberCmd => 0x1c
  | kBManufactureNameCmd => 0x20
  | kBDeviceNameCmd => 0x21
  | kBReadCellVoltage4Cmd => 0x3c
  | kBReadCellVoltage3Cmd => 0x3d
  | kBReadCellVoltage2Cmd => 0x3e
  | kBReadCellVoltage1Cmd => 0x3f
  end.

Definition sbs : HeaderConstants :=
  {| statusCode := sbs_statusCode;
     commandCode := sbs_commandCode;
     kMACPresentBit := 0x0001;
     kMPowerNotGoodBit := 0x0002;
     kMPresentBatt_A_Bit := 0x0001;
     kMChargingBatt_A_Bit := 0x0010;
     kBFullyChargedStatusBit := 0x0020;
     kBFullyDischargedStatusBit := 0x0010;
     kBTerminateDischargeAlarmBit := 0x0800;
     kBTerminateChargeAlarmBit := 0x4000;
     kIOPMSetACAdaptorConnected := 0x40000;
     kIOPMSetValue := 0x10000;
     kIOPMACInstalled := 0x1;
     kIOPMBatteryInstalled := 0x4;
     kIOPMBatteryCharging := 0x2 |}.

(** ** Vocabulary of the statements *)

Definition is_delay (e : Event) : bool :=
  match e with
  | IODelay _ | IOSleep _ => true
  | _ => false
  end.

Definition is_read_of (c : SMBusCommand) (e : Event) : bool :=
  match e with
  | performTransaction _ _ c' => bool_decide (c = c')
  | _ => false
  end.

Definition is_read (e : Event) : bool :=
  match e with
  | performTransaction _ _ _ => true
  | _ => false
  end.

Definition is_zero_capacity_error (e : Event) : bool :=
  match e with
  | BattLogError error_type _ _ => bool_decide (error_type = kErrorZeroCapacity)
  | _ => false
  end.

(** An event that would belong to a retry of the transaction whose state
    token is [ref]: a delay, or a read of the same command. *)
Definition is_retry_of (ref : option SMBusCommand) (e : Event) : bool :=
  is_delay e
  || match ref with
     | Some c => is_read_of c e
     | None => false
     end.

(** The backoff in the words of the specification: 10 µs, 100 µs, 1 ms,
    10 ms, 250 ms for attempts 0 to 4; a busy wait below 1 ms, a sleep from
    1 ms on. *)
Definition documented_backoff (attempt : Z) : Event :=
  match attempt with
  | 0 => IODelay 10
  | 1 => IODelay 100
  | 2 => IOSleep 1
  | 3 => IOSleep 10
  | _ => IOSleep 250
  end.

(** The previous transaction is "definitively failed" for the retry policy:
    if its status asks for a retry, the retries are used up. *)
Definition definitive (t : IOSMBusTransaction) (this : AppleSmartBattery) : Prop :=
  STATUS_ERROR_NEEDS_RETRY (status t) = true → fRetryAttempts this = kRetryAttempts.

(** What the retry policy leaves alone. *)
Definition same_telemetry (a b : AppleSmartBattery) : Prop :=
  fPollingNow a = fPollingNow b ∧ fCancelPolling a = fCancelPolling b
  ∧ fRebootPolling a = fRebootPolling b
  ∧ fStalledByUserClient a = fStalledByUserClient b
  ∧ fMachinePath a = fMachinePath b
  ∧ fFullyDischarged a = fFullyDischarged b ∧ fFullyCharged a = fFullyCharged b
  ∧ fBatteryPresent a = fBatteryPresent b ∧ fACConnected a = fACConnected b
  ∧ fInflowDisabled a = fInflowDisabled b ∧ fChargeInhibited a = fChargeInhibited b
  ∧ fAvgCurrent a = fAvgCurrent b ∧ fRemainingCapacity a = fRemainingCapacity b
  ∧ fFullChargeCapacity a = fFullChargeCapacity b
  ∧ fPollingInterval a = fPollingInterval b
  ∧ fPollingOverridden a = fPollingOverridden b
  ∧ fInitialPollCountdown a = fInitialPollCountdown b
  ∧ fIncompleteReadRetries a = fIncompleteReadRetries b
  ∧ fCellVoltages a = fCellVoltages b ∧ fTransaction a = fTransaction b
  ∧ milliSecPollingTable a = milliSecPollingTable b
  ∧ properties a = properties b
  ∧ fPollTimer a = fPollTimer b ∧ fBatteryReadAllTimer a = fBatteryReadAllTimer b.

(** A member function keeps an invariant of the object. *)
Definition preserves {A} (I : AppleSmartBattery → Prop) (c : M A) : Prop :=
  ∀ this, I this → I (c this).2.

(** ** Scenarios: a battery behind the transport *)

(** Modelled from the spec: [AppleSmartBatteryManager::performTransaction],
    the transport, is not among the sources.  It performs one bus
    transaction asynchronously and completes it by calling
    [transactionCompletion] with the reference it was given, here the
    command, and the transaction filled in with the status and the received
    bytes. *)

Definition deliver {hdr : HeaderConstants} (t : IOSMBusTransaction) : M bool :=
  transactionCompletion (Some (command t)) (Some t).

Definition deliver_all {hdr : HeaderConstants} (ts : list IOSMBusTransaction)
    (this : AppleSmartBattery) : AppleSmartBattery :=
  foldl (λ s t, exec (deliver t) s) this ts.

Definition word_reply (a : SMBusAddress) (c : SMBusCommand) (lo hi : byte)
  : IOSMBusTransaction :=
  mkTransaction kIOSMBusProtocolReadWord a c kIOSMBusStatusOK [lo; hi] 2.

Definition block_reply (c : SMBusCommand) (data : list byte) : IOSMBusTransaction :=
  mkTransaction kIOSMBusProtocolReadBlock kSMBusBatteryAddr c kIOSMBusStatusOK
    data (Z.of_nat (length data)).

Definition failed_reply (p : IOSMBusProtocol) (a : SMBusAddress) (c : SMBusCommand)
    (st : IOSMBusStatus) : IOSMBusTransaction :=
  mkTransaction p a c st [] 0.

(** AC present and power good; battery A present and charging. *)
Definition manager_replies : list IOSMBusTransaction :=
  [ word_reply kSMBusManagerAddr kMStateContCmd x01 x00;
    word_reply kSMBusManagerAddr kMStateCmd x11 x00 ].

(** Identity of the pack, read on the new battery path. *)
Definition identity_replies : list IOSMBusTransaction :=
  [ block_reply kBManufactureNameCmd [x53; x4d; x50];
    word_reply kSMBusBatteryAddr kBManufactureDateCmd x21 x36;
    block_reply kBDeviceNameCmd [x41; x53; x4d; x42];
    word_reply kSMBusBatteryAddr kBSerialNumberCmd x39 x30;
    word_reply kSMBusBatteryAddr kBDesignCapacityCmd x50 x14 ].

(** Average current +1500 mA down to the instantaneous current. *)
Definition tail_replies : list IOSMBusTransaction :=
  [ word_reply kSMBusBatteryAddr kBAverageCurrentCmd xdc x05;
    word_reply kSMBusBatteryAddr kBVoltageCmd x38 x31;
    word_reply kSMBusBatteryAddr kBMaxErrorCmd x01 x00;
    word_reply kSMBusBatteryAddr kBCycleCountCmd x2a x00;
    word_reply kSMBusBatteryAddr kBAverageTimeToEmptyCmd xff xff;
    word_reply kSMBusBatteryAddr kBAverageTimeToFullCmd x5a x00;
    word_reply kSMBusBatteryAddr kBTemperatureCmd xb8 x0b;
    word_reply kSMBusBatteryAddr kBReadCellVoltage1Cmd x68 x10;
    word_reply kSMBusBatteryAddr kBReadCellVoltage2Cmd x68 x10;
    word_reply kSMBusBatteryAddr kBReadCellVoltage3Cmd x68 x10;
    word_reply kSMBusBatteryAddr kBReadCellVoltage4Cmd x68 x10;
    word_reply kSMBusBatteryAddr kBCurrentCmd xdc x05 ].

(** Battery status 0x0080 (initialized, no alarm). *)
Definition status_reply_healthy : IOSMBusTransaction :=
  word_reply kSMBusBatteryAddr kBBatteryStatusCmd x80 x00.

(** Battery status 0x4800: terminate-charge and terminate-discharge alarms. *)
Definition status_reply_failed : IOSMBusTransaction :=
  word_reply kSMBusBatteryAddr kBBatteryStatusCmd x00 x48.

(** Remaining capacity 100 mAh of a full charge capacity of 5000 mAh. *)
Definition remaining_reply_100 : IOSMBusTransaction :=
  word_reply kSMBusBatteryAddr kBRemainingCapacityCmd x64 x00.
Definition full_reply_5000 : IOSMBusTransaction :=
  word_reply kSMBusBatteryAddr kBFullChargeCapacityCmd x88 x13.
Definition full_reply_zero : IOSMBusTransaction :=
  word_reply kSMBusBatteryAddr kBFullChargeCapacityCmd x00 x00.
Definition full_reply_busy : IOSMBusTransaction :=
  failed_reply kIOSMBusProtocolReadWord kSMBusBatteryAddr kBFullChargeCapacityCmd
    kIOSMBusStatusBusy.

(** One whole poll of a new battery, charging at 2 % on AC. *)
Definition new_battery_poll : list IOSMBusTransaction :=
  manager_replies ++ [status_reply_healthy] ++ identity_replies
    ++ [remaining_reply_100; full_reply_5000] ++ tail_replies.

(** The driver after [start] with no debug override: the first read of the
    first poll is in flight. *)
Definition booted : AppleSmartBattery := exec (start (hdr := sbs) None) zeroed.

(** The driver after [start] with the debug override 0 (continuous polling). *)
Definition booted_continuous : AppleSmartBattery :=
  exec (start (hdr := sbs) (Some 0)) zeroed.

(** The first poll is through; the poll timer has fired and the second poll,
    on the existing battery path, waits for its full-charge-capacity read. *)
Definition second_poll_at_full_charge : AppleSmartBattery :=
  deliver_all (hdr := sbs)
    (manager_replies ++ [status_reply_healthy; remaining_reply_100])
    (exec (pollingTimeOut (hdr := sbs))
       (set_fPollTimer None (deliver_all (hdr := sbs) new_battery_poll booted))).

(** The first poll waits for its battery status read. *)
Definition first_poll_at_status : AppleSmartBattery :=
  deliver_all (hdr := sbs) manager_replies booted.

(** The first poll waits for its full-charge-capacity read. *)
Definition first_poll_at_full_charge : AppleSmartBattery :=
  deliver_all (hdr := sbs)
    (manager_replies ++ [status_reply_healthy] ++ identity_replies
       ++ [remaining_reply_100])
    booted.

(** The sequence before its last reply. *)
Definition poll_before_terminal (this : AppleSmartBattery) : AppleSmartBattery :=
  deliver_all (hdr := sbs)
    (manager_replies ++ [status_reply_healthy] ++ identity_replies
       ++ [remaining_reply_100; full_reply_5000] ++ removelast tail_replies)
    this.

Definition current_reply : IOSMBusTransaction :=
  word_reply kSMBusBatteryAddr kBCurrentCmd xdc x05.

(** A block read of the manufacturer name that the bus reports busy. *)
Definition manufacturer_reply_busy : IOSMBusTransaction :=
  failed_reply kIOSMBusProtocolReadBlock kSMBusBatteryAddr kBManufactureNameCmd
    kIOSMBusStatusBusy.

(** The first poll waits for the manufacturer name. *)
Definition first_poll_at_manufacturer : AppleSmartBattery :=
  deliver_all (hdr := sbs) (manager_replies ++ [status_reply_healthy]) booted.

(** A controller-status read that fails its packet error check. *)
Definition controller_reply_pec : IOSMBusTransaction :=
  failed_reply kIOSMBusProtocolReadWord kSMBusManagerAddr kMStateContCmd
    kIOSMBusStatusPECError.

(** ** The entry points of the driver *)

Inductive Call : Type :=
| call_transactionCompletion (ref : option SMBusCommand)
    (transaction : option IOSMBusTransaction)
| call_pollBatteryState (path : Z)
| call_handleBatteryInserted
| call_handleBatteryRemoved
| call_handleInflowDisabled (inflow_state : bool)
| call_handleChargeInhibited (charge_state : bool)
| call_handleUCStalled (stall : bool)
| call_pollingTimeOut
| call_incompleteReadTimeOut
| call_setPollingInterval (milliSeconds : Z).

Definition perform {hdr : HeaderConstants} (c : Call) : M unit :=
  match c with
  | call_transactionCompletion ref transaction =>
      transactionCompletion ref transaction;; mret tt
  | call_pollBatteryState path => pollBatteryState path
  | call_handleBatteryInserted => handleBatteryInserted
  | call_handleBatteryRemoved => handleBatteryRemoved
  | call_handleInflowDisabled inflow_state => handleInflowDisabled inflow_state
  | call_handleChargeInhibited charge_state => handleChargeInhibited charge_state
  | call_handleUCStalled stall => handleUCStalled stall
  | call_pollingTimeOut => pollingTimeOut
  | call_incompleteReadTimeOut => incompleteReadTimeOut
  | call_setPollingInterval milliSeconds => setPollingInterval milliSeconds
  end.

(** The objects the driver can be in: [start] on a fresh object, then any
    calls of the entry points, with any arguments, in any order; a timer
    that fires is no longer armed. *)
Inductive reachable {hdr : HeaderConstants} : AppleSmartBattery → Prop :=
| reachable_start debugPollingSetting :
    reachable (exec (start debugPollingSetting) zeroed)
| reachable_call c this :
    reachable this → reachable (exec (perform c) this)
| reachable_fPollTimer_fired this :
    reachable this → reachable (set_fPollTimer None this)
| reachable_fBatteryReadAllTimer_fired this :
    reachable this → reachable (set_fBatteryReadAllTimer None this).

(** Weakest precondition of a member function. *)
Definition wp {A} (c : M A) (Q : A → AppleSmartBattery → Prop)
    (this : AppleSmartBattery) : Prop :=
  Q (c this).1 (c this).2.

Arguments wp : simpl never.

(** The keys [clearBatteryState] writes or removes in [properties]. *)
Definition clearedKeys : list string :=
  [ batteryInstalledKey; chargingKey; currentCapacityKey; maxCapacityKey;
    timeRemainingKey; amperageKey; voltageKey; cycleCountKey; adapterInfoKey;
    locationKey; manufacturerKey; serialKey; batteryInfoKey ].

(** [OSDictionary::getObject] on a published object: the first entry under
    the key, if the object is a dictionary. *)
Definition OSDictionary_getObject (key : string) (o : option OSObject)
  : option OSObject :=
  match o with
  | Some (OSDictionary entries) =>
      snd <$> List.find (λ e, bool_decide (e.1 = key)) entries
  | _ => None
  end.

(** The entry points that ask for a poll or change a setting: all but the
    completion callback and the unstall. *)
Definition is_request (c : Call) : bool :=
  match c with
  | call_transactionCompletion _ _ | call_handleUCStalled false => false
  | _ => true
  end.

Definition countdowns_are (n m : Z) (this : AppleSmartBattery) : Prop :=
  fInitialPollCountdown this = n ∧ fIncompleteReadRetries this = m.

Definition polling_table_ok (this : AppleSmartBattery) : Prop :=
  length (milliSecPollingTable this) = 2%nat
  ∧ milliSecPollingTable this !! 1%nat = Some 1000
  ∧ (fPollingOverridden this = false →
     fPollingInterval this = kDefaultPollInterval
     ∨ fPollingInterval this = kQuickPollInterval).

Definition is_full_discharge (e : Event) : bool :=
  match e with
  | handleFullDischarge => true
  | _ => false
  end.

Definition is_power_notification (e : Event) : bool :=
  match e with
  | receivePowerNotification _ => true
  | _ => false
  end.

Definition is_publication (e : Event) : bool :=
  match e with
  | updateStatus_published _ => true
  | _ => false
  end.

(** The read that follows each state of the sequence, where one always
    follows: protocol, address and command.  The battery-system-state
    handler reads on only if a battery is present, and the last state reads
    nothing more of the sequence. *)
Definition successor (path : Z) (next_state : SMBusCommand)
  : option (IOSMBusProtocol * SMBusAddress * SMBusCommand) :=
  match next_state with
  | kMStateContCmd => Some (kIOSMBusProtocolReadWord, kSMBusManagerAddr, kMStateCmd)
  | kMStateCmd => None
  | kBBatteryStatusCmd =>
      if kNewBatteryPath =? path
      then Some (kIOSMBusProtocolReadBlock, kSMBusBatteryAddr, kBManufactureNameCmd)
      else Some (kIOSMBusProtocolReadWord, kSMBusBatteryAddr, kBRemainingCapacityCmd)
  | kBManufactureNameCmd =>
      Some (kIOSMBusProtocolReadWord, kSMBusBatteryAddr, kBManufactureDateCmd)
  | kBManufactureDateCmd =>
      Some (kIOSMBusProtocolReadBlock, kSMBusBatteryAddr, kBDeviceNameCmd)
  | kBDeviceNameCmd =>
      Some (kIOSMBusProtocolReadWord, kSMBusBatteryAddr, kBSerialNumberCmd)
  | kBSerialNumberCmd =>
      Some (kIOSMBusProtocolReadWord, kSMBusBatteryAddr, kBDesignCapacityCmd)
  | kBDesignCapacityCmd =>
      Some (kIOSMBusProtocolReadWord, kSMBusBatteryAddr, kBRemainingCapacityCmd)
  | kBRemainingCapacityCmd =>
      Some (kIOSMBusProtocolReadWord, kSMBusBatteryAddr, kBFullChargeCapacityCmd)
  | kBFullChargeCapacityCmd =>
      Some (kIOSMBusProtocolReadWord, kSMBusBatteryAddr, kBAverageCurrentCmd)
  | kBAverageCurrentCmd =>
      Some (kIOSMBusProtocolReadWord, kSMBusBatteryAddr, kBVoltageCmd)
  | kBVoltageCmd =>
      Some (kIOSMBusProtocolReadWord, kSMBusBatteryAddr, kBMaxErrorCmd)
  | kBMaxErrorCmd =>
      Some (kIOSMBusProtocolReadWord, kSMBusBatteryAddr, kBCycleCountCmd)
  | kBCycleCountCmd =>
      Some (kIOSMBusProtocolReadWord, kSMBusBatteryAddr, kBAverageTimeToEmptyCmd)
  | kBAverageTimeToEmptyCmd =>
      Some (kIOSMBusProtocolReadWord, kSMBusBatteryAddr, kBAverageTimeToFullCmd)
  | kBAverageTimeToFullCmd =>
      Some (kIOSMBusProtocolReadWord, kSMBusBatteryAddr, kBTemperatureCmd)
  | kBTemperatureCmd =>
      Some (kIOSMBusProtocolReadWord, kSMBusBatteryAddr, kBReadCellVoltage1Cmd)
  | kBReadCellVoltage1Cmd =>
      Some (kIOSMBusProtocolReadWord, kSMBusBatteryAddr, kBReadCellVoltage2Cmd)
  | kBReadCellVoltage2Cmd =>
      Some (kIOSMBusProtocolReadWord, kSMBusBatteryAddr, kBReadCellVoltage3Cmd)
  | kBReadCellVoltage3Cmd =>
      Some (kIOSMBusProtocolReadWord, kSMBusBatteryAddr, kBReadCellVoltage4Cmd)
  | kBReadCellVoltage4Cmd =>
      Some (kIOSMBusProtocolReadWord, kSMBusBatteryAddr, kBCurrentCmd)
  | kBCurrentCmd => None
  end.

(** A call hands at most one transaction to the transport, and then the
    transaction buffer describes it. *)
Definition issues_at_most_one_read (this after : AppleSmartBattery) : Prop :=
  List.filter is_read (trace after) = List.filter is_read (trace this)
  ∨ ∃ p a c,
      List.filter is_read (trace after) =
        List.filter is_read (trace this) ++ [performTransaction p a c]
      ∧ fTransaction after = Some (mkTransaction p a c kIOSMBusStatusOK [] 0).

(** The states whose handler publishes nothing. *)
Definition publishes_at (next_state : option SMBusCommand) : bool :=
  match next_state with
  | Some kMStateCmd | Some kBBatteryStatusCmd | Some kBCurrentCmd => true
  | _ => false
  end.

(** The number published for one cell: the word read, or 0 if the read has
    failed. *)
Definition cellVoltage_number (t : IOSMBusTransaction) : OSObject :=
  OSNumber_withNumber
    (if bool_decide (kIOSMBusStatusOK = status t) then receiveWord t else 0) 16.

Definition read_word_of (c : SMBusCommand) : Event :=
  performTransaction kIOSMBusProtocolReadWord kSMBusBatteryAddr c.

(** ** The configd plug-in

    The second translation unit of the source file: the user-space plug-in
    that relays power-management notifications and tells the SMU the time
    zone offset. *)

Definition kApplePMUUCMagicCookie : Z := 0x0101BEEF.
Definition MACH_PORT_NULL : Z := 0.

(** The message types this translation unit names; any other message type
    is [kIOMessageOther]. *)
Inductive IOMessage : Set :=
| kIOMessageDeviceWillPowerOff
| kIOMessageDeviceHasPoweredOn
| kIOMessageSystemWillSleep
| kIOMessageCanSystemSleep
| kIOMessageSystemHasPoweredOn
| kIOPMUMessageLegacyAutoWake
| kIOPMUMessageLegacyAutoPower
| kIOPMMessageBatteryStatusHasChanged
| kIOMessageOther (messageType : Z).

(** What the plug-in calls in the operating system and in the other
    modules of the plug-in. *)
Inductive OSCall : Type :=
| IOServiceGetMatchingService (name : string)
| IOObjectRelease (object : Z)
| IOServiceOpen (service : Z) (type : Z)
| CFTimeZoneResetSystem
| IOConnectSetCFProperty (connect : Z) (propertyName : string) (secondsOffset : Z)
| IOAllowPowerChange (kernelPort : Z) (notificationID : Z)
| BatteryTimeRemainingSleepWakeNotification (messageType : IOMessage)
| PMSettingsSleepWakeNotification (messageType : IOMessage)
| AutoWakeSleepWakeNotification (messageType : IOMessage)
| RepeatingAutoWakeSleepWakeNotification (messageType : IOMessage).

(** What the operating system answers during one callback. *)
Record Host : Set := mkHost {
  (* IOServiceGetMatchingService(0, IOServiceNameMatching("AppleSMU")) *)
  AppleSMU_service : Z;
  (* the connection IOServiceOpen stores *)
  AppleSMU_connect : Z;
  (* CFTimeZoneGetSecondsFromGMT of the system time zone, as int; None if
     CFTimeZoneCopySystem returns NULL *)
  systemTimeZone_secondsFromGMT : option Z;
  (* CFDataCreate returns an object *)
  CFDataCreate_succeeds : bool
}.

(** The file-scope and function-scope statics, and the calls made. *)
Record Configd : Type := mkConfigd {
  (* displayPowerStateChange *)
  level : Z;
  (* systemHasSMU *)
  systemHasSMU_smuRegEntry : Z;
  known : bool;
  (* tellSMU_GMTOffset *)
  smuRegEntry : Z;
  smuConnect : Z;
  _pm_ack_port : Z;
  calls : list OSCall
}.

Definition set_level (v : Z) (s : Configd) :=
  let '(mkConfigd _ b c d e f g) := s in mkConfigd v b c d e f g.
Definition set_systemHasSMU_smuRegEntry (v : Z) (s : Configd) :=
  let '(mkConfigd a _ c d e f g) := s in mkConfigd a v c d e f g.
Definition set_known (v : bool) (s : Configd) :=
  let '(mkConfigd a b _ d e f g) := s in mkConfigd a b v d e f g.
Definition set_smuRegEntry (v : Z) (s : Configd) :=
  let '(mkConfigd a b c _ e f g) := s in mkConfigd a b c v e f g.
Definition set_smuConnect (v : Z) (s : Configd) :=
  let '(mkConfigd a b c d _ f g) := s in mkConfigd a b c d v f g.
Definition set_calls (v : list OSCall) (s : Configd) :=
  let '(mkConfigd a b c d e f _) := s in mkConfigd a b c d e f v.

Definition ConfigdM (A : Type) : Type := Configd → A * Configd.

#[global] Instance ConfigdM_ret : MRet ConfigdM := λ A a s, (a, s).
#[global] Instance ConfigdM_bind : MBind ConfigdM :=
  λ A B f c s, let '(a, s') := c s in f a s'.

Definition peek {A} (f : Configd → A) : ConfigdM A := λ s, (f s, s).
Definition poke (f : Configd → Configd) : ConfigdM unit := λ s, (tt, f s).
Definition call (c : OSCall) : ConfigdM unit :=
  poke (λ s, set_calls (calls s ++ [c]) s).
(** [systemHasSMU] *)
Definition systemHasSMU (host : Host) : ConfigdM bool :=
  is_known ← peek known;
  if (is_known : bool) then
    entry ← peek systemHasSMU_smuRegEntry;
    mret (nonzero entry)
  else
    call (IOServiceGetMatchingService "AppleSMU");;
    poke (set_systemHasSMU_smuRegEntry (AppleSMU_service host));;
    entry ← peek systemHasSMU_smuRegEntry;
    if MACH_PORT_NULL =? entry then
      (* SMU not supported on this platform *)
      poke (set_known true);;
      mret false
    else
      call (IOObjectRelease entry);;
      poke (set_known true);;
      mret true.

(** [tellSMU_GMTOffset]: tell the SMU what the seconds offset from GMT
    is. *)
Definition tellSMU_GMTOffset (host : Host) : ConfigdM unit :=
  has_smu ← systemHasSMU host;
  if negb has_smu then mret tt
  else
    entry ← peek smuRegEntry;
    located ←
      (if MACH_PORT_NULL =? entry then
         (* Find SMU node *)
         call (IOServiceGetMatchingService "AppleSMU");;
         poke (set_smuRegEntry (AppleSMU_service host));;
         entry ← peek smuRegEntry;
         if MACH_PORT_NULL =? entry then
           (* Error - unable to locate SMU *)
           mret false
         else
           (* Open up SMU's User Client *)
           call (IOServiceOpen entry kApplePMUUCMagicCookie);;
           poke (set_smuConnect (AppleSMU_connect host));;
           mret true
       else mret true);
    if negb located then mret tt
    else
      call CFTimeZoneResetSystem;;
      match systemTimeZone_secondsFromGMT host with
      | None => mret tt
      | Some secondsOffset =>
          if CFDataCreate_succeeds host then
            connect ← peek smuConnect;
            call (IOConnectSetCFProperty connect "TimeZoneOffsetSeconds"
                    secondsOffset)
          else mret tt
      end.

(** [displayPowerStateChange]; [level] is an [int]. *)
Definition displayPowerStateChange (host : Host) (messageType : IOMessage)
  : ConfigdM unit :=
  match messageType with
  | kIOMessageDeviceWillPowerOff =>
      poke (λ s, set_level (to_int32 ((level s + 1) mod 2 ^ 32)) s);;
      now ← peek level;
      if 2 =? now then
        (* Display is transition from dim to full sleep. *)
        tellSMU_GMTOffset host
      else mret tt
  | kIOMessageDeviceHasPoweredOn => poke (set_level 0)
  | _ => mret tt
  end.

(** [SleepWakeCallback]; the case [kIOMessageSystemWillSleep] falls through
    to [kIOMessageCanSystemSleep]. *)
Definition SleepWakeCallback (host : Host) (messageType : IOMessage)
    (messageArgument : Z) : ConfigdM unit :=
  call (BatteryTimeRemainingSleepWakeNotification messageType);;
  call (PMSettingsSleepWakeNotification messageType);;
  call (AutoWakeSleepWakeNotification messageType);;
  call (RepeatingAutoWakeSleepWakeNotification messageType);;
  match messageType with
  | kIOMessageSystemWillSleep =>
      (* tell SMU what our timezone offset is *)
      tellSMU_GMTOffset host;;
      port ← peek _pm_ack_port;
      call (IOAllowPowerChange port messageArgument)
  | kIOMessageCanSystemSleep =>
      port ← peek _pm_ack_port;
      call (IOAllowPowerChange port messageArgument)
  | _ => mret tt
  end.

Definition is_timezone_update (c : OSCall) : bool :=
  match c with
  | IOConnectSetCFProperty _ _ _ => true
  | _ => false
  end.

Definition is_registry_lookup (c : OSCall) : bool :=
  match c with
  | IOServiceGetMatchingService _ => true
  | _ => false
  end.

Definition is_power_change_allowed (c : OSCall) : bool :=
  match c with
  | IOAllowPowerChange _ _ => true
  | _ => false
  end.

(** The display powers on, then off [n] times in a row. *)
Definition display_messages (n : nat) : list IOMessage :=
  kIOMessageDeviceHasPoweredOn :: replicate n kIOMessageDeviceWillPowerOff.

Definition display_run (host : Host) (messages : list IOMessage) (s : Configd)
  : Configd :=
  foldl (λ s m, (displayPowerStateChange host m s).2) s messages.

(** A machine with an SMU whose time zone can be read. *)
Definition smu_host (host : Host) : Prop :=
  AppleSMU_service host ≠ MACH_PORT_NULL
  ∧ is_Some (systemTimeZone_secondsFromGMT host)
  ∧ CFDataCreate_succeeds host = true.

(** The messages that ask for an acknowledgement. *)
Definition asks_acknowledgement (messageType : IOMessage) : bool :=
  match messageType with
  | kIOMessageSystemWillSleep | kIOMessageCanSystemSleep => true
  | _ => false
  end.

Definition timezone_updates (s : Configd) : nat :=
  length (List.filter is_timezone_update (calls s)).

(** ** The next read and the failure defaults *)

(** The read a state hands out when its handler has run, if it hands one
    out.  Two states decide by more than the state and the path: the
    battery-system-state handler reads on only if the read succeeded and
    shows the battery, and the last state reads only in the continuous debug
    mode, where it begins the next poll. *)
Definition next_read {hdr : HeaderConstants} (next_state : SMBusCommand)
    (t : IOSMBusTransaction) (this : AppleSmartBattery)
  : option (IOSMBusProtocol * SMBusAddress * SMBusCommand) :=
  match next_state with
  | kMStateCmd =>
      if bool_decide (kIOSMBusStatusOK = status t)
         && bit_set (receiveWord t) kMPresentBatt_A_Bit
      then Some (kIOSMBusProtocolReadWord, kSMBusBatteryAddr, kBBatteryStatusCmd)
      else None
  | kBCurrentCmd =>
      if fPollingOverridden this && (fPollingInterval this =? 0)
         && negb (fStalledByUserClient this)
      then Some (kIOSMBusProtocolReadWord, kSMBusManagerAddr, kMStateContCmd)
      else None
  | _ => successor (fMachinePath this) next_state
  end.

Definition read_event (r : IOSMBusProtocol * SMBusAddress * SMBusCommand) : Event :=
  performTransaction r.1.1 r.1.2 r.2.

(** What the handler of each state stores for a read that has failed, from
    the failure branch of its [case]. *)
Definition failure_path_default (next_state : SMBusCommand)
    (before after : AppleSmartBattery) : Prop :=
  let zero := Some (OSNumber_withNumber 0 32) in
  match next_state with
  | kMStateContCmd =>
      fACConnected after = false
      ∧ properties after !! externalConnectedKey = Some (OSBoolean true)
      ∧ properties after !! externalChargeCapableKey = Some (OSBoolean false)
  | kMStateCmd =>
      fBatteryPresent after = false
      ∧ properties after !! batteryInstalledKey = Some (OSBoolean false)
      ∧ properties after !! chargingKey = Some (OSBoolean false)
  | kBBatteryStatusCmd =>
      fFullyCharged after = false
      ∧ fFullyDischarged after = false
      ∧ properties after !! _FullyChargedSym = Some (OSBoolean false)
  | kBManufactureNameCmd => properties after !! manufacturerKey = None
  | kBManufactureDateCmd => properties after !! _ManfDateSym = zero
  | kBDeviceNameCmd => properties after !! _DeviceNameSym = None
  | kBSerialNumberCmd => properties after !! serialKey = None
  | kBDesignCapacityCmd => properties after !! _DesignCapacitySym = zero
  | kBRemainingCapacityCmd =>
      fRemainingCapacity after = 0
      ∧ properties after !! currentCapacityKey = zero
  | kBFullChargeCapacityCmd =>
      (* [fFullChargeCapacity == 0;] stores nothing *)
      fFullChargeCapacity after = fFullChargeCapacity before
      ∧ properties after !! maxCapacityKey = zero
  | kBAverageCurrentCmd =>
      fAvgCurrent after = 0
      ∧ properties after !! amperageKey = zero
      ∧ properties after !! timeRemainingKey = zero
  | kBVoltageCmd => properties after !! voltageKey = zero
  | kBMaxErrorCmd => properties after !! _MaxErrSym = zero
  | kBCycleCountCmd => properties after !! cycleCountKey = zero
  | kBAverageTimeToEmptyCmd =>
      properties after !! timeRemainingKey = zero
      ∧ properties after !! _AvgTimeToEmptySym = zero
  | kBAverageTimeToFullCmd =>
      properties after !! timeRemainingKey = zero
      ∧ properties after !! _AvgTimeToFullSym = zero
  | kBTemperatureCmd =>
      registry after !! "Temperature" = Some (OSNumber_withNumber 0 16)
  | kBReadCellVoltage1Cmd =>
      fCellVoltages after = Some [OSNumber_withNumber 0 16]
  | kBReadCellVoltage2Cmd | kBReadCellVoltage3Cmd =>
      fCellVoltages after =
        (λ cells, cells ++ [OSNumber_withNumber 0 16]) <$> fCellVoltages before
  | kBReadCellVoltage4Cmd =>
      fCellVoltages after = None
      ∧ registry after !! _CellVoltageSym =
          (λ cells, OSArray (cells ++ [OSNumber_withNumber 0 16]))
            <$> fCellVoltages before
  | kBCurrentCmd =>
      registry after !! "RealCurrent" = Some (OSNumber_withNumber 0 16)
  end.

(** ** A whole poll *)

(** The commands of one poll, in the order of their reads. *)
Definition poll_commands (path : Z) : list SMBusCommand :=
  [kMStateContCmd; kMStateCmd; kBBatteryStatusCmd]
  ++ (if kNewBatteryPath =? path
      then [kBManufactureNameCmd; kBManufactureDateCmd; kBDeviceNameCmd;
            kBSerialNumberCmd; kBDesignCapacityCmd]
      else [])
  ++ [kBRemainingCapacityCmd; kBFullChargeCapacityCmd; kBAverageCurrentCmd;
      kBVoltageCmd; kBMaxErrorCmd; kBCycleCountCmd; kBAverageTimeToEmptyCmd;
      kBAverageTimeToFullCmd; kBTemperatureCmd; kBReadCellVoltage1Cmd;
      kBReadCellVoltage2Cmd; kBReadCellVoltage3Cmd; kBReadCellVoltage4Cmd;
      kBCurrentCmd].

(** The read of a command: the two names are read as blocks, the two
    controller registers at the address of the battery manager. *)
Definition read_of (c : SMBusCommand) : Event :=
  performTransaction
    (match c with
     | kBManufactureNameCmd | kBDeviceNameCmd => kIOSMBusProtocolReadBlock
     | _ => kIOSMBusProtocolReadWord
     end)
    (match c with
     | kMStateContCmd | kMStateCmd => kSMBusManagerAddr
     | _ => kSMBusBatteryAddr
     end)
    c.

(** A command and the one read after it. *)
Definition consecutive (cs : list SMBusCommand)
  : list (SMBusCommand * SMBusCommand) :=
  zip cs (tail cs).

(** Both data bytes of a word reply are zero. *)
Definition zero_word (t : IOSMBusTransaction) : bool :=
  (receiveByte t 1 =? 0) && (receiveByte t 0 =? 0).

(** A reply that settles the read of [c], with a battery in the bay: it
    answers that command, its status asks for no retry, a capacity is not
    read as zero, and the battery system state is read and shows the
    battery. *)
Definition settles {hdr : HeaderConstants} (c : SMBusCommand)
    (t : IOSMBusTransaction) : Prop :=
  command t = c
  ∧ STATUS_ERROR_NEEDS_RETRY (status t) = false
  ∧ (capacityCmd c = true → status t = kIOSMBusStatusOK → zero_word t = false)
  ∧ (c = kMStateCmd →
     status t = kIOSMBusStatusOK
     ∧ bit_set (receiveWord t) kMPresentBatt_A_Bit = true).

(** A poll on its course from [this]: no cancellation or restart pending,
    path, override and stall flag as they were, the interval too under an
    override, and the reads [reads] handed out since. *)
Definition on_course (this s : AppleSmartBattery) (reads : list Event) : Prop :=
  fCancelPolling s = false
  ∧ fRebootPolling s = false
  ∧ fMachinePath s = fMachinePath this
  ∧ fStalledByUserClient s = fStalledByUserClient this
  ∧ fPollingOverridden s = fPollingOverridden this
  ∧ (fPollingOverridden this = true → fPollingInterval s = fPollingInterval this)
  ∧ List.filter is_read (trace s) = List.filter is_read (trace this) ++ reads.

(** The property a name read writes. *)
Definition name_key (c : SMBusCommand) : option string :=
  match c with
  | kBManufactureNameCmd => Some manufacturerKey
  | kBDeviceNameCmd => Some _DeviceNameSym
  | _ => None
  end.

(** ** Further scenarios *)

(** Controller status 0x0001: AC present, power good. *)
Definition controller_reply_ac : IOSMBusTransaction :=
  word_reply kSMBusManagerAddr kMStateContCmd x01 x00.

(** Battery system state 0x0000: no battery in the bay. *)
Definition system_state_reply_absent : IOSMBusTransaction :=
  word_reply kSMBusManagerAddr kMStateCmd x00 x00.

(** The first poll waits for the battery system state. *)
Definition first_poll_at_system_state : AppleSmartBattery :=
  deliver_all (hdr := sbs) [controller_reply_ac] booted.

(** Average current -1500 mA (0xFA24): the battery discharges. *)
Definition average_current_reply_discharging : IOSMBusTransaction :=
  word_reply kSMBusBatteryAddr kBAverageCurrentCmd x24 xfa.

(** 120 minutes to empty; 65535 minutes to full (not charging). *)
Definition time_to_empty_reply : IOSMBusTransaction :=
  word_reply kSMBusBatteryAddr kBAverageTimeToEmptyCmd x78 x00.
Definition time_to_full_reply : IOSMBusTransaction :=
  word_reply kSMBusBatteryAddr kBAverageTimeToFullCmd xff xff.

(** A cell at 4200 mV. *)
Definition cell_reply (c : SMBusCommand) : IOSMBusTransaction :=
  word_reply kSMBusBatteryAddr c x68 x10.

(** A cell-voltage read and a full-charge-capacity read that fail their
    packet error check. *)
Definition cell_reply_pec : IOSMBusTransaction :=
  failed_reply kIOSMBusProtocolReadWord kSMBusBatteryAddr kBReadCellVoltage2Cmd
    kIOSMBusStatusPECError.
Definition full_reply_pec : IOSMBusTransaction :=
  failed_reply kIOSMBusProtocolReadWord kSMBusBatteryAddr kBFullChargeCapacityCmd
    kIOSMBusStatusPECError.

(** Battery status 0x0010: fully discharged. *)
Definition status_reply_discharged : IOSMBusTransaction :=
  word_reply kSMBusBatteryAddr kBBatteryStatusCmd x10 x00.

(** The first poll is through. *)
Definition first_poll_done : AppleSmartBattery :=
  deliver_all (hdr := sbs) new_battery_poll booted.

(** The first poll is through; a user client then stalls the driver. *)
Definition stalled_after_first_poll : AppleSmartBattery :=
  exec (handleUCStalled (hdr := sbs) true) first_poll_done.

(** An average current of -1500 mA has been read. *)
Definition discharging : AppleSmartBattery :=
  exec (deliver (hdr := sbs) average_current_reply_discharging) booted.

(** The full-charge-capacity read of the first poll has been retried
    twice. *)
Definition retried_twice : AppleSmartBattery :=
  deliver_all (hdr := sbs) (replicate 2 full_reply_busy) first_poll_at_full_charge.

(** A device name read that succeeds with no data. *)
Definition device_name_reply_empty : IOSMBusTransaction :=
  block_reply kBDeviceNameCmd [].

(** A battery-system-state read that the bus reports busy. *)
Definition system_state_reply_busy : IOSMBusTransaction :=
  failed_reply kIOSMBusProtocolReadWord kSMBusManagerAddr kMStateCmd
    kIOSMBusStatusBusy.

(** The first poll has read the permanent-failure pattern in the battery
    status: the handler has gone on to the next read. *)
Definition permanent_failure_reading : AppleSmartBattery :=
  exec (deliver (hdr := sbs) status_reply_failed) first_poll_at_status.

(** The plug-in as loaded: every static is zero. *)
Definition configd_loaded : Configd := mkConfigd 0 0 false 0 0 0 [].

(** A machine with an SMU, eight hours west of Greenwich. *)
Definition smu_machine : Host := mkHost 0x2b03 0x2c07 (Some (-28800)) true.

(** A machine without an SMU. *)
Definition other_machine : Host := mkHost 0 0 None false.

(** ** Proof automation *)

(** Reduce without opening integer and map operations. *)
Ltac msimpl :=
  cbn -[Z.eqb Z.ltb Z.leb Z.land Z.lor Z.shiftl Z.div Z.modulo Z.mul Z.pow
        Z.add Z.sub insert delete lookup nth Z.to_nat pretty isTrue
        legacy_entry legacyFlags bit_set receiveWord receiveByte recv_str
        to_int16 OSNumber_withNumber] in *.

(** Unfold the monad and the collaborators. *)
Ltac mstep :=
  unfold mbind, mret, M_bind, M_ret, gets, modify, when, emit,
    properties_setObject, properties_removeObject, properties_getObject,
    setProperty, removeProperty, getProperty,
    fPollTimer_cancelTimeout, fPollTimer_setTimeoutMS,
    fBatteryReadAllTimer_cancelTimeout, fBatteryReadAllTimer_setTimeoutMS,
    setExternalConnected, setExternalChargeCapable, setBatteryInstalled,
    setIsCharging, setCurrentCapacity, setMaxCapacity, setTimeRemaining,
    setAmperage, setVoltage, setCycleCount, setAdapterInfo, setLocation,
    setManufacturer, setSerial, setLegacyIOBatteryInfo, setMaxErr,
    setDeviceName, setFullyCharged, setAverageTimeToEmpty,
    setAverageTimeToFull, setManufactureDate, externalConnected,
    batteryInstalled, isCharging, updateStatus, logReadError, readWordAsync,
    readBlockAsync, rebuildLegacyIOBatteryInfo, clearBatteryState,
    handleBatteryRemoved, state_start, giveUpOnRetries, retryTransaction,
    abortOngoingPoll, pollBatteryState, transactionCompletion_with in *;
  msimpl.

Ltac case_if :=
  match goal with
  | |- context [if ?b then _ else _] => destruct b eqn:?
  end.

(** Run a member function on a destructed object, splitting on every test
    the object leaves open. *)
Ltac mrun :=
  repeat (progress mstep);
  repeat (case_if; try discriminate; msimpl);
  repeat (case_match; simplify_eq; msimpl).

Ltac zify_tests :=
  unfold nonzero, kRetryAttempts in *;
  repeat match goal with
    | H : (_ =? _) = true |- _ => apply Z.eqb_eq in H
    | H : (_ =? _) = false |- _ => apply Z.eqb_neq in H
    | H : (_ <? _) = true |- _ => apply Z.ltb_lt in H
    | H : (_ <? _) = false |- _ => apply Z.ltb_ge in H
    | H : negb _ = true |- _ => apply negb_true_iff in H
    | H : negb _ = false |- _ => apply negb_false_iff in H
    end.

(** Decide the status tests once the status is known to be OK. *)
Ltac status_ok :=
  change (STATUS_ERROR_NEEDS_RETRY kIOSMBusStatusOK) with false;
  change (STATUS_ERROR_NON_RECOVERABLE kIOSMBusStatusOK) with false;
  change (bool_decide (kIOSMBusStatusOK = kIOSMBusStatusOK)) with true;
  cbv beta iota.

Ltac head_of c :=
  match c with
  | ?f _ => head_of f
  | _ => c
  end.

Ltac by_bool_decide :=
  match goal with
  | E : bool_decide _ = false |- _ => apply bool_decide_eq_false in E; congruence
  | E : bool_decide _ = true |- _ => apply bool_decide_eq_true in E; congruence
  end.

Section Properties.

Context {hdr : HeaderConstants}.

(** *** The monad *)

Lemma bind_eq {A B} (c : M A) (f : A → M B) this a this' :
  c this = (a, this') → (c ≫= f) this = f a this'.
Proof. intros H. unfold mbind, M_bind. rewrite H. reflexivity. Qed.

(** *** Status classification *)

Lemma retryable_not_ok st :
  STATUS_ERROR_NEEDS_RETRY st = true → bool_decide (kIOSMBusStatusOK = st) = false.
Proof. destruct st; try reflexivity; discriminate. Qed.

Lemma not_ok_decide st :
  st ≠ kIOSMBusStatusOK → bool_decide (kIOSMBusStatusOK = st) = false.
Proof. intros H. apply bool_decide_eq_false. congruence. Qed.

(** The two error classes and the success status are disjoint and cover the
    enumeration. *)
Lemma status_classes st :
  (st = kIOSMBusStatusOK ∧ STATUS_ERROR_NEEDS_RETRY st = false
     ∧ STATUS_ERROR_NON_RECOVERABLE st = false)
  ∨ (st ≠ kIOSMBusStatusOK ∧ STATUS_ERROR_NEEDS_RETRY st = true
     ∧ STATUS_ERROR_NON_RECOVERABLE st = false)
  ∨ (st ≠ kIOSMBusStatusOK ∧ STATUS_ERROR_NEEDS_RETRY st = false
     ∧ STATUS_ERROR_NON_RECOVERABLE st = true).
Proof. destruct st; cbn; intuition congruence. Qed.

(** *** The entry of [transactionCompletion] *)

Lemma abortOngoingPoll_clear t this :
  fCancelPolling this = false → abortOngoingPoll t this = (false, this).
Proof.
  intros H. unfold abortOngoingPoll, mbind, M_bind, gets. rewrite H. reflexivity.
Qed.

(** With no cancellation and no restart pending, a completed transaction
    goes through the retry policy and then, unless retried, through the
    [switch]. *)
Lemma transactionCompletion_live ref t this :
  fCancelPolling this = false → fRebootPolling this = false →
  transactionCompletion ref (Some t) this =
  (needs ← needsRetry t;
   if (needs : bool) then retryTransaction t;; mret true
   else runState pollBatteryState ref t;; mret true) this.
Proof.
  intros Hc Hr. unfold transactionCompletion, transactionCompletion_with.
  rewrite (bind_eq _ _ _ _ _ (abortOngoingPoll_clear _ _ Hc)).
  unfold mbind at 1, M_bind at 1, gets at 1. rewrite Hr. reflexivity.
Qed.

(** A NULL transaction runs the start state whatever the callee: this ties
    the knot between [pollBatteryState] and [transactionCompletion]. *)
Lemma transactionCompletion_start poll ref this :
  transactionCompletion_with poll ref None this = transactionCompletion ref None this.
Proof. reflexivity. Qed.

(** *** The retry policy *)

(** A retryable status with retries left: retry, nothing else changes. *)
Lemma needsRetry_retryable t this :
  STATUS_ERROR_NEEDS_RETRY (status t) = true →
  fRetryAttempts this ≠ kRetryAttempts →
  needsRetry t this = (true, this).
Proof.
  intros Hs Ha. unfold needsRetry. rewrite Hs, (retryable_not_ok _ Hs).
  unfold mbind, M_bind, mret, M_ret, gets. msimpl.
  destruct (Z.eqb_spec kRetryAttempts (fRetryAttempts this)); [congruence | reflexivity].
Qed.

(** A retryable status with the retries used up: give up. *)
Lemma needsRetry_exhausted t this :
  STATUS_ERROR_NEEDS_RETRY (status t) = true →
  fRetryAttempts this = kRetryAttempts →
  needsRetry t this = (false, exec (giveUpOnRetries t) this).
Proof.
  intros Hs Ha. unfold needsRetry. rewrite Hs, (retryable_not_ok _ Hs).
  unfold mbind, M_bind, mret, M_ret, gets, exec. msimpl.
  rewrite Ha, Z.eqb_refl. destruct (giveUpOnRetries t this). reflexivity.
Qed.

(** A status that is neither success nor retryable: no retry; the object
    changes in its error log only. *)
Lemma needsRetry_non_recoverable t this :
  status t ≠ kIOSMBusStatusOK →
  STATUS_ERROR_NEEDS_RETRY (status t) = false →
  needsRetry t this =
  (false,
   exec (when (STATUS_ERROR_NON_RECOVERABLE (status t))
           (logReadError kErrorNonRecoverableStatus (statusCode (status t)) (Some t)))
     this).
Proof.
  intros Hs Hn. unfold needsRetry. rewrite Hn, (not_ok_decide _ Hs).
  destruct (STATUS_ERROR_NON_RECOVERABLE (status t));
    destruct this; unfold exec; mrun; reflexivity.
Qed.

Lemma needsRetry_frame t this :
  same_telemetry (needsRetry t this).2 this.
Proof.
  unfold needsRetry, same_telemetry. destruct this.
  destruct (STATUS_ERROR_NEEDS_RETRY (status t));
    destruct (STATUS_ERROR_NON_RECOVERABLE (status t));
    destruct (bool_decide (kIOSMBusStatusOK = status t));
    mrun; repeat split; reflexivity.
Qed.

(** *** Invariants, handler by handler *)

Lemma preserves_ret {A} I (a : A) : preserves I (mret a).
Proof. intros this H. exact H. Qed.

Lemma preserves_bind {A B} I (c : M A) (f : A → M B) :
  preserves I c → (∀ a, preserves I (f a)) → preserves I (c ≫= f).
Proof.
  intros Hc Hf this H. unfold mbind, M_bind.
  specialize (Hc this H). destruct (c this) as [a this']. exact (Hf a this' Hc).
Qed.

Lemma preserves_gets {A} I (g : AppleSmartBattery → A) : preserves I (gets g).
Proof. intros this H. exact H. Qed.

Lemma preserves_modify I (g : AppleSmartBattery → AppleSmartBattery) :
  (∀ this, I this → I (g this)) → preserves I (modify g).
Proof. intros Hg this H. exact (Hg this H). Qed.

Lemma preserves_exec {A} I (c : M A) this :
  preserves I c → I this → I (exec c this).
Proof. intros Hc H. exact (Hc this H). Qed.

(** Walk through a member function along its binds, tests and calls; [tac]
    settles the field updates. *)
Ltac preserve_step tac :=
  cbv beta iota zeta;
  lazymatch goal with
  | |- preserves _ (_ ≫= _) => apply preserves_bind; [| intros ?]
  | |- preserves _ (mret _) => apply preserves_ret
  | |- preserves _ (gets _) => apply preserves_gets
  | |- preserves _ (modify _) => apply preserves_modify; tac
  | |- preserves _ (if ?b then _ else _) => destruct b eqn:?; try by_bool_decide
  | |- preserves _ (match ?x with _ => _ end) => destruct x
  | |- preserves _ ?c => let h := head_of c in unfold h
  end.

Ltac preserve tac := repeat (preserve_step tac).

Ltac update_keeps :=
  intros [] ?H; msimpl; repeat case_match; first [assumption | right; reflexivity].

Ltac update_appends :=
  intros [] ?H; msimpl; repeat case_match;
  first
    [ assumption
    | match goal with
      | H : ∃ evs, _ = _ ++ evs ∧ _ |- _ =>
          let evs := fresh "evs" in
          let Hevs := fresh "Hevs" in
          destruct H as (evs & -> & Hevs);
          eexists;
          (split; [symmetry; apply app_assoc
                  | rewrite forallb_app, Hevs; reflexivity])
      end ].

Lemma giveUpOnRetries_effect t this :
  fRetryAttempts (exec (giveUpOnRetries t) this) = 0
  ∧ trace (exec (giveUpOnRetries t) this) =
      trace this
        ++ [BattLogError kErrorRetryAttemptsExceeded (statusCode (status t)) (Some t)]
  ∧ registry (exec (giveUpOnRetries t) this) !! "LatestErrorType" =
      Some (OSString kErrorRetryAttemptsExceeded)
  ∧ same_telemetry (exec (giveUpOnRetries t) this) this.
Proof.
  destruct this. unfold exec, same_telemetry. mrun.
  repeat split; try reflexivity. apply lookup_insert_eq.
Qed.

(** No state handler delays, and none reads its own command again: whatever
    follows the retry block is not a retry. *)
Lemma runState_no_retry ref t tr0 :
  preserves
    (λ this, ∃ evs, trace this = tr0 ++ evs
                    ∧ forallb (λ e, negb (is_retry_of ref e)) evs = true)
    (runState pollBatteryState ref t).
Proof. destruct ref as [c|]; [destruct c|]; preserve update_appends. Qed.

(** The handlers leave the retry counter alone, or clear it. *)
Lemma runState_retryAttempts ref t a :
  preserves (λ this, fRetryAttempts this = a ∨ fRetryAttempts this = 0)
    (runState pollBatteryState ref t).
Proof. destruct ref as [c|]; [destruct c|]; preserve update_keeps. Qed.

(** The retry counter stays within the delay table: it is below
    [kRetryAttempts] whenever a retry is about to be made. *)
Lemma needsRetry_bound t this :
  0 ≤ fRetryAttempts this ≤ kRetryAttempts →
  0 ≤ fRetryAttempts (needsRetry t this).2 ≤ kRetryAttempts
  ∧ ((needsRetry t this).1 = true →
     fRetryAttempts (needsRetry t this).2 < kRetryAttempts).
Proof.
  intros Hb. destruct this as [? ? ? ? ? n ? ? ? ? ? ? ? ? ? ? ? ? ? ? ? ? ? ? ? ? ?].
  cbn in Hb. unfold needsRetry.
  destruct (STATUS_ERROR_NEEDS_RETRY (status t)),
    (STATUS_ERROR_NON_RECOVERABLE (status t)),
    (bool_decide (kIOSMBusStatusOK = status t));
    mrun; zify_tests; split; try discriminate; intros; lia.
Qed.

Lemma transactionCompletion_retry_bound ref tr :
  preserves (λ this, 0 ≤ fRetryAttempts this ≤ kRetryAttempts)
    (transactionCompletion ref tr).
Proof.
  assert (Hstart : preserves (λ this, 0 ≤ fRetryAttempts this ≤ kRetryAttempts)
                     (modify (set_fRebootPolling false);; state_start;; mret true)).
  { preserve ltac:(intros [] ?H; msimpl; assumption). }
  unfold transactionCompletion, transactionCompletion_with.
  apply preserves_bind; [preserve ltac:(intros [] ?H; msimpl; assumption) |].
  intros [|]; [apply preserves_ret |].
  apply preserves_bind; [apply preserves_gets |].
  intros reboot. destruct tr as [t |]; [| exact Hstart].
  destruct reboot; [exact Hstart |].
  intros this Hb. pose proof (needsRetry_bound t this Hb) as Hnb.
  destruct (needsRetry t this) as [b this'] eqn:E.
  rewrite (bind_eq _ _ _ _ _ E). cbn [fst snd] in Hnb.
  destruct Hnb as [Hb' Hlt]. clear E Hb Hstart this. destruct b.
  - specialize (Hlt eq_refl).
    destruct this' as [? ? ? ? ? n ? ? ? ? ? ? ? ? ? ? ? ? ? ? ? ? ? ? ? ? ?].
    cbn in Hb', Hlt. mrun; unfold kRetryAttempts in *; lia.
  - pose proof (runState_retryAttempts ref t (fRetryAttempts this') this'
                  (or_introl eq_refl)) as Hrun.
    unfold mbind, M_bind.
    destruct (runState pollBatteryState ref t this').
    cbn in *. unfold kRetryAttempts in *. lia.
Qed.

(** Nothing in [transactionCompletion] writes the stall-restart budget. *)
Lemma transactionCompletion_stall_budget ref tr n :
  preserves (λ this, fIncompleteReadRetries this = n) (transactionCompletion ref tr).
Proof. preserve update_keeps. Qed.

(** *** Transactions that are not retried *)

Lemma needsRetry_definitive t this :
  status t ≠ kIOSMBusStatusOK → definitive t this → (needsRetry t this).1 = false.
Proof.
  intros Hs Hd. destruct (STATUS_ERROR_NEEDS_RETRY (status t)) eqn:Hn.
  - rewrite (needsRetry_exhausted t this Hn (Hd Hn)). reflexivity.
  - rewrite (needsRetry_non_recoverable t this Hs Hn). reflexivity.
Qed.

(** A transaction that is not retried reaches the handler of its state,
    the object being changed by the retry policy in its retry counter and
    error log only. *)
Lemma transactionCompletion_not_retried ref t this :
  fCancelPolling this = false → fRebootPolling this = false →
  (needsRetry t this).1 = false →
  exec (transactionCompletion ref (Some t)) this =
    exec (runState pollBatteryState ref t) (needsRetry t this).2
  ∧ same_telemetry (needsRetry t this).2 this.
Proof.
  intros Hc Hr Hn. split; [| apply needsRetry_frame].
  unfold exec. rewrite transactionCompletion_live by assumption.
  unfold mbind at 1, M_bind at 1. revert Hn.
  destruct (needsRetry t this) as [b this']. cbn. intros ->.
  unfold mbind, M_bind.
  destruct (runState pollBatteryState ref t this'). reflexivity.
Qed.

(** *** Claim C9 *)

(** C9.  Whatever the protocol of a transaction was, its retry is a
    read-word transaction to the same address and command: the last thing
    handed to the transport, and the content of the transaction buffer, is
    a read-word; so a failed block read is not retried as a block read. *)
Theorem retry_is_read_word ref t this :
  fCancelPolling this = false →
  fRebootPolling this = false →
  (needsRetry t this).1 = true →
  let after := exec (transactionCompletion ref (Some t)) this in
  last (trace after) =
    Some (performTransaction kIOSMBusProtocolReadWord (address t) (command t))
  ∧ fTransaction after =
      Some (mkTransaction kIOSMBusProtocolReadWord (address t) (command t)
              kIOSMBusStatusOK [] 0)
  ∧ (protocol t = kIOSMBusProtocolReadBlock →
     last (trace after) ≠
       Some (performTransaction (protocol t) (address t) (command t))).
Proof.
  intros Hc Hr Hn after. subst after.
  set (after := exec (transactionCompletion ref (Some t)) this).
  assert (Hlast : last (trace after) =
    Some (performTransaction kIOSMBusProtocolReadWord (address t) (command t))
    ∧ fTransaction after =
      Some (mkTransaction kIOSMBusProtocolReadWord (address t) (command t)
              kIOSMBusStatusOK [] 0)).
  { assert (Heq : ∃ this', after = exec (retryTransaction t) this').
    { exists (needsRetry t this).2. subst after. unfold exec.
      rewrite transactionCompletion_live by assumption.
      unfold mbind at 1, M_bind at 1. revert Hn.
      destruct (needsRetry t this) as [b this']. cbn. intros ->.
      unfold mbind, M_bind. destruct (retryTransaction t this'). reflexivity. }
    destruct Heq as [this' ->]. clear.
    destruct this'. unfold exec. mrun; rewrite last_snoc; split; reflexivity. }
  destruct Hlast as [Hl Hf]. split; [exact Hl |]. split; [exact Hf |].
  intros Hp. rewrite Hl, Hp. discriminate.
Qed.

(** *** Claim C10 *)

(** The failure branch of the controller-status handler. *)
Lemma state_kMStateContCmd_failure t this :
  status t ≠ kIOSMBusStatusOK →
  let after := exec (state_kMStateContCmd t) this in
  fACConnected after = false
  ∧ properties after !! externalConnectedKey = Some (OSBoolean true)
  ∧ properties after !! externalChargeCapableKey = Some (OSBoolean false)
  ∧ last (trace after) =
      Some (performTransaction kIOSMBusProtocolReadWord kSMBusManagerAddr kMStateCmd).
Proof.
  intros Hs. pose proof (not_ok_decide _ Hs) as Hok.
  destruct this. unfold exec, state_kMStateContCmd. rewrite Hok. mrun.
  split; [reflexivity |]. split.
  { rewrite lookup_insert_ne by discriminate. apply lookup_insert_eq. }
  split; [apply lookup_insert_eq | apply last_snoc].
Qed.

(** C10.  A controller-status read that has definitively failed (non-OK
    status, not retried): the internal AC flag is cleared, external-connected
    is published true and external-charge-capable false, and the next read
    (battery system state) is issued; the published AC state and the internal
    flag disagree. *)
Theorem controller_status_failure_publishes_ac t this :
  fCancelPolling this = false →
  fRebootPolling this = false →
  status t ≠ kIOSMBusStatusOK →
  definitive t this →
  let after := exec (transactionCompletion (Some kMStateContCmd) (Some t)) this in
  fACConnected after = false
  ∧ properties after !! externalConnectedKey = Some (OSBoolean true)
  ∧ properties after !! externalChargeCapableKey = Some (OSBoolean false)
  ∧ last (trace after) =
      Some (performTransaction kIOSMBusProtocolReadWord kSMBusManagerAddr kMStateCmd)
  ∧ isTrue (properties after !! externalConnectedKey) ≠ fACConnected after.
Proof.
  intros Hc Hr Hs Hd after.
  destruct (transactionCompletion_not_retried (Some kMStateContCmd) t this Hc Hr
              (needsRetry_definitive t this Hs Hd)) as [Heq _].
  unfold after. rewrite Heq. cbn [runState].
  destruct (state_kMStateContCmd_failure t (needsRetry t this).2 Hs)
    as (Hac & Hconn & Hcap & Hlast).
  repeat split; try assumption.
  rewrite Hconn, Hac. discriminate.
Qed.

(** The retry policy, when it does not retry, hands nothing to the
    transport: it logs at most. *)
Lemma needsRetry_no_read t reads :
  preserves (λ this, List.filter is_read (trace this) = reads) (needsRetry t).
Proof.
  preserve ltac:(intros [] ?H; msimpl; rewrite ?List.filter_app, ?app_nil_r;
                 assumption).
Qed.

Lemma pollBatteryState_stall_budget path n :
  preserves (λ this, fIncompleteReadRetries this = n) (pollBatteryState path).
Proof. preserve update_keeps. Qed.

(** [start] sets the two countdowns. *)
Lemma start_countdowns debugPollingSetting :
  fInitialPollCountdown (exec (start debugPollingSetting) zeroed) =
    kInitialPollCountdown
  ∧ fIncompleteReadRetries (exec (start debugPollingSetting) zeroed) =
      kIncompleteReadRetryMax.
Proof.
  destruct debugPollingSetting; unfold exec, start, zeroed; mrun;
    split; reflexivity.
Qed.

(** *** The stall-restart budget *)

Lemma incompleteReadTimeOut_budget this :
  fIncompleteReadRetries (exec incompleteReadTimeOut this) =
  if 0 <? fIncompleteReadRetries this
  then fIncompleteReadRetries this - 1
  else fIncompleteReadRetries this.
Proof.
  destruct this as [? ? ? ? ? ? ? ? ? ? ? ? ? ? ? ? ? ? n ? ? ? ? ? ? ? ?].
  unfold exec.
  repeat (progress (unfold incompleteReadTimeOut, mbind, M_bind, mret, M_ret,
                      logReadError, setProperty, emit, modify, gets, when;
                    msimpl)).
  destruct (0 <? n); [| reflexivity].
  match goal with
  | |- fIncompleteReadRetries (pollBatteryState ?p ?s).2 = _ =>
      exact (pollBatteryState_stall_budget p (n - 1) s eq_refl)
  end.
Qed.

Lemma incompleteReadTimeOut_exhausted this :
  fIncompleteReadRetries this ≤ 0 →
  exec incompleteReadTimeOut this =
  exec (logReadError kErrorOverallTimeoutExpired 0 None) this.
Proof.
  intros Hn. destruct this as [? ? ? ? ? ? ? ? ? ? ? ? ? ? ? ? ? ? n ? ? ? ? ? ? ? ?].
  cbn in Hn. unfold exec, incompleteReadTimeOut. repeat (progress mstep).
  destruct (Z.ltb_spec 0 n); [lia | reflexivity].
Qed.

Lemma incompleteReadTimeOut_iter (k : nat) this :
  0 ≤ fIncompleteReadRetries this →
  fIncompleteReadRetries (Nat.iter k (exec incompleteReadTimeOut) this) =
  Z.max 0 (fIncompleteReadRetries this - Z.of_nat k).
Proof.
  intros Hn. induction k as [| k IH].
  - cbn. lia.
  - rewrite Nat.iter_succ, incompleteReadTimeOut_budget, IH.
    destruct (Z.ltb_spec 0 (Z.max 0 (fIncompleteReadRetries this - Z.of_nat k))); lia.
Qed.

(** *** Claim C8 *)

(** The terminal handler, on an object whose tests are decided. *)
Lemma state_kBCurrentCmd_poll_timer t this :
  let after := exec (state_kBCurrentCmd pollBatteryState t) this in
  let rearm :=
    (0 <? fInitialPollCountdown this) || negb (fACConnected this)
    || (negb (fFullyCharged this) && fBatteryPresent this)
    || fPollingOverridden this in
  (if fPollingOverridden this && (fPollingInterval this =? 0) then
     if fStalledByUserClient this
     then fPollTimer after = fPollTimer this ∧ fPollingNow after = false
          ∧ List.filter is_read (trace after) = List.filter is_read (trace this)
     else fPollTimer after = None ∧ fPollingNow after = true
          ∧ fMachinePath after = kNewBatteryPath
          ∧ last (trace after) =
              Some (performTransaction kIOSMBusProtocolReadWord kSMBusManagerAddr
                      kMStateContCmd)
   else if rearm then
     fPollTimer after =
       Some (if fPollingOverridden this
             then (1000 * fPollingInterval this) mod 2 ^ 32
             else nth (Z.to_nat (fPollingInterval this)) (milliSecPollingTable this) 0)
   else
     fPollTimer after = fPollTimer this ∧ fPollingNow after = false
     ∧ List.filter is_read (trace after) = List.filter is_read (trace this)).
Proof.
  destruct this as [? c ? st ? ? ? fc bp ac ? ? ? ? ? iv ov cd ? ? ? ? ? ? ? ? ?].
  unfold exec, state_kBCurrentCmd. msimpl.
  destruct (bool_decide (kIOSMBusStatusOK = status t)), ov,
    (iv =? 0) eqn:Hiv, (0 <? cd) eqn:Hcd, ac, fc, bp, st, c;
    repeat (progress (repeat (progress mstep); rewrite ?Hiv, ?Hcd; msimpl));
    rewrite ?List.filter_app, ?app_nil_r, ?last_snoc; repeat split; reflexivity.
Qed.

(** C8 (amended).  At the terminal state, with the poll timer idle as it is
    during a sequence: the poll timer stays unarmed exactly when either AC is
    connected, the battery is fully charged (or flagged absent), the
    initial-poll countdown is used up and no debug override is active --
    then no sequence is in flight and nothing is read until an external
    trigger -- or the debug override is active with interval 0 -- then,
    unless a user client stalls the driver, a new sequence on the new battery
    path is started at once.  In every other case the timer is armed. *)
Theorem terminal_state_poll_timer t this :
  fCancelPolling this = false →
  fRebootPolling this = false →
  (needsRetry t this).1 = false →
  fPollTimer this = None →
  let after := exec (transactionCompletion (Some kBCurrentCmd) (Some t)) this in
  let idle :=
    fACConnected this = true
    ∧ (fFullyCharged this = true ∨ fBatteryPresent this = false)
    ∧ fInitialPollCountdown this ≤ 0
    ∧ fPollingOverridden this = false in
  let continuous :=
    fPollingOverridden this = true ∧ fPollingInterval this = 0 in
  (fPollTimer after = None ↔ idle ∨ continuous)
  ∧ (idle →
     fPollingNow after = false
     ∧ List.filter is_read (trace after) = List.filter is_read (trace this))
  ∧ (continuous → fStalledByUserClient this = false →
     fPollingNow after = true
     ∧ fMachinePath after = kNewBatteryPath
     ∧ last (trace after) =
         Some (performTransaction kIOSMBusProtocolReadWord kSMBusManagerAddr
                 kMStateContCmd))
  ∧ (¬ idle → ¬ continuous →
     fPollTimer after =
       Some (if fPollingOverridden this
             then (1000 * fPollingInterval this) mod 2 ^ 32
             else nth (Z.to_nat (fPollingInterval this)) (milliSecPollingTable this) 0)).
Proof.
  intros Hc Hr Hn Ht after idle continuous. subst after idle continuous.
  destruct (transactionCompletion_not_retried (Some kBCurrentCmd) t this Hc Hr Hn)
    as [Heq Hsame].
  rewrite Heq. cbn [runState].
  pose proof (needsRetry_no_read t _ this eq_refl) as Hreads.
  pose proof (state_kBCurrentCmd_poll_timer t (needsRetry t this).2) as Hterm.
  cbv zeta in Hterm. unfold same_telemetry in Hsame.
  destruct Hsame as (_ & _ & _ & Hst & _ & _ & Hfc & Hbp & Hac & _ & _ & _ & _ & _
                     & Hiv & Hov & Hcd & _ & _ & _ & Htab & _ & Hpt & _).
  rewrite Hst, Hfc, Hbp, Hac, Hiv, Hov, Hcd, Htab, Hpt, Hreads, Ht in Hterm.
  clear Heq Hreads Hst Hfc Hbp Hac Hiv Hov Hcd Htab Hpt Hn Hc Hr.
  destruct (fPollingOverridden this), (fPollingInterval this =? 0) eqn:Hiv,
    (0 <? fInitialPollCountdown this) eqn:Hcd, (fACConnected this),
    (fFullyCharged this), (fBatteryPresent this), (fStalledByUserClient this);
    cbn in Hterm; zify_tests;
    repeat match goal with
      | H : _ ∧ _ |- _ => destruct H
      end;
    intuition (first [congruence | lia]).
Qed.

(** *** Capacity reads (claims C1, C4 and C5) *)

(** A remaining-capacity read that has failed resets the field and the
    published current capacity. *)
Lemma state_kBRemainingCapacityCmd_failure t this :
  status t ≠ kIOSMBusStatusOK →
  let after := exec (state_kBRemainingCapacityCmd t) this in
  fRemainingCapacity after = 0
  ∧ properties after !! currentCapacityKey = Some (OSNumber_withNumber 0 32).
Proof.
  intros Hs. pose proof (not_ok_decide _ Hs) as Hok.
  destruct this. unfold exec, state_kBRemainingCapacityCmd. rewrite Hok. mrun.
  split; [reflexivity | apply lookup_insert_eq].
Qed.

(** A full-charge-capacity read that has failed publishes a maximum
    capacity of 0 and leaves the field [fFullChargeCapacity] as it was. *)
Lemma state_kBFullChargeCapacityCmd_failure t this :
  status t ≠ kIOSMBusStatusOK →
  let after := exec (state_kBFullChargeCapacityCmd t) this in
  fFullChargeCapacity after = fFullChargeCapacity this
  ∧ properties after !! maxCapacityKey = Some (OSNumber_withNumber 0 32).
Proof.
  intros Hs. pose proof (not_ok_decide _ Hs) as Hok.
  destruct this. unfold exec, state_kBFullChargeCapacityCmd. rewrite Hok. mrun.
  all: split; [reflexivity | apply lookup_insert_eq].
Qed.

(** A successful read of zero for a capacity whose zero is invalid is
    retried whatever the retry count: the count restarts at every
    successful status, so the test against [kRetryAttempts] never holds. *)
Lemma zero_capacity_read_is_retried ref t this :
  fCancelPolling this = false →
  fRebootPolling this = false →
  status t = kIOSMBusStatusOK →
  receiveByte t 0 = 0 → receiveByte t 1 = 0 →
  capacityCmd_zeroInvalid (command t) (fFullyDischarged this) = true →
  transactionCompletion ref (Some t) this =
  (true,
   set_trace
     (trace this
        ++ [IODelay 10;
            performTransaction kIOSMBusProtocolReadWord (address t) (command t)])
     (set_fTransaction
        (Some (mkTransaction kIOSMBusProtocolReadWord (address t) (command t)
                 kIOSMBusStatusOK [] 0))
        (set_fRetryAttempts 1 this))).
Proof.
  intros Hc Hr Hs H0 H1 Hz.
  rewrite transactionCompletion_live by assumption.
  rewrite cons_middle, app_assoc.
  destruct this as [? ? ? ? ? n ? ? ? ? ? ? ? ? ? ? ? ? ? ? ? ? ? ? ? ? ?].
  cbn in Hc, Hr, Hz. subst. unfold needsRetry. rewrite Hs. status_ok.
  unfold nonzero. rewrite H0, H1.
  destruct (Z.eqb_spec n 0) as [-> | Hn]; [| apply Z.eqb_neq in Hn];
    repeat (progress (repeat (progress mstep);
                      rewrite ?Hn, ?Hz, ?andb_false_r; msimpl));
    cbn; rewrite ?Hz; cbn; reflexivity.
Qed.

(** A remaining capacity of zero read while the battery reports fully
    discharged is taken at once. *)
Lemma zero_remaining_capacity_accepted t this :
  fCancelPolling this = false →
  fRebootPolling this = false →
  status t = kIOSMBusStatusOK →
  command t = kBRemainingCapacityCmd →
  receiveByte t 0 = 0 → receiveByte t 1 = 0 →
  fFullyDischarged this = true →
  (needsRetry t this).1 = false.
Proof.
  intros Hc Hr Hs Hcmd H0 H1 Hd.
  destruct this as [? ? ? ? ? n ? ? ? ? ? ? ? ? ? ? ? ? ? ? ? ? ? ? ? ? ?].
  cbn in Hd. subst. unfold needsRetry. rewrite Hs, Hcmd. status_ok.
  unfold nonzero. rewrite H0, H1.
  destruct (Z.eqb_spec n 0) as [-> | Hn]; [| apply Z.eqb_neq in Hn];
    repeat (progress (repeat (progress mstep); rewrite ?Hn, ?andb_false_r; msimpl));
    cbn; reflexivity.
Qed.

(** The interval selection at the full-charge-capacity state looks at the
    capacity ratio and the AC flag, and at nothing else: neither the average
    current nor the charging state enters. *)
Lemma state_kBFullChargeCapacityCmd_interval t this :
  status t = kIOSMBusStatusOK →
  fPollingOverridden this = false →
  receiveWord t ≠ 0 →
  fPollingInterval (exec (state_kBFullChargeCapacityCmd t) this) =
  if ((100 * fRemainingCapacity this) / receiveWord t <? 5) && fACConnected this
  then kQuickPollInterval else kDefaultPollInterval.
Proof.
  intros Hs Hov Hw. destruct this. cbn in Hov. subst.
  unfold exec, state_kBFullChargeCapacityCmd. rewrite Hs. status_ok.
  destruct (Z.eqb_spec (receiveWord t) 0) as [| _]; [contradiction |].
  repeat (progress mstep). unfold nonzero.
  destruct (Z.eqb_spec (receiveWord t) 0) as [| _]; [contradiction |]. msimpl.
  destruct ((100 * fRemainingCapacity0) `div` receiveWord t <? 5), fACConnected0;
    msimpl; destruct (0 =? receiveWord t); reflexivity.
Qed.

(** *** Permanent failure (claim C2) *)

(** The source's test on the two alarm bits holds exactly when both are
    set. *)
Lemma permanent_failure_test w :
  (Z.land w permanentFailureMask =? permanentFailureMask) = true
  ↔ Z.land w kBTerminateDischargeAlarmBit = kBTerminateDischargeAlarmBit
    ∧ Z.land w kBTerminateChargeAlarmBit = kBTerminateChargeAlarmBit.
Proof.
  unfold permanentFailureMask. rewrite Z.eqb_eq. split.
  - intros H. split; apply Z.bits_inj'; intros n Hn;
      apply (f_equal (λ z, Z.testbit z n)) in H;
      rewrite Z.land_spec, !Z.lor_spec in H; rewrite Z.land_spec;
      destruct (Z.testbit w n), (Z.testbit kBTerminateDischargeAlarmBit n),
        (Z.testbit kBTerminateChargeAlarmBit n); cbn in *; congruence.
  - intros [Hd Hc]. apply Z.bits_inj'. intros n Hn.
    apply (f_equal (λ z, Z.testbit z n)) in Hd, Hc.
    rewrite Z.land_spec in Hd, Hc. rewrite Z.land_spec, !Z.lor_spec.
    destruct (Z.testbit w n), (Z.testbit kBTerminateDischargeAlarmBit n),
      (Z.testbit kBTerminateChargeAlarmBit n); cbn in *; congruence.
Qed.

(** After the permanent failure is detected the handler goes on: it still
    issues the next read of the sequence. *)
Lemma state_kBBatteryStatusCmd_permanent_failure t this :
  status t = kIOSMBusStatusOK →
  (Z.land (receiveWord t) permanentFailureMask =? permanentFailureMask) = true →
  let after := exec (state_kBBatteryStatusCmd t) this in
  fBatteryReadAllTimer after = None
  ∧ fPollingNow after = false
  ∧ last (trace after) =
      Some (if kNewBatteryPath =? fMachinePath this
            then performTransaction kIOSMBusProtocolReadBlock kSMBusBatteryAddr
                   kBManufactureNameCmd
            else performTransaction kIOSMBusProtocolReadWord kSMBusBatteryAddr
                   kBRemainingCapacityCmd).
Proof.
  intros Hs Hpf. destruct this.
  unfold exec, state_kBBatteryStatusCmd. rewrite Hs. status_ok.
  cbn [negb]. rewrite Hpf.
  destruct (bit_set (receiveWord t) kBFullyChargedStatusBit),
    (bit_set (receiveWord t) kBFullyDischargedStatusBit), fFullyDischarged0;
    repeat (progress (repeat (progress mstep); rewrite ?lookup_insert_eq; msimpl));
    repeat (case_if; try discriminate; msimpl);
    rewrite last_snoc; repeat split; reflexivity.
Qed.

(** ** The rest of the driver *)

(** *** Forward runs *)

Lemma wp_bind {A B} (c : M A) (f : A → M B) Q this :
  wp c (λ a s, wp (f a) Q s) this → wp (c ≫= f) Q this.
Proof. unfold wp, mbind, M_bind. destruct (c this). exact id. Qed.

Lemma wp_ret {A} (a : A) Q this : Q a this → wp (mret a) Q this.
Proof. exact id. Qed.

Lemma wp_gets {A} (g : AppleSmartBattery → A) Q this :
  Q (g this) this → wp (gets g) Q this.
Proof. exact id. Qed.

Lemma wp_modify g (Q : unit → AppleSmartBattery → Prop) this :
  Q tt (g this) → wp (modify g) Q this.
Proof. exact id. Qed.

Lemma wp_exec {A} (c : M A) (Q : AppleSmartBattery → Prop) this :
  wp c (λ _ s, Q s) this → Q (exec c this).
Proof. exact id. Qed.

(** Pick the atom a test hangs on; a closed atom is evaluated. *)
Ltac decide_cond b :=
  let v := eval vm_compute in b in
  lazymatch v with
  | true => change b with true
  | false => change b with false
  end.

Ltac split_cond b :=
  lazymatch b with
  | negb ?x => split_cond x
  | ?x && ?y => first [split_cond x | split_cond y]
  | ?x || ?y => first [split_cond x | split_cond y]
  | true => fail
  | false => fail
  | _ => first [decide_cond b | is_var b; destruct b | destruct b eqn:?]
  end.

(** Run a member function forwards, one statement at a time, on an object
    given by its fields; a branch whose test contradicts what is known is
    closed at once. *)
Ltac wp_step :=
  lazymatch goal with
  | |- wp _ _ (match ?x with _ => _ end) => destruct x
  | |- wp (_ ≫= _) _ _ => apply wp_bind
  | |- wp (mret _) _ _ => apply wp_ret
  | |- wp (gets _) _ _ => apply wp_gets
  | |- wp (modify _) _ _ => apply wp_modify
  | |- wp (if ?b then _ else _) _ _ =>
      split_cond b; try by_bool_decide; try congruence
  | |- wp (match ?x with _ => _ end) _ _ => destruct x
  | |- wp ?c _ _ => let h := head_of c in unfold h
  end; msimpl.

Ltac wp_run := repeat wp_step.

(** Start a forward run on the object a statement speaks about. *)
Ltac wp_start :=
  match goal with
  | |- context [exec ?c ?s] => pattern (exec c s); apply wp_exec
  end.

(** Look a key up in a table written by a run. *)
Ltac map_lookup :=
  repeat first
    [ rewrite lookup_insert_eq
    | rewrite lookup_delete_eq
    | rewrite lookup_insert_ne by discriminate
    | rewrite lookup_delete_ne by discriminate ].

(** Sort the events of a run. *)
Ltac reads_done :=
  msimpl; rewrite ?List.filter_app; msimpl; rewrite ?app_nil_r, ?last_snoc.

Ltac one_read :=
  unfold issues_at_most_one_read; reads_done;
  first [ left; reflexivity
        | right; do 3 eexists; split; reflexivity ].

(** Running two member functions in a row. *)
Lemma exec_bind {A B} (c : M A) (d : M B) this :
  exec (c;; d) this = exec d (exec c this).
Proof. unfold exec, mbind, M_bind. destruct (c this). reflexivity. Qed.

(** *** The paths through [transactionCompletion] *)

(** A completion is dropped (cancellation), starts the sequence over (NULL
    transaction or restart request), retries, or runs the handler of its
    state. *)
Lemma transactionCompletion_cases ref tr this :
  let after := exec (transactionCompletion ref tr) this in
  (fCancelPolling this = true ∧ is_Some tr
   ∧ after = set_fPollingNow false (set_fCancelPolling false this))
  ∨ ((tr = None ∨ fCancelPolling this = false ∧ fRebootPolling this = true)
     ∧ after = exec state_start
                 (set_fRebootPolling false (set_fCancelPolling false this)))
  ∨ (∃ t, tr = Some t ∧ fCancelPolling this = false ∧ fRebootPolling this = false
          ∧ ((needsRetry t this).1 = true
             ∧ after = exec (retryTransaction t) (needsRetry t this).2
             ∨ (needsRetry t this).1 = false
               ∧ after = exec (runState pollBatteryState ref t)
                           (needsRetry t this).2)).
Proof.
  intros after. subst after.
  destruct (fCancelPolling this) eqn:Hc.
  - destruct tr as [t |].
    + left. split; [reflexivity |]. split; [eexists; reflexivity |].
      destruct this. cbn in Hc. subst. reflexivity.
    + right. left. split; [left; reflexivity |].
      destruct this. cbn in Hc. subst. reflexivity.
  - destruct tr as [t |].
    + destruct (fRebootPolling this) eqn:Hr.
      * right. left. split; [right; split; reflexivity |].
        destruct this. cbn in Hc, Hr. subst. reflexivity.
      * right. right. exists t. split; [reflexivity |].
        split; [reflexivity |]. split; [reflexivity |].
        unfold exec. rewrite transactionCompletion_live by assumption.
        destruct (needsRetry t this) as [b this'] eqn:E.
        rewrite (bind_eq _ _ _ _ _ E). cbn [fst snd]. destruct b.
        -- left. split; [reflexivity |]. unfold mbind, M_bind.
           destruct (retryTransaction t this'). reflexivity.
        -- right. split; [reflexivity |]. unfold mbind, M_bind.
           destruct (runState pollBatteryState ref t this'). reflexivity.
    + right. left. split; [left; reflexivity |].
      destruct this. cbn in Hc. subst. reflexivity.
Qed.

(** *** Words and their conversions *)

Lemma receiveByte_range t i : 0 ≤ receiveByte t i < 256.
Proof.
  unfold receiveByte.
  pose proof (Byte.to_N_bounded (nth i (receiveData t) x00)). lia.
Qed.

Lemma lor_shiftl_bytes hi lo :
  0 ≤ hi → 0 ≤ lo < 256 → Z.lor (Z.shiftl hi 8) lo = hi * 256 + lo.
Proof.
  intros Hhi Hlo. rewrite Z.shiftl_mul_pow2 by lia.
  change (2 ^ 8) with 256.
  rewrite <- Z.lxor_lor, <- Z.add_nocarry_lxor; try reflexivity.
  all: apply Z.bits_inj'; intros n Hn; rewrite Z.land_spec, Z.bits_0;
    destruct (Z.lt_ge_cases n 8).
  all: try (replace (hi * 256) with (hi * 2 ^ 8) by reflexivity;
            rewrite Z.mul_pow2_bits_low by lia; reflexivity).
  all: destruct (Z.eq_dec lo 0) as [-> | Hnz];
    [rewrite Z.bits_0; apply andb_false_r |].
  all: rewrite (Z.bits_above_log2 lo n), andb_false_r; try reflexivity; try lia.
  all: assert (Z.log2 lo < 8) by (apply Z.log2_lt_pow2; lia); lia.
Qed.

Lemma receiveWord_bytes t :
  receiveWord t = receiveByte t 1 * 256 + receiveByte t 0.
Proof.
  unfold receiveWord. apply lor_shiftl_bytes; apply receiveByte_range.
Qed.

Lemma receiveWord_range t : 0 ≤ receiveWord t < 65536.
Proof.
  rewrite receiveWord_bytes.
  pose proof (receiveByte_range t 0). pose proof (receiveByte_range t 1). lia.
Qed.

(** A word fits every number of 16 bits or more. *)
Lemma OSNumber_withNumber_word t bits :
  16 ≤ bits → OSNumber_withNumber (receiveWord t) bits = OSNumber (receiveWord t) bits.
Proof.
  intros Hb. unfold OSNumber_withNumber. f_equal. apply Z.mod_small.
  pose proof (receiveWord_range t).
  assert (2 ^ 16 ≤ 2 ^ bits) by (apply Z.pow_le_mono_r; lia). lia.
Qed.

Lemma to_int16_range w : 0 ≤ w < 65536 → -32768 ≤ to_int16 w ≤ 32767.
Proof. intros Hw. unfold to_int16. destruct (Z.ltb_spec w 32768); lia. Qed.

Lemma to_int16_mod w : 0 ≤ w < 65536 → to_int16 w mod 2 ^ 16 = w.
Proof.
  intros Hw. unfold to_int16. destruct (Z.ltb_spec w 32768).
  - apply Z.mod_small. lia.
  - replace (w - 65536) with (w + (-1) * 2 ^ 16) by lia.
    rewrite Z.mod_add by lia. apply Z.mod_small. lia.
Qed.

Lemma to_int32_unsigned e :
  - 2 ^ 31 ≤ e < 2 ^ 31 → to_int32 (unsigned32BitValue (e mod 2 ^ 32)) = e.
Proof.
  intros He. unfold to_int32, unsigned32BitValue.
  rewrite Z.mod_mod by lia.
  destruct (Z.neg_nonneg_cases e) as [Hneg | Hpos].
  - replace (e mod 2 ^ 32) with (e + 2 ^ 32).
    + destruct (Z.ltb_spec (e + 2 ^ 32) (2 ^ 31)); lia.
    + symmetry. rewrite <- (Z.mod_add e 1 (2 ^ 32)) by lia.
      rewrite Z.mul_1_l. apply Z.mod_small. lia.
  - rewrite Z.mod_small by lia. destruct (Z.ltb_spec e (2 ^ 31)); lia.
Qed.

(** *** Table indices *)

Lemma perform_retry_bound c :
  preserves (λ this, 0 ≤ fRetryAttempts this ≤ kRetryAttempts) (perform c).
Proof.
  destruct c; cbn [perform].
  1: { apply preserves_bind; [apply transactionCompletion_retry_bound |].
       intros ?. apply preserves_ret. }
  all: preserve ltac:(intros [] ?H; msimpl;
                      first [assumption | unfold kRetryAttempts; lia]).
Qed.

Lemma start_retry_bound d this :
  0 ≤ fRetryAttempts (exec (start d) this) ≤ kRetryAttempts.
Proof.
  apply wp_exec. destruct this, d; wp_run; unfold kRetryAttempts; lia.
Qed.

Lemma reachable_retry_bound this :
  reachable this → 0 ≤ fRetryAttempts this ≤ kRetryAttempts.
Proof.
  induction 1 as [d | c this _ IH | this _ IH | this _ IH].
  - apply start_retry_bound.
  - exact (perform_retry_bound c this IH).
  - destruct this; exact IH.
  - destruct this; exact IH.
Qed.

(** Completions delivered one after the other keep the object reachable. *)
Lemma reachable_deliver_all ts this :
  reachable this → reachable (deliver_all ts this).
Proof.
  revert this. induction ts as [| t ts IH]; intros this Hr; [exact Hr |].
  apply IH.
  replace (exec (deliver t) this)
    with (exec (perform (call_transactionCompletion (Some (command t)) (Some t)))
            this).
  - apply reachable_call, Hr.
  - unfold perform, deliver, exec, mbind, M_bind.
    destruct (transactionCompletion _ _ this); reflexivity.
Qed.

(** X1.  In every object the driver reaches from [start] by calls of its
    entry points, with any arguments and in any order, the retry counter is
    within 0..5; and whenever the retry policy decides to retry, the counter,
    which then indexes [microSecDelayTable], is within the table. *)
Theorem retry_delay_table_in_bounds t this :
  reachable this →
  0 ≤ fRetryAttempts this ≤ kRetryAttempts
  ∧ ((needsRetry t this).1 = true →
     let index := fRetryAttempts (needsRetry t this).2 in
     0 ≤ index ∧ is_Some (microSecDelayTable !! Z.to_nat index)).
Proof.
  intros Hr. pose proof (reachable_retry_bound this Hr) as Hb.
  split; [exact Hb |]. intros Hn index. subst index.
  destruct (needsRetry_bound t this Hb) as [Hb' Hlt]. specialize (Hlt Hn).
  split; [lia |]. apply lookup_lt_is_Some. cbn [length microSecDelayTable].
  unfold kRetryAttempts in Hlt. lia.
Qed.

Ltac table_update :=
  intros [] ?H; unfold polling_table_ok in *; msimpl; repeat case_match;
  first
    [ assumption
    | solve [intuition (auto; discriminate)]
    | match goal with
      | H : _ ∧ _ ∧ _ |- _ =>
          destruct H as (? & ? & ?);
          split; [rewrite length_insert; assumption |];
          split; [rewrite list_lookup_insert_ne by (compute; discriminate); assumption
                 | assumption]
      end ].

Lemma perform_polling_table c : preserves polling_table_ok (perform c).
Proof. destruct c; cbn [perform]; preserve table_update. Qed.

Lemma start_polling_table d : polling_table_ok (exec (start d) zeroed).
Proof.
  apply wp_exec. unfold zeroed. destruct d; wp_run; unfold polling_table_ok; cbn;
    intuition (auto; discriminate).
Qed.

Lemma reachable_polling_table this :
  reachable this → polling_table_ok this.
Proof.
  induction 1 as [d | c this _ IH | this _ IH | this _ IH].
  - apply start_polling_table.
  - exact (perform_polling_table c this IH).
  - destruct this; exact IH.
  - destruct this; exact IH.
Qed.

(** X2.  In every reachable object the polling table has its two entries and
    its quick-poll entry is still 1000 ms; without a debug override the
    polling interval is one of the two table indices, so the entry
    [milliSecPollingTable[fPollingInterval]] the terminal state reads is
    within the table. *)
Theorem polling_table_in_bounds this :
  reachable this →
  length (milliSecPollingTable this) = 2%nat
  ∧ milliSecPollingTable this !! 1%nat = Some 1000
  ∧ (fPollingOverridden this = false →
     (fPollingInterval this = kDefaultPollInterval
      ∨ fPollingInterval this = kQuickPollInterval)
     ∧ is_Some (milliSecPollingTable this !! Z.to_nat (fPollingInterval this))).
Proof.
  intros Hr. destruct (reachable_polling_table this Hr) as (Hlen & Hq & Hiv).
  split; [exact Hlen |]. split; [exact Hq |]. intros Hov.
  split; [exact (Hiv Hov) |]. apply lookup_lt_is_Some. rewrite Hlen.
  destruct (Hiv Hov) as [-> | ->]; compute; lia.
Qed.

(** *** The countdowns *)

Lemma state_kBCurrentCmd_countdown t this :
  let after := exec (state_kBCurrentCmd pollBatteryState t) this in
  fInitialPollCountdown after ≤ fInitialPollCountdown this
  ∧ (0 ≤ fInitialPollCountdown this → 0 ≤ fInitialPollCountdown after)
  ∧ fIncompleteReadRetries after = fIncompleteReadRetries this.
Proof.
  apply (wp_exec _ (λ s, fInitialPollCountdown s ≤ fInitialPollCountdown this
                         ∧ (0 ≤ fInitialPollCountdown this → 0 ≤ fInitialPollCountdown s)
                         ∧ fIncompleteReadRetries s = fIncompleteReadRetries this)).
  destruct this. wp_run; zify_tests; lia.
Qed.

Lemma runState_countdown ref t this :
  let after := exec (runState pollBatteryState ref t) this in
  fInitialPollCountdown after ≤ fInitialPollCountdown this
  ∧ (0 ≤ fInitialPollCountdown this → 0 ≤ fInitialPollCountdown after)
  ∧ fIncompleteReadRetries after = fIncompleteReadRetries this.
Proof.
  assert (Heq : ∀ c : M unit,
            preserves (countdowns_are (fInitialPollCountdown this)
                         (fIncompleteReadRetries this)) c →
            fInitialPollCountdown (exec c this) ≤ fInitialPollCountdown this
            ∧ (0 ≤ fInitialPollCountdown this → 0 ≤ fInitialPollCountdown (exec c this))
            ∧ fIncompleteReadRetries (exec c this) = fIncompleteReadRetries this).
  { intros c Hc. destruct (Hc this (conj eq_refl eq_refl)) as [H1 H2].
    unfold exec. rewrite H1, H2. lia. }
  destruct ref as [c |]; [destruct c |]; cbn [runState];
    try apply state_kBCurrentCmd_countdown;
    apply Heq; preserve ltac:(intros [] ?H; msimpl; repeat case_match; assumption).
Qed.

Lemma countdowns_kept_start n m :
  preserves (countdowns_are n m) state_start.
Proof. preserve ltac:(intros [] ?H; msimpl; assumption). Qed.

Lemma countdowns_kept_retry n m t :
  preserves (countdowns_are n m) (retryTransaction t).
Proof. preserve ltac:(intros [] ?H; msimpl; assumption). Qed.

Lemma transactionCompletion_countdown ref tr this :
  let after := exec (transactionCompletion ref tr) this in
  fInitialPollCountdown after ≤ fInitialPollCountdown this
  ∧ (0 ≤ fInitialPollCountdown this → 0 ≤ fInitialPollCountdown after)
  ∧ fIncompleteReadRetries after = fIncompleteReadRetries this.
Proof.
  intros after.
  destruct (transactionCompletion_cases ref tr this)
    as [(_ & _ & Heq) | [(_ & Heq) | (t & _ & _ & _ & [[_ Heq] | [_ Heq]])]];
    fold after in Heq; rewrite Heq; clear Heq after.
  - destruct this; cbn; lia.
  - destruct (countdowns_kept_start _ _
                (set_fRebootPolling false (set_fCancelPolling false this))
                (conj eq_refl eq_refl)) as [H1 H2].
    unfold exec. rewrite H1, H2. destruct this; cbn; lia.
  - pose proof (needsRetry_frame t this) as Hf. unfold same_telemetry in Hf.
    destruct Hf as (_ & _ & _ & _ & _ & _ & _ & _ & _ & _ & _ & _ & _ & _
                    & _ & _ & Hcd & Hbud & _).
    destruct (countdowns_kept_retry _ _ t (needsRetry t this).2
                (conj eq_refl eq_refl)) as [H1 H2].
    unfold exec. rewrite H1, H2, Hcd, Hbud. lia.
  - pose proof (needsRetry_frame t this) as Hf. unfold same_telemetry in Hf.
    destruct Hf as (_ & _ & _ & _ & _ & _ & _ & _ & _ & _ & _ & _ & _ & _
                    & _ & _ & Hcd & Hbud & _).
    pose proof (runState_countdown ref t (needsRetry t this).2) as Hrun.
    cbv zeta in Hrun. rewrite Hcd, Hbud in Hrun. exact Hrun.
Qed.

(** X3.  No entry point replenishes the two countdowns: after any call the
    initial-poll countdown and the stall-restart budget are at most what
    they were before, and a countdown that is not negative does not become
    negative. *)
Theorem countdowns_never_replenished c this :
  let after := exec (perform c) this in
  fInitialPollCountdown after ≤ fInitialPollCountdown this
  ∧ fIncompleteReadRetries after ≤ fIncompleteReadRetries this
  ∧ (0 ≤ fInitialPollCountdown this → 0 ≤ fInitialPollCountdown after)
  ∧ (0 ≤ fIncompleteReadRetries this → 0 ≤ fIncompleteReadRetries after).
Proof.
  intros after. subst after.
  assert (Heq : ∀ c : M unit,
            preserves (countdowns_are (fInitialPollCountdown this)
                         (fIncompleteReadRetries this)) c →
            fInitialPollCountdown (exec c this) ≤ fInitialPollCountdown this
            ∧ fIncompleteReadRetries (exec c this) ≤ fIncompleteReadRetries this
            ∧ (0 ≤ fInitialPollCountdown this → 0 ≤ fInitialPollCountdown (exec c this))
            ∧ (0 ≤ fIncompleteReadRetries this
               → 0 ≤ fIncompleteReadRetries (exec c this))).
  { intros c' Hc. destruct (Hc this (conj eq_refl eq_refl)) as [H1 H2].
    unfold exec. rewrite H1, H2. lia. }
  destruct c; cbn [perform].
  - pose proof (transactionCompletion_countdown ref transaction this) as H.
    cbv zeta in H. unfold exec in *. unfold mbind, M_bind.
    destruct (transactionCompletion ref transaction this). cbn in *. lia.
  - apply Heq. preserve ltac:(intros [] ?H; msimpl; assumption).
  - apply Heq. preserve ltac:(intros [] ?H; msimpl; assumption).
  - apply Heq. preserve ltac:(intros [] ?H; msimpl; assumption).
  - apply Heq. preserve ltac:(intros [] ?H; msimpl; assumption).
  - apply Heq. preserve ltac:(intros [] ?H; msimpl; assumption).
  - apply Heq. preserve ltac:(intros [] ?H; msimpl; assumption).
  - apply Heq. preserve ltac:(intros [] ?H; msimpl; assumption).
  - rewrite incompleteReadTimeOut_budget.
    assert (Hcd : fInitialPollCountdown (exec incompleteReadTimeOut this)
                  = fInitialPollCountdown this).
    { apply (preserves_exec (λ s, fInitialPollCountdown s = fInitialPollCountdown this));
        [| reflexivity].
      preserve ltac:(intros [] ?H; msimpl; assumption). }
    rewrite Hcd.
    destruct (Z.ltb_spec 0 (fIncompleteReadRetries this)); lia.
  - apply Heq. preserve ltac:(intros [] ?H; msimpl; assumption).
Qed.

(** *** One transaction at a time *)

Lemma runState_one_read ref t this :
  issues_at_most_one_read this (exec (runState pollBatteryState ref t) this).
Proof.
  wp_start. destruct this.
  destruct ref as [[] |]; cbn [runState]; wp_run; one_read.
Qed.

Lemma issues_at_most_one_read_after this mid after :
  List.filter is_read (trace mid) = List.filter is_read (trace this) →
  issues_at_most_one_read mid after → issues_at_most_one_read this after.
Proof. unfold issues_at_most_one_read. intros ->. exact id. Qed.

(** X4.  A call of any entry point hands at most one transaction to the
    transport; when it hands one, the transaction buffer [fTransaction]
    describes exactly that transaction. *)
Theorem one_transaction_per_call c this :
  issues_at_most_one_read this (exec (perform c) this).
Proof.
  destruct c; cbn [perform].
  - rewrite exec_bind. change (exec (mret tt) ?s) with s.
    destruct (transactionCompletion_cases ref transaction this)
      as [(_ & _ & Heq) | [(_ & Heq) | (t & _ & _ & _ & [[_ Heq] | [_ Heq]])]];
      rewrite Heq; clear Heq.
    + destruct this. left. reflexivity.
    + wp_start. destruct this. wp_run. one_read.
    + apply (issues_at_most_one_read_after _ (needsRetry t this).2);
        [exact (needsRetry_no_read t _ this eq_refl) |].
      generalize (needsRetry t this).2. clear this. intros this.
      wp_start. destruct this. wp_run. all: one_read.
    + apply (issues_at_most_one_read_after _ (needsRetry t this).2);
        [exact (needsRetry_no_read t _ this eq_refl) |].
      apply runState_one_read.
  - wp_start. destruct this. wp_run. all: one_read.
  - wp_start. destruct this. wp_run. all: one_read.
  - wp_start. destruct this. wp_run. all: one_read.
  - wp_start. destruct this. wp_run. all: one_read.
  - wp_start. destruct this. wp_run. all: one_read.
  - wp_start. destruct this. wp_run. all: one_read.
  - wp_start. destruct this. wp_run. all: one_read.
  - wp_start. destruct this. wp_run. all: one_read.
  - wp_start. destruct this. wp_run. all: one_read.
Qed.

(** *** The order of the reads *)

Lemma runState_successor c t this p a cmd :
  successor (fMachinePath this) c = Some (p, a, cmd) →
  let after := exec (runState pollBatteryState (Some c) t) this in
  List.filter is_read (trace after) =
    List.filter is_read (trace this) ++ [performTransaction p a cmd]
  ∧ last (trace after) = Some (performTransaction p a cmd)
  ∧ fTransaction after = Some (mkTransaction p a cmd kIOSMBusStatusOK [] 0).
Proof.
  intros Hsucc after. subst after. wp_start.
  remember (fMachinePath this) as path eqn:Hp. destruct this. cbn in Hp. subst path.
  destruct c; cbn [successor] in Hsucc; try discriminate Hsucc;
    try (destruct (kNewBatteryPath =? _) eqn:Hpath in Hsucc);
    simplify_eq; cbn [runState]; wp_run; reads_done; repeat split; reflexivity.
Qed.

(** The handler of a state hands out the read [next_read] gives, and no
    other. *)
Lemma runState_next_read c t this :
  let after := exec (runState pollBatteryState (Some c) t) this in
  List.filter is_read (trace after) =
    List.filter is_read (trace this)
      ++ option_list (read_event <$> next_read c t this)
  ∧ (∀ p a cmd, next_read c t this = Some (p, a, cmd) →
       last (trace after) = Some (performTransaction p a cmd)
       ∧ fTransaction after = Some (mkTransaction p a cmd kIOSMBusStatusOK [] 0)).
Proof.
  intros after. subst after.
  destruct (successor (fMachinePath this) c) as [[[p a] cmd] |] eqn:Hsucc.
  - assert (Hnext : next_read c t this = Some (p, a, cmd))
      by (destruct c; try exact Hsucc; discriminate Hsucc).
    rewrite Hnext.
    destruct (runState_successor c t this p a cmd Hsucc) as (Hreads & Hlast & Htr).
    split; [exact Hreads |].
    intros ? ? ? [= <- <- <-]. split; assumption.
  - assert (Hc : c = kMStateCmd ∨ c = kBCurrentCmd).
    { destruct c; cbn [successor] in Hsucc;
        try (destruct (kNewBatteryPath =? _) in Hsucc); try discriminate Hsucc;
        [left | right]; reflexivity. }
    clear Hsucc. unfold next_read.
    destruct Hc as [-> | ->]; cbn [runState].
    + destruct (bool_decide (kIOSMBusStatusOK = status t)) eqn:Hok,
        (bit_set (receiveWord t) kMPresentBatt_A_Bit) eqn:Hbit;
        wp_start; destruct this; unfold state_kMStateCmd; rewrite Hok;
        wp_run; reads_done; rewrite ?Hbit; msimpl; rewrite ?app_nil_r;
        (split; [reflexivity |]); intros ? ? ? Heq;
        first [discriminate Heq
              | injection Heq as <- <- <-; split; reflexivity].
    + destruct (fPollingOverridden this) eqn:Hov,
        (fPollingInterval this =? 0) eqn:Hiv,
        (fStalledByUserClient this) eqn:Hst;
        wp_start; destruct this; cbn in Hov, Hiv, Hst; subst;
        wp_run; reads_done; rewrite ?app_nil_r;
        (split; [reflexivity |]); intros ? ? ? Heq;
        first [discriminate Heq
              | injection Heq as <- <- <-; split; reflexivity].
Qed.

(** The retry policy leaves alone what decides the next read. *)
Lemma next_read_same_telemetry c t a b :
  same_telemetry a b → next_read c t a = next_read c t b.
Proof.
  unfold same_telemetry. intros H. destruct_and!.
  unfold next_read.
  destruct c;
    repeat match goal with
           | H : ?f a = ?f b |- _ => rewrite ?H; clear H
           end; reflexivity.
Qed.

(** In every state but the battery system state and the last one, a read
    follows whatever the transaction was. *)
Lemma next_read_always c t this :
  c ≠ kMStateCmd → c ≠ kBCurrentCmd →
  next_read c t this = successor (fMachinePath this) c
  ∧ is_Some (next_read c t this).
Proof.
  intros H1 H2. unfold next_read.
  destruct c; try congruence; (split; [reflexivity |]); cbn [successor];
    try (destruct (kNewBatteryPath =? _)); eexists; reflexivity.
Qed.

(** X5.  The read that follows a completion is fixed in advance.  With no
    cancellation or restart pending, a completed transaction that is not
    retried hands out at most one read, the one [next_read] gives, which is
    then the last thing handed to the transport and the content of the
    transaction buffer.  In every state but two a read always follows, and
    which one depends on the state and, at the fork after the battery status,
    on the machine path alone: whatever the status and data of the completed
    read, so a read that has failed for good neither ends nor reorders the
    sequence there.  The two exceptions: after the battery system state the
    battery status is read only if the read succeeded and shows the battery
    (otherwise nothing is read), and after the last state nothing is read
    unless the continuous debug mode begins the next poll. *)
Theorem read_sequence_is_fixed c t this :
  fCancelPolling this = false →
  fRebootPolling this = false →
  (needsRetry t this).1 = false →
  let after := exec (transactionCompletion (Some c) (Some t)) this in
  List.filter is_read (trace after) =
    List.filter is_read (trace this)
      ++ option_list (read_event <$> next_read c t this)
  ∧ (∀ p a cmd, next_read c t this = Some (p, a, cmd) →
       last (trace after) = Some (performTransaction p a cmd)
       ∧ fTransaction after = Some (mkTransaction p a cmd kIOSMBusStatusOK [] 0))
  ∧ (c ≠ kMStateCmd → c ≠ kBCurrentCmd →
     next_read c t this = successor (fMachinePath this) c
     ∧ is_Some (next_read c t this)).
Proof.
  intros Hc Hr Hn after. subst after.
  destruct (transactionCompletion_not_retried (Some c) t this Hc Hr Hn)
    as [-> Hsame].
  rewrite <- (next_read_same_telemetry c t _ _ Hsame).
  destruct (runState_next_read c t (needsRetry t this).2) as [Hreads Hlast].
  rewrite (needsRetry_no_read t _ this eq_refl) in Hreads.
  split; [exact Hreads |]. split; [exact Hlast |].
  rewrite (next_read_same_telemetry c t _ _ Hsame).
  apply next_read_always.
Qed.

(** *** Publication *)

Lemma needsRetry_no_publication t pubs :
  preserves (λ this, List.filter is_publication (trace this) = pubs) (needsRetry t).
Proof.
  preserve ltac:(intros [] ?H; msimpl; rewrite ?List.filter_app, ?app_nil_r;
                 assumption).
Qed.

(** X6.  Only the handlers of the battery system state, the battery status
    and the last state publish the power source status: a completion in any
    other state, on any of its paths (dropped, restarted, retried, handled),
    publishes nothing, so the clients do not see a table half updated. *)
Theorem intermediate_states_publish_nothing ref tr this :
  publishes_at ref = false →
  let after := exec (transactionCompletion ref tr) this in
  List.filter is_publication (trace after) = List.filter is_publication (trace this).
Proof.
  intros Hpub after. subst after.
  apply (preserves_exec
           (λ s, List.filter is_publication (trace s) =
                 List.filter is_publication (trace this)));
    [| reflexivity].
  destruct ref as [[] |]; try discriminate Hpub;
    preserve ltac:(intros [] ?H; msimpl; repeat case_match;
                   rewrite ?List.filter_app, ?app_nil_r; assumption).
Qed.

Lemma state_kBCurrentCmd_publication t this :
  let after := exec (state_kBCurrentCmd pollBatteryState t) this in
  let legacy key := OSDictionary_getObject key (properties after !! batteryInfoKey) in
  List.filter is_publication (trace after) =
    List.filter is_publication (trace this)
      ++ [updateStatus_published (properties after)]
  ∧ legacy kIOBatteryCurrentChargeKey = properties after !! currentCapacityKey
  ∧ legacy kIOBatteryCapacityKey = properties after !! maxCapacityKey
  ∧ legacy kIOBatteryVoltageKey = properties after !! voltageKey
  ∧ legacy kIOBatteryAmperageKey = properties after !! amperageKey
  ∧ legacy kIOBatteryCycleCountKey = properties after !! cycleCountKey.
Proof.
  intros after legacy. subst legacy after. wp_start.
  remember (properties this) as table eqn:Ht.
  destruct this. cbn in Ht. destruct Ht.
  wp_run; reads_done; map_lookup; unfold OSDictionary_getObject.
  all: destruct (table !! currentCapacityKey), (table !! maxCapacityKey),
    (table !! voltageKey), (table !! amperageKey),
    (table !! cycleCountKey); cbn; repeat split; reflexivity.
Qed.

(** X7.  With no cancellation or restart pending and the read not retried,
    the last state publishes once, and what it publishes is the property
    table as the call leaves it; the legacy battery info in that
    table agrees with the table's current capacity, maximum capacity,
    voltage, amperage and cycle count. *)
Theorem poll_end_publishes_final_table t this :
  fCancelPolling this = false →
  fRebootPolling this = false →
  (needsRetry t this).1 = false →
  let after := exec (transactionCompletion (Some kBCurrentCmd) (Some t)) this in
  let legacy key := OSDictionary_getObject key (properties after !! batteryInfoKey) in
  List.filter is_publication (trace after) =
    List.filter is_publication (trace this)
      ++ [updateStatus_published (properties after)]
  ∧ legacy kIOBatteryCurrentChargeKey = properties after !! currentCapacityKey
  ∧ legacy kIOBatteryCapacityKey = properties after !! maxCapacityKey
  ∧ legacy kIOBatteryVoltageKey = properties after !! voltageKey
  ∧ legacy kIOBatteryAmperageKey = properties after !! amperageKey
  ∧ legacy kIOBatteryCycleCountKey = properties after !! cycleCountKey.
Proof.
  intros Hc Hr Hn after. subst after.
  destruct (transactionCompletion_not_retried (Some kBCurrentCmd) t this Hc Hr Hn)
    as [Heq _].
  rewrite Heq. cbn [runState].
  pose proof (needsRetry_no_publication t _ this eq_refl) as Hpubs.
  pose proof (state_kBCurrentCmd_publication t (needsRetry t this).2) as H.
  cbv zeta in H. rewrite Hpubs in H. exact H.
Qed.

(** *** The states one by one *)

(** X8.  [start] on an object no user client has stalled leaves the first
    poll in flight: polling on the new battery path, the read of the
    controller status issued and nothing else handed out or published, the
    read-all watchdog armed with 10 s and the poll timer idle, both
    countdowns full, the debug override taken from the provider's property,
    the three waiting periods published in the registry and the battery
    reported as not installed. *)
Theorem start_begins_first_poll debugPollingSetting this :
  fStalledByUserClient this = false →
  let after := exec (start debugPollingSetting) this in
  fPollingNow after = true
  ∧ fMachinePath after = kNewBatteryPath
  ∧ fPollingOverridden after = bool_decide (is_Some debugPollingSetting)
  ∧ fPollingInterval after =
      default kDefaultPollInterval ((λ s, s mod 2 ^ 32) <$> debugPollingSetting)
  ∧ fRetryAttempts after = 0
  ∧ fInitialPollCountdown after = kInitialPollCountdown
  ∧ fIncompleteReadRetries after = kIncompleteReadRetryMax
  ∧ fBatteryReadAllTimer after = Some kBatteryReadAllTimeout
  ∧ fPollTimer after = None
  ∧ trace after =
      trace this
        ++ [performTransaction kIOSMBusProtocolReadWord kSMBusManagerAddr
              kMStateContCmd]
  ∧ registry after !! kIOPMPSInvalidWakeSecondsKey =
      Some (OSNumber_withNumber kSecondsUntilValidOnWake 32)
  ∧ registry after !! kIOPMPSPostChargeWaitSecondsKey =
      Some (OSNumber_withNumber kPostChargeWaitSeconds 32)
  ∧ registry after !! kIOPMPSPostDishargeWaitSecondsKey =
      Some (OSNumber_withNumber kPostDischargeWaitSeconds 32)
  ∧ properties after !! batteryInstalledKey = Some (OSBoolean false).
Proof.
  intros Hs after. subst after.
  wp_start.
  destruct this, debugPollingSetting; cbn in Hs; subst; wp_run.
  all: map_lookup; repeat split; reflexivity.
Qed.

(** X9.  A successful controller-status read, with no cancellation or
    restart pending: AC counts as connected when
    the AC-present bit is set and inflow is not disabled; this value is
    stored and published, charge-capable is published as the negation of the
    power-not-good bit, the root domain is notified exactly when the value
    differs from the stored one (with the set-value flag when AC appears),
    and the battery system state is read next. *)
Theorem ac_change_is_notified t this :
  fCancelPolling this = false →
  fRebootPolling this = false →
  status t = kIOSMBusStatusOK → command t = kMStateContCmd →
  let after := exec (transactionCompletion (Some kMStateContCmd) (Some t)) this in
  let connected :=
    negb (fInflowDisabled this) && bit_set (receiveWord t) kMACPresentBit in
  fACConnected after = connected
  ∧ properties after !! externalConnectedKey = Some (OSBoolean connected)
  ∧ properties after !! externalChargeCapableKey =
      Some (OSBoolean (negb (bit_set (receiveWord t) kMPowerNotGoodBit)))
  ∧ List.filter is_power_notification (trace after) =
      List.filter is_power_notification (trace this)
        ++ (if Bool.eqb connected (fACConnected this) then []
            else [receivePowerNotification
                    (if connected
                     then Z.lor kIOPMSetACAdaptorConnected kIOPMSetValue
                     else kIOPMSetACAdaptorConnected)])
  ∧ last (trace after) =
      Some (performTransaction kIOSMBusProtocolReadWord kSMBusManagerAddr kMStateCmd).
Proof.
  intros Hc Hr Hs Hcmd after connected. subst after connected.
  wp_start. destruct this, t. cbn in Hc, Hr, Hs, Hcmd. subst.
  wp_run.
  all: rewrite ?List.filter_app, ?app_nil_r, ?last_snoc; map_lookup;
    repeat match goal with
      | H : ?b = _ |- context [?b] => rewrite H
      end;
    repeat split; reflexivity.
Qed.

(** *** Absent battery *)

Lemma state_kMStateCmd_absent t this :
  (status t = kIOSMBusStatusOK →
   bit_set (receiveWord t) kMPresentBatt_A_Bit = false) →
  let after := exec (state_kMStateCmd t) this in
  fPollingNow after = false
  ∧ fBatteryPresent after = false
  ∧ fACConnected after = false
  ∧ List.filter is_read (trace after) = List.filter is_read (trace this)
  ∧ last (trace after) = Some (updateStatus_published (properties after))
  ∧ properties after !! batteryInstalledKey = Some (OSBoolean false)
  ∧ properties after !! chargingKey = Some (OSBoolean false)
  ∧ properties after !! currentCapacityKey = Some (OSNumber_withNumber 0 32)
  ∧ properties after !! maxCapacityKey = Some (OSNumber_withNumber 0 32)
  ∧ properties after !! manufacturerKey = None
  ∧ properties after !! serialKey = None
  ∧ properties after !! externalConnectedKey = properties this !! externalConnectedKey
  ∧ fPollTimer after = fPollTimer this
  ∧ fBatteryReadAllTimer after = fBatteryReadAllTimer this.
Proof.
  intros Hbit after. subst after. wp_start. destruct this.
  destruct (decide (status t = kIOSMBusStatusOK)) as [Hs | Hs].
  - specialize (Hbit Hs). wp_run; try congruence.
    all: rewrite ?List.filter_app, ?app_nil_r, ?last_snoc; map_lookup;
      repeat split; reflexivity.
  - clear Hbit. wp_run.
    all: rewrite ?List.filter_app, ?app_nil_r, ?last_snoc; map_lookup;
      repeat split; reflexivity.
Qed.

(** X10.  When the battery-system-state read reports no battery, or has
    failed for good (no cancellation or restart pending), the poll ends
    there: [fPollingNow] is cleared, no
    further read is issued and the cleared battery state is published.  The
    internal AC flag is cleared although the published external-connected
    property is kept, and neither timer is touched: the read-all watchdog
    armed in state 0 stays armed. *)
Theorem absent_battery_ends_poll t this :
  fCancelPolling this = false →
  fRebootPolling this = false →
  (needsRetry t this).1 = false →
  (status t = kIOSMBusStatusOK →
   bit_set (receiveWord t) kMPresentBatt_A_Bit = false) →
  let after := exec (transactionCompletion (Some kMStateCmd) (Some t)) this in
  fPollingNow after = false
  ∧ fBatteryPresent after = false
  ∧ fACConnected after = false
  ∧ List.filter is_read (trace after) = List.filter is_read (trace this)
  ∧ last (trace after) = Some (updateStatus_published (properties after))
  ∧ properties after !! batteryInstalledKey = Some (OSBoolean false)
  ∧ properties after !! chargingKey = Some (OSBoolean false)
  ∧ properties after !! currentCapacityKey = Some (OSNumber_withNumber 0 32)
  ∧ properties after !! maxCapacityKey = Some (OSNumber_withNumber 0 32)
  ∧ properties after !! manufacturerKey = None
  ∧ properties after !! serialKey = None
  ∧ properties after !! externalConnectedKey = properties this !! externalConnectedKey
  ∧ fPollTimer after = fPollTimer this
  ∧ fBatteryReadAllTimer after = fBatteryReadAllTimer this.
Proof.
  intros Hc Hr Hn Hbit after. subst after.
  destruct (transactionCompletion_not_retried (Some kMStateCmd) t this Hc Hr Hn)
    as [Heq Hsame].
  rewrite Heq. cbn [runState].
  pose proof (needsRetry_no_read t _ this eq_refl) as Hreads.
  pose proof (state_kMStateCmd_absent t (needsRetry t this).2 Hbit) as H.
  cbv zeta in H. unfold same_telemetry in Hsame.
  destruct Hsame as (_ & _ & _ & _ & _ & _ & _ & _ & _ & _ & _ & _ & _ & _
                     & _ & _ & _ & _ & _ & _ & _ & Hprop & Hpt & Hwd).
  rewrite Hreads, Hprop, Hpt, Hwd in H. exact H.
Qed.

(** X11.  A successful battery-status read without the permanent-failure
    pattern, with no cancellation or restart pending: the two flags take the values of the fully-charged and
    fully-discharged bits, fully-charged is published, and the provider is
    told of a full discharge exactly when the bit is set and the flag was
    not: once per discharge, not at every poll. *)
Theorem full_discharge_reported_once t this :
  fCancelPolling this = false →
  fRebootPolling this = false →
  status t = kIOSMBusStatusOK → command t = kBBatteryStatusCmd →
  (Z.land (receiveWord t) permanentFailureMask =? permanentFailureMask) = false →
  let after := exec (transactionCompletion (Some kBBatteryStatusCmd) (Some t)) this in
  let discharged := bit_set (receiveWord t) kBFullyDischargedStatusBit in
  fFullyDischarged after = discharged
  ∧ fFullyCharged after = bit_set (receiveWord t) kBFullyChargedStatusBit
  ∧ properties after !! _FullyChargedSym = Some (OSBoolean (fFullyCharged after))
  ∧ List.filter is_full_discharge (trace after) =
      List.filter is_full_discharge (trace this)
        ++ (if discharged && negb (fFullyDischarged this)
            then [handleFullDischarge] else []).
Proof.
  intros Hc Hr Hs Hcmd Hpf after discharged. subst after discharged.
  wp_start. destruct this, t. cbn in Hc, Hr, Hs, Hcmd. subst.
  wp_run; try congruence.
  all: rewrite ?List.filter_app, ?app_nil_r; map_lookup;
    repeat match goal with
      | H : ?b = _ |- context [?b] => rewrite H
      end;
    repeat split; reflexivity.
Qed.

(** X12.  The two currents, read successfully with no cancellation or
    restart pending, are published in different forms.  The average
    current is kept as a signed 16-bit value and published as a 32-bit
    number holding its two's complement (a discharge current of -n is
    published as 2^32 - n); the instantaneous current is published as a
    16-bit number, which is the word as it was read. *)
Theorem current_publication tavg tcur this :
  fCancelPolling this = false →
  fRebootPolling this = false →
  status tavg = kIOSMBusStatusOK → command tavg = kBAverageCurrentCmd →
  status tcur = kIOSMBusStatusOK → command tcur = kBCurrentCmd →
  let averaged :=
    exec (transactionCompletion (Some kBAverageCurrentCmd) (Some tavg)) this in
  let finished :=
    exec (transactionCompletion (Some kBCurrentCmd) (Some tcur)) this in
  fAvgCurrent averaged = to_int16 (receiveWord tavg)
  ∧ -32768 ≤ fAvgCurrent averaged ≤ 32767
  ∧ (∃ v, properties averaged !! amperageKey = Some (OSNumber v 32)
          ∧ 0 ≤ v < 2 ^ 32 ∧ to_int32 v = fAvgCurrent averaged
          ∧ (fAvgCurrent averaged < 0 → v = 2 ^ 32 + fAvgCurrent averaged))
  ∧ registry finished !! "RealCurrent" = Some (OSNumber (receiveWord tcur) 16).
Proof.
  intros Hc Hr Hs1 Hc1 Hs2 Hc2 averaged finished.
  assert (Havg : fAvgCurrent averaged = to_int16 (receiveWord tavg)
                 ∧ properties averaged !! amperageKey =
                     Some (OSNumber_withNumber (to_int16 (receiveWord tavg)) 32)).
  { subst averaged. wp_start. destruct this, tavg. cbn in Hc, Hr, Hs1, Hc1. subst.
    wp_run; map_lookup; split; reflexivity. }
  assert (Hfin : registry finished !! "RealCurrent" =
                   Some (OSNumber_withNumber (to_int16 (receiveWord tcur)) 16)).
  { subst finished. wp_start. destruct this, tcur. cbn in Hc, Hr, Hs2, Hc2. subst.
    wp_run; map_lookup; reflexivity. }
  destruct Havg as [Hf Hp]. pose proof (receiveWord_range tavg) as Hw.
  pose proof (to_int16_range _ Hw) as Hi.
  split; [exact Hf |]. split; [rewrite Hf; exact Hi |]. split.
  - exists (to_int16 (receiveWord tavg) mod 2 ^ 32). split; [exact Hp |].
    split; [apply Z.mod_pos_bound; lia |]. rewrite Hf.
    pose proof (to_int32_unsigned (to_int16 (receiveWord tavg)) ltac:(lia)) as Hrt.
    unfold unsigned32BitValue in Hrt. rewrite Z.mod_mod in Hrt by lia.
    split; [exact Hrt |]. intros Hneg.
    replace (to_int16 (receiveWord tavg))
      with (2 ^ 32 + to_int16 (receiveWord tavg) + (-1) * 2 ^ 32) at 1 by lia.
    rewrite Z.mod_add by lia. apply Z.mod_small. lia.
  - rewrite Hfin. unfold OSNumber_withNumber.
    rewrite (to_int16_mod _ (receiveWord_range tcur)). reflexivity.
Qed.

(** X13.  After the time-to-empty and time-to-full reads have both
    succeeded (no cancellation or restart pending), both times are published, and the time remaining is the time
    to empty if the average current is negative, the time to full if it is
    positive, and is left as it was if the average current is zero. *)
Theorem time_remaining_follows_current te tf this :
  fCancelPolling this = false →
  fRebootPolling this = false →
  status te = kIOSMBusStatusOK → command te = kBAverageTimeToEmptyCmd →
  status tf = kIOSMBusStatusOK → command tf = kBAverageTimeToFullCmd →
  let after :=
    exec (transactionCompletion (Some kBAverageTimeToFullCmd) (Some tf))
      (exec (transactionCompletion (Some kBAverageTimeToEmptyCmd) (Some te)) this) in
  properties after !! _AvgTimeToEmptySym = Some (OSNumber (receiveWord te) 32)
  ∧ properties after !! _AvgTimeToFullSym = Some (OSNumber (receiveWord tf) 32)
  ∧ properties after !! timeRemainingKey =
      (if fAvgCurrent this <? 0 then Some (OSNumber (receiveWord te) 32)
       else if 0 <? fAvgCurrent this then Some (OSNumber (receiveWord tf) 32)
       else properties this !! timeRemainingKey).
Proof.
  intros Hc Hr Hs1 Hc1 Hs2 Hc2 after. subst after.
  rewrite <- !(OSNumber_withNumber_word _ 32) by lia.
  rewrite <- exec_bind. wp_start.
  destruct this, te, tf. cbn in Hc, Hr, Hs1, Hc1, Hs2, Hc2. subst.
  wp_run; map_lookup; zify_tests;
    repeat match goal with
      | |- context [?a <? ?b] => destruct (Z.ltb_spec a b); try lia
      end;
    try lia; repeat split; reflexivity.
Qed.

(** *** Cell voltages *)

(** One cell-voltage state, on a read that is not to be retried. *)
Lemma cell_voltage_step c t cells this :
  fCancelPolling this = false →
  fRebootPolling this = false →
  STATUS_ERROR_NEEDS_RETRY (status t) = false →
  command t = c →
  (c = kBReadCellVoltage1Cmd ∧ cells = []
   ∨ (c = kBReadCellVoltage2Cmd ∨ c = kBReadCellVoltage3Cmd
      ∨ c = kBReadCellVoltage4Cmd)
     ∧ fCellVoltages this = Some cells) →
  let after := exec (transactionCompletion (Some c) (Some t)) this in
  fCancelPolling after = false
  ∧ fRebootPolling after = false
  ∧ List.filter is_read (trace after) =
      List.filter is_read (trace this)
        ++ [read_word_of (if bool_decide (c = kBReadCellVoltage4Cmd)
                          then kBCurrentCmd else cellVoltage_pred c)]
  ∧ (if bool_decide (c = kBReadCellVoltage4Cmd)
     then fCellVoltages after = None
          ∧ registry after !! _CellVoltageSym =
              Some (OSArray (cells ++ [cellVoltage_number t]))
     else fCellVoltages after = Some (cells ++ [cellVoltage_number t])).
Proof.
  intros Hc Hr Hs Hcmd Hcells after. subst after. wp_start.
  unfold cellVoltage_number.
  destruct this, t as [? ? ? st ? ?]. cbn in Hc, Hr, Hs, Hcmd, Hcells. subst.
  destruct st; try discriminate Hs;
    destruct Hcells as [[-> ->] | [[-> | [-> | ->]] ->]];
    wp_run; reads_done; map_lookup; repeat split; reflexivity.
Qed.

(** X14.  The four cell-voltage reads, none of them to be retried and with
    no cancellation or restart pending, publish
    one array of exactly four numbers, in the order cell 1 to cell 4, a
    failed read counting as 0; the array is published at the fourth read,
    whatever an aborted earlier poll had left in [fCellVoltages], which is
    empty afterwards; the reads issued are cell 2, 3, 4 and the current. *)
Theorem cell_voltages_published_together t1 t2 t3 t4 this :
  fCancelPolling this = false →
  fRebootPolling this = false →
  STATUS_ERROR_NEEDS_RETRY (status t1) = false → command t1 = kBReadCellVoltage1Cmd →
  STATUS_ERROR_NEEDS_RETRY (status t2) = false → command t2 = kBReadCellVoltage2Cmd →
  STATUS_ERROR_NEEDS_RETRY (status t3) = false → command t3 = kBReadCellVoltage3Cmd →
  STATUS_ERROR_NEEDS_RETRY (status t4) = false → command t4 = kBReadCellVoltage4Cmd →
  let completion c t := exec (transactionCompletion (Some c) (Some t)) in
  let after :=
    completion kBReadCellVoltage4Cmd t4
      (completion kBReadCellVoltage3Cmd t3
         (completion kBReadCellVoltage2Cmd t2
            (completion kBReadCellVoltage1Cmd t1 this))) in
  registry after !! _CellVoltageSym =
    Some (OSArray [cellVoltage_number t1; cellVoltage_number t2;
                   cellVoltage_number t3; cellVoltage_number t4])
  ∧ fCellVoltages after = None
  ∧ List.filter is_read (trace after) =
      List.filter is_read (trace this)
        ++ [read_word_of kBReadCellVoltage2Cmd; read_word_of kBReadCellVoltage3Cmd;
            read_word_of kBReadCellVoltage4Cmd; read_word_of kBCurrentCmd].
Proof.
  intros Hc Hr Hs1 Hc1 Hs2 Hc2 Hs3 Hc3 Hs4 Hc4 completion after.
  subst after completion. cbv beta.
  destruct (cell_voltage_step _ t1 [] this Hc Hr Hs1 Hc1
              ltac:(left; split; reflexivity))
    as (Hca & Hra & Hreads1 & Hcells1).
  cbn [bool_decide decide_rel] in Hreads1, Hcells1.
  set (s1 := exec (transactionCompletion (Some kBReadCellVoltage1Cmd) (Some t1)) this)
    in *.
  destruct (cell_voltage_step _ t2 _ s1 Hca Hra Hs2 Hc2
              ltac:(right; split; [left; reflexivity | exact Hcells1]))
    as (Hcb & Hrb & Hreads2 & Hcells2).
  set (s2 := exec (transactionCompletion (Some kBReadCellVoltage2Cmd) (Some t2)) s1)
    in *.
  destruct (cell_voltage_step _ t3 _ s2 Hcb Hrb Hs3 Hc3
              ltac:(right; split; [right; left; reflexivity | exact Hcells2]))
    as (Hcc & Hrc & Hreads3 & Hcells3).
  set (s3 := exec (transactionCompletion (Some kBReadCellVoltage3Cmd) (Some t3)) s2)
    in *.
  destruct (cell_voltage_step _ t4 _ s3 Hcc Hrc Hs4 Hc4
              ltac:(right; split; [right; right; reflexivity | exact Hcells3]))
    as (_ & _ & Hreads4 & Hnone & Hpub).
  split; [exact Hpub |]. split; [exact Hnone |].
  rewrite Hreads4, Hreads3, Hreads2, Hreads1, <- !app_assoc. reflexivity.
Qed.

(** *** The retry counter across registers *)

(** When the retry policy does not retry, it has cleared the counter, unless
    the status is non-recoverable. *)
Lemma needsRetry_retryAttempts t this :
  (needsRetry t this).1 = false →
  fRetryAttempts (needsRetry t this).2 =
  if STATUS_ERROR_NON_RECOVERABLE (status t) then fRetryAttempts this else 0.
Proof.
  intros Hn. revert Hn.
  pattern (needsRetry t this).2. pattern (needsRetry t this).1.
  change (wp (needsRetry t)
            (λ b s, b = false →
                    fRetryAttempts s =
                    if STATUS_ERROR_NON_RECOVERABLE (status t)
                    then fRetryAttempts this else 0) this).
  destruct this, t as [? ? ? st ? ?].
  destruct st; wp_run; intros; zify_tests; try discriminate;
    repeat match goal with
      | |- context [STATUS_ERROR_NON_RECOVERABLE ?s] =>
          let v := eval vm_compute in (STATUS_ERROR_NON_RECOVERABLE s) in
          change (STATUS_ERROR_NON_RECOVERABLE s) with v
      end;
    cbv beta iota; first [reflexivity | congruence | lia].
Qed.

(** A failed read leaves the counter alone in every state but the battery
    system state. *)
Lemma runState_failure_retryAttempts c t this :
  status t ≠ kIOSMBusStatusOK →
  c ≠ kMStateCmd →
  fRetryAttempts (exec (runState pollBatteryState (Some c) t) this) =
  fRetryAttempts this.
Proof.
  intros Hs Hc. wp_start. pose proof (not_ok_decide _ Hs) as Hok.
  remember (fRetryAttempts this) as n eqn:Hn.
  destruct this. cbn in Hn. subst n.
  destruct c; try contradiction; cbn [runState]; wp_run; reflexivity.
Qed.

(** X15.  A read that fails with a non-recoverable status (in any state but
    the battery system state, no cancellation or restart pending) leaves the retry counter as it is: the count
    of an earlier retried read is carried to the next register.  With the
    counter at 5, the next retryable failure is given up at once, without a
    retry. *)
Theorem retry_count_survives_non_recoverable_failure c t this :
  fCancelPolling this = false →
  fRebootPolling this = false →
  STATUS_ERROR_NON_RECOVERABLE (status t) = true →
  c ≠ kMStateCmd →
  let after := exec (transactionCompletion (Some c) (Some t)) this in
  fRetryAttempts after = fRetryAttempts this
  ∧ (fRetryAttempts this = kRetryAttempts →
     ∀ t', STATUS_ERROR_NEEDS_RETRY (status t') = true →
           needsRetry t' after = (false, exec (giveUpOnRetries t') after)).
Proof.
  intros Hc Hr Hnr Hcmd after.
  assert (Hs : status t ≠ kIOSMBusStatusOK ∧ STATUS_ERROR_NEEDS_RETRY (status t) = false).
  { destruct (status_classes (status t)) as [(_ & _ & H) | [(_ & _ & H) | (H1 & H2 & _)]];
      [congruence | congruence | split; assumption]. }
  destruct Hs as [Hs Hn].
  assert (Hnot : (needsRetry t this).1 = false).
  { rewrite (needsRetry_non_recoverable t this Hs Hn). reflexivity. }
  assert (Hcount : fRetryAttempts after = fRetryAttempts this).
  { subst after.
    destruct (transactionCompletion_not_retried (Some c) t this Hc Hr Hnot) as [Heq _].
    rewrite Heq, (runState_failure_retryAttempts c t _ Hs Hcmd).
    rewrite (needsRetry_retryAttempts t this Hnot), Hnr. reflexivity. }
  split; [exact Hcount |].
  intros Hfull t' Hs'. apply needsRetry_exhausted; [exact Hs' | congruence].
Qed.

(** *** Cancellation and stall *)

(** X16.  A battery removed and inserted again while a transaction is in
    flight and no user client stalls the driver: the removal raises the cancel flag, the insertion finds the poll
    still marked as running and only requests a restart; the completion then
    honours the cancellation alone.  Polling stops, no read is issued, both
    timers are idle and the restart request stays pending: the new battery
    is not read until another event asks for a poll. *)
Theorem reinsertion_during_cancelled_poll ref t this :
  fPollingNow this = true →
  fStalledByUserClient this = false →
  let removed := exec handleBatteryRemoved this in
  let inserted := exec handleBatteryInserted removed in
  let after := exec (transactionCompletion ref (Some t)) inserted in
  fCancelPolling removed = true
  ∧ fRebootPolling inserted = true
  ∧ fPollingNow after = false
  ∧ fRebootPolling after = true
  ∧ fPollTimer after = None
  ∧ fBatteryReadAllTimer after = None
  ∧ List.filter is_read (trace after) = List.filter is_read (trace this)
  ∧ properties after !! batteryInstalledKey = Some (OSBoolean false).
Proof.
  intros Hp Hs removed inserted after.
  subst after inserted removed. rewrite <- !exec_bind.
  split; [| split]; [apply wp_exec .. |];
    [| | repeat apply conj; apply wp_exec].
  all: destruct this; cbn in Hp, Hs; subst; wp_run.
  all: rewrite ?List.filter_app, ?app_nil_r; map_lookup; reflexivity.
Qed.

(** X17.  A user client that stalls and unstalls the driver while a
    transaction is in flight: the stall raises the cancel flag, the unstall
    only requests a restart, and the completion honours the cancellation
    alone.  The driver is left unstalled but idle, with both timers idle and
    nothing handed out. *)
Theorem unstall_during_cancelled_poll ref t this :
  fPollingNow this = true →
  let stalled := exec (handleUCStalled true) this in
  let unstalled := exec (handleUCStalled false) stalled in
  let after := exec (transactionCompletion ref (Some t)) unstalled in
  fCancelPolling stalled = true
  ∧ fStalledByUserClient unstalled = false
  ∧ fRebootPolling unstalled = true
  ∧ fStalledByUserClient after = false
  ∧ fPollingNow after = false
  ∧ fRebootPolling after = true
  ∧ fPollTimer after = None
  ∧ fBatteryReadAllTimer after = None
  ∧ trace after = trace this.
Proof.
  intros Hp stalled unstalled after.
  subst after unstalled stalled. rewrite <- !exec_bind.
  split; [| split; [| split]]; [apply wp_exec .. |];
    [| | | repeat apply conj; apply wp_exec].
  all: destruct this; cbn in Hp; subst; wp_run.
  all: reflexivity.
Qed.

(** X18.  While a user client stalls the driver and no poll is running, no
    entry point other than the completion callback and the unstall starts
    one: the driver stays stalled and idle, no read is issued and no timer
    is armed. *)
Theorem stalled_driver_starts_no_poll c this :
  fStalledByUserClient this = true →
  fPollingNow this = false →
  is_request c = true →
  let after := exec (perform c) this in
  fStalledByUserClient after = true
  ∧ fPollingNow after = false
  ∧ List.filter is_read (trace after) = List.filter is_read (trace this)
  ∧ (fPollTimer after = fPollTimer this ∨ fPollTimer after = None)
  ∧ fBatteryReadAllTimer after = fBatteryReadAllTimer this.
Proof.
  intros Hs Hp Hc after. subst after.
  apply (wp_exec _ (λ s, fStalledByUserClient s = true
                         ∧ fPollingNow s = false
                         ∧ List.filter is_read (trace s) = List.filter is_read (trace this)
                         ∧ (fPollTimer s = fPollTimer this ∨ fPollTimer s = None)
                         ∧ fBatteryReadAllTimer s = fBatteryReadAllTimer this)).
  destruct this; cbn in Hs, Hp; subst.
  destruct c as [| | | | | | [|] | | |]; try discriminate Hc; wp_run.
  all: rewrite ?List.filter_app, ?app_nil_r; auto 10.
Qed.

(** *** The property tables *)

(** X19.  [clearBatteryState] in full: the ten battery properties are reset
    (installed and charging false, the numbers 0), manufacturer and serial
    number are removed, the legacy info is rebuilt with no battery flag, the
    permanent-failure property is gone from the registry, and every other
    property keeps its value (external-connected, device name, design
    capacity and the like).  The flags and the average current are cleared,
    the internal AC flag among them; the remaining and full charge
    capacities are not.  The status is published exactly if asked for. *)
Theorem clearBatteryState_postcondition do_update this :
  let after := exec (clearBatteryState do_update) this in
  (∀ key, key ∉ clearedKeys → properties after !! key = properties this !! key)
  ∧ properties after !! batteryInstalledKey = Some (OSBoolean false)
  ∧ properties after !! chargingKey = Some (OSBoolean false)
  ∧ properties after !! currentCapacityKey = Some (OSNumber_withNumber 0 32)
  ∧ properties after !! maxCapacityKey = Some (OSNumber_withNumber 0 32)
  ∧ properties after !! timeRemainingKey = Some (OSNumber_withNumber 0 32)
  ∧ properties after !! amperageKey = Some (OSNumber_withNumber 0 32)
  ∧ properties after !! voltageKey = Some (OSNumber_withNumber 0 32)
  ∧ properties after !! cycleCountKey = Some (OSNumber_withNumber 0 32)
  ∧ properties after !! adapterInfoKey = Some (OSNumber_withNumber 0 32)
  ∧ properties after !! locationKey = Some (OSNumber_withNumber 0 32)
  ∧ properties after !! manufacturerKey = None
  ∧ properties after !! serialKey = None
  ∧ OSDictionary_getObject kIOBatteryFlagsKey (properties after !! batteryInfoKey) =
      Some (OSNumber_withNumber
              (legacyFlags (isTrue (properties this !! externalConnectedKey))
                 false false) 32)
  ∧ registry after !! kErrorPermanentFailure = None
  ∧ fRetryAttempts after = 0
  ∧ fFullyDischarged after = false
  ∧ fFullyCharged after = false
  ∧ fBatteryPresent after = false
  ∧ fACConnected after = false
  ∧ fAvgCurrent after = 0
  ∧ fRemainingCapacity after = fRemainingCapacity this
  ∧ fFullChargeCapacity after = fFullChargeCapacity this
  ∧ trace after =
      trace this
        ++ (if do_update then [updateStatus_published (properties after)] else []).
Proof.
  intros after. subst after. wp_start. destruct this, do_update; wp_run.
  all: split;
    [ intros key Hkey; unfold clearedKeys in Hkey;
      rewrite !not_elem_of_cons in Hkey;
      destruct Hkey as (? & ? & ? & ? & ? & ? & ? & ? & ? & ? & ? & ? & ? & _);
      repeat first [ rewrite lookup_insert_ne by congruence
                   | rewrite lookup_delete_ne by congruence ];
      reflexivity
    | map_lookup; rewrite ?app_nil_r;
      repeat split; try reflexivity;
      try (apply bool_decide_eq_false in Heqb;
           apply eq_None_not_Some; exact Heqb) ].
Qed.

(** X20.  [rebuildLegacyIOBatteryInfo] stores a dictionary whose five value
    entries are the objects published as current capacity, maximum capacity,
    voltage, amperage and cycle count (an entry is absent exactly if the
    property is), and whose flags are built from the published
    external-connected, battery-installed and is-charging booleans; no other
    property changes and nothing is handed out. *)
Theorem legacy_info_mirrors_properties this :
  let after := exec rebuildLegacyIOBatteryInfo this in
  let legacy key := OSDictionary_getObject key (properties after !! batteryInfoKey) in
  legacy kIOBatteryCurrentChargeKey = properties this !! currentCapacityKey
  ∧ legacy kIOBatteryCapacityKey = properties this !! maxCapacityKey
  ∧ legacy kIOBatteryVoltageKey = properties this !! voltageKey
  ∧ legacy kIOBatteryAmperageKey = properties this !! amperageKey
  ∧ legacy kIOBatteryCycleCountKey = properties this !! cycleCountKey
  ∧ legacy kIOBatteryFlagsKey =
      Some (OSNumber_withNumber
              (legacyFlags (isTrue (properties this !! externalConnectedKey))
                 (isTrue (properties this !! batteryInstalledKey))
                 (isTrue (properties this !! chargingKey))) 32)
  ∧ (∀ key, key ≠ batteryInfoKey →
     properties after !! key = properties this !! key)
  ∧ trace after = trace this.
Proof.
  intros after legacy. subst legacy after. wp_start.
  remember (properties this) as table eqn:Ht.
  destruct this. cbn in Ht. destruct Ht. wp_run.
  rewrite lookup_insert_eq. unfold OSDictionary_getObject.
  destruct (table !! currentCapacityKey), (table !! maxCapacityKey),
    (table !! voltageKey), (table !! amperageKey),
    (table !! cycleCountKey); cbn;
    (repeat split; try reflexivity;
     intros key Hkey; apply lookup_insert_ne; congruence).
Qed.

(** X21.  The accessors of the new values: each getter returns what its
    setter stored, for every [int] (negative ones included), boolean and
    name; a getter of a number returns 0, and the name getter NULL, when
    the property is missing. *)
Theorem accessors_round_trip (e : Z) (b : bool) (sym : string) this :
  - 2 ^ 31 ≤ e < 2 ^ 31 →
  (setMaxErr e;; maxErr) this = (e, exec (setMaxErr e) this)
  ∧ (setAverageTimeToEmpty e;; averageTimeToEmpty) this
    = (e, exec (setAverageTimeToEmpty e) this)
  ∧ (setAverageTimeToFull e;; averageTimeToFull) this
    = (e, exec (setAverageTimeToFull e) this)
  ∧ (setManufactureDate e;; manufactureDate) this
    = (e, exec (setManufactureDate e) this)
  ∧ (setFullyCharged b;; fullyCharged) this = (b, exec (setFullyCharged b) this)
  ∧ (setDeviceName sym;; deviceName) this = (Some sym, exec (setDeviceName sym) this)
  ∧ (properties this !! _MaxErrSym = None → maxErr this = (0, this))
  ∧ (properties this !! _DeviceNameSym = None → deviceName this = (None, this)).
Proof.
  intros He. pose proof (to_int32_unsigned e He) as Hrt. destruct this.
  unfold maxErr, averageTimeToEmpty, averageTimeToFull, manufactureDate,
    fullyCharged, deviceName, exec.
  repeat (progress mstep).
  rewrite !lookup_insert_eq. unfold OSNumber_withNumber. rewrite Hrt.
  repeat split; try reflexivity.
  - destruct b; reflexivity.
  - intros ->. reflexivity.
  - intros ->. reflexivity.
Qed.

(** X22.  [setPollingInterval] on a reachable object: under a debug override
    it changes nothing; otherwise it replaces the default entry of the
    polling table by the argument taken modulo 2^32, keeps the quick-poll
    entry of 1000 ms, selects the default interval, and neither arms a timer
    nor hands anything out. *)
Theorem setPollingInterval_replaces_default milliSeconds this :
  reachable this →
  let after := exec (setPollingInterval milliSeconds) this in
  if fPollingOverridden this then after = this
  else milliSecPollingTable after = [milliSeconds mod 2 ^ 32; 1000]
       ∧ fPollingInterval after = kDefaultPollInterval
       ∧ fPollTimer after = fPollTimer this
       ∧ trace after = trace this.
Proof.
  intros Hr after. subst after.
  destruct (reachable_polling_table this Hr) as (Hlen & Hq & _).
  destruct this as [? ? ? ? ? ? ? ? ? ? ? ? ? ? ? ? ov ? ? ? ? table ? ? ? ? ?].
  cbn in Hlen, Hq. destruct table as [| d [| q [| ? ?]]]; try discriminate Hlen.
  cbn in Hq. simplify_eq. destruct ov; cbn; repeat split; reflexivity.
Qed.

(** *** Claims C3, C6 and C7 *)

(** The handler of a state stores the failure-path default of its field
    when the read has failed. *)
Lemma runState_failure_default c t this :
  status t ≠ kIOSMBusStatusOK →
  failure_path_default c this (exec (runState pollBatteryState (Some c) t) this).
Proof.
  intros Hs. wp_start.
  remember (fCellVoltages this) as cells eqn:Hcells.
  remember (fFullChargeCapacity this) as full eqn:Hfull.
  destruct t as [p a c' st data count]. cbn in Hs.
  destruct this. cbn in Hcells, Hfull. subst.
  destruct st; try congruence; clear Hs;
    destruct c; cbn [runState failure_path_default]; wp_run; map_lookup;
    repeat split; reflexivity.
Qed.

(** C3 (amended).  A transaction that completes with a retryable bus
    status, with no cancellation or restart pending: while fewer than 5
    retries were made, the sequencer waits for the documented backoff of
    this attempt (busy wait of 10 or 100 µs, sleep of 1, 10 or 250 ms),
    issues the same address and command again and counts the retry.  With 5
    retries made it does not retry: it logs "Read Retry Attempts Exceeded",
    clears the retry count and runs the handler of the state on the failed
    transaction, in which nothing is delayed and the failed command is not
    read again.  The handler stores the failure-path default of its field
    and hands out the read of the next state.  Two states have no next
    read: the battery system state, whose default is "no battery", ends the
    poll and publishes the cleared battery state; the last state ends the
    poll, or begins the next one in the continuous debug mode. *)
Theorem retry_backoff_then_abandon ref t this :
  fCancelPolling this = false →
  fRebootPolling this = false →
  STATUS_ERROR_NEEDS_RETRY (status t) = true →
  0 ≤ fRetryAttempts this ≤ kRetryAttempts →
  (fRetryAttempts this < kRetryAttempts →
   transactionCompletion ref (Some t) this =
   (true,
    set_trace
      (trace this
         ++ [documented_backoff (fRetryAttempts this);
             performTransaction kIOSMBusProtocolReadWord (address t) (command t)])
      (set_fTransaction
         (Some (mkTransaction kIOSMBusProtocolReadWord (address t) (command t)
                  kIOSMBusStatusOK [] 0))
         (set_fRetryAttempts (fRetryAttempts this + 1) this))))
  ∧ (fRetryAttempts this = kRetryAttempts →
     let after := exec (transactionCompletion ref (Some t)) this in
     fRetryAttempts after = 0
     ∧ (∃ evs,
          trace after =
            trace this
              ++ BattLogError kErrorRetryAttemptsExceeded (statusCode (status t))
                   (Some t) :: evs
          ∧ forallb (λ e, negb (is_retry_of ref e)) evs = true)
     ∧ ∀ c, ref = Some c →
         failure_path_default c this after
         ∧ List.filter is_read (trace after) =
             List.filter is_read (trace this)
               ++ option_list (read_event <$> next_read c t this)
         ∧ (∀ p a cmd, next_read c t this = Some (p, a, cmd) →
              last (trace after) = Some (performTransaction p a cmd))
         ∧ (c ≠ kMStateCmd → c ≠ kBCurrentCmd → is_Some (next_read c t this))
         ∧ (c = kMStateCmd →
            next_read c t this = None
            ∧ fPollingNow after = false
            ∧ last (trace after) = Some (updateStatus_published (properties after)))).
Proof.
  intros Hc Hr Hs Hb. split.
  - intros Hlt. rewrite transactionCompletion_live by assumption.
    rewrite (bind_eq _ _ _ _ _ (needsRetry_retryable t this Hs ltac:(lia))).
    rewrite cons_middle, app_assoc.
    destruct this as [? ? ? ? ? n ? ? ? ? ? ? ? ? ? ? ? ? ? ? ? ? ? ? ? ? ?].
    unfold kRetryAttempts in *. msimpl.
    assert (Hn : n = 0 ∨ n = 1 ∨ n = 2 ∨ n = 3 ∨ n = 4) by lia.
    destruct Hn as [-> | [-> | [-> | [-> | ->]]]];
      reflexivity.
  - intros Ha after.
    assert (Hnok : status t ≠ kIOSMBusStatusOK)
      by (intros E; rewrite E in Hs; discriminate Hs).
    set (gave_up := exec (giveUpOnRetries t) this).
    assert (Heq : transactionCompletion ref (Some t) this =
                  (runState pollBatteryState ref t;; mret true) gave_up).
    { rewrite transactionCompletion_live by assumption.
      rewrite (bind_eq _ _ _ _ _ (needsRetry_exhausted t this Hs Ha)).
      reflexivity. }
    destruct (giveUpOnRetries_effect t this) as (Hz & Htr & _ & Hsame).
    fold gave_up in Hz, Htr, Hsame.
    assert (Hafter : after = exec (runState pollBatteryState ref t) gave_up).
    { unfold after, exec. rewrite Heq. unfold mbind, M_bind.
      destruct (runState pollBatteryState ref t gave_up). reflexivity. }
    clearbody after. subst after. split; [| split].
    + destruct (preserves_exec _ _ gave_up (runState_retryAttempts ref t 0)
                  (or_introl Hz)); assumption.
    + destruct (preserves_exec _ _ gave_up
                  (runState_no_retry ref t (trace gave_up)))
        as (evs & Hevs & Hno).
      { exists []. split; [symmetry; apply app_nil_r | reflexivity]. }
      exists evs. split; [| exact Hno].
      rewrite Hevs, Htr, <- app_assoc. reflexivity.
    + intros c ->.
      rewrite <- (next_read_same_telemetry c t _ _ Hsame).
      destruct (runState_next_read c t gave_up) as [Hreads Hlast].
      assert (Hlog : List.filter is_read (trace gave_up) =
                     List.filter is_read (trace this))
        by (rewrite Htr, List.filter_app; cbn; apply app_nil_r).
      rewrite Hlog in Hreads.
      split; [| split; [exact Hreads |]; split; [| split]].
      * pose proof (runState_failure_default c t gave_up Hnok) as Hdef.
        unfold same_telemetry in Hsame. destruct_and!.
        destruct c; cbn [failure_path_default] in Hdef |- *;
          first [exact Hdef | congruence
                | destruct Hdef; split; congruence].
      * intros p a cmd Hnext. exact (proj1 (Hlast p a cmd Hnext)).
      * intros H1 H2. exact (proj2 (next_read_always c t gave_up H1 H2)).
      * intros ->. split.
        { unfold next_read. rewrite not_ok_decide by exact Hnok. reflexivity. }
        cbn [runState].
        destruct (state_kMStateCmd_absent t gave_up
                    (λ H, False_ind _ (Hnok H))) as (Hnow & _ & _ & _ & Hpub & _).
        split; assumption.
Qed.

(** C6 (amended).  [pollBatteryState(path)] decides by the flags of the
    driver.  Stalled by a user client, it does nothing.  With [fPollingNow]
    set it starts nothing: it records the requested path and raises the
    restart flag.  When the in-flight transaction completes with no
    cancellation pending, the flag is consumed and state 0 runs: the
    watchdog is re-armed and the first read is issued, on the requested
    path, which is the new battery path only if that was requested; with a
    cancellation pending the completion only stops the poll and the restart
    request stays pending.  With [fPollingNow] clear a sequence is started
    at once, whether or not a transaction is still outstanding. *)
Theorem poll_request_in_flight path ref t this :
  let requested := exec (pollBatteryState path) this in
  let after := exec (transactionCompletion ref (Some t)) requested in
  (fStalledByUserClient this = true → requested = this)
  ∧ (fStalledByUserClient this = false → fPollingNow this = true →
     requested = set_fRebootPolling true (set_fMachinePath path this)
     ∧ trace requested = trace this
     ∧ (fCancelPolling this = false →
        fRebootPolling after = false
        ∧ fPollingNow after = true
        ∧ fBatteryReadAllTimer after = Some kBatteryReadAllTimeout
        ∧ trace after =
            trace this
              ++ [performTransaction kIOSMBusProtocolReadWord kSMBusManagerAddr
                    kMStateContCmd]
        ∧ fMachinePath after = path)
     ∧ (fCancelPolling this = true →
        after = set_fPollingNow false (set_fCancelPolling false requested)
        ∧ fRebootPolling after = true
        ∧ trace after = trace this))
  ∧ (fStalledByUserClient this = false → fPollingNow this = false →
     fPollingNow requested = true
     ∧ fCancelPolling requested = false
     ∧ fRebootPolling requested = false
     ∧ fMachinePath requested = path
     ∧ fBatteryReadAllTimer requested = Some kBatteryReadAllTimeout
     ∧ trace requested =
         trace this
           ++ [performTransaction kIOSMBusProtocolReadWord kSMBusManagerAddr
                 kMStateContCmd]).
Proof.
  intros requested after. subst after requested.
  split; [| split].
  - intros Hs. destruct this. cbn in Hs. subst. reflexivity.
  - intros Hs Hp. destruct this. cbn in Hs, Hp. subst.
    split; [reflexivity |]. split; [reflexivity |]. split.
    + intros Hc. cbn in Hc. subst.
      unfold exec, transactionCompletion. mrun. repeat split; reflexivity.
    + intros Hc. cbn in Hc. subst.
      unfold exec, transactionCompletion. mrun. repeat split; reflexivity.
  - intros Hs Hp. wp_start. destruct this. cbn in Hs, Hp. subst.
    wp_run; repeat split; reflexivity.
Qed.

(** C7 (amended).  When the overall read timeout fires, the error is
    logged, whatever the budget.  With the stall-restart budget at zero that
    is all.  While the budget is positive it is decremented, and a restart
    on the new battery path is requested: started at once if no sequence is
    in flight, flagged otherwise; a driver stalled by a user client spends
    the budget and restarts nothing.  From the initial budget of 10, ten
    timeouts exhaust it and the eleventh restarts nothing.  No transaction
    completion writes the budget: a completed sequence does not restore
    it. *)
Theorem stall_restart_budget ref tr this :
  let logged := exec (logReadError kErrorOverallTimeoutExpired 0 None) this in
  let spent :=
    set_fIncompleteReadRetries (fIncompleteReadRetries this - 1) logged in
  let after := exec incompleteReadTimeOut this in
  trace logged = trace this ++ [BattLogError kErrorOverallTimeoutExpired 0 None]
  ∧ registry logged !! "LatestErrorType" = Some (OSString kErrorOverallTimeoutExpired)
  ∧ (fIncompleteReadRetries this ≤ 0 → after = logged)
  ∧ (0 < fIncompleteReadRetries this →
     fIncompleteReadRetries after = fIncompleteReadRetries this - 1
     ∧ (fStalledByUserClient this = true → after = spent)
     ∧ (fStalledByUserClient this = false → fPollingNow this = true →
        after = set_fRebootPolling true (set_fMachinePath kNewBatteryPath spent))
     ∧ (fStalledByUserClient this = false → fPollingNow this = false →
        fMachinePath after = kNewBatteryPath
        ∧ fPollingNow after = true
        ∧ fRebootPolling after = false
        ∧ fBatteryReadAllTimer after = Some kBatteryReadAllTimeout
        ∧ trace after =
            trace this
              ++ [BattLogError kErrorOverallTimeoutExpired 0 None;
                  performTransaction kIOSMBusProtocolReadWord kSMBusManagerAddr
                    kMStateContCmd]))
  ∧ (fIncompleteReadRetries this = kIncompleteReadRetryMax →
     let exhausted := Nat.iter 10 (exec incompleteReadTimeOut) this in
     fIncompleteReadRetries exhausted = 0
     ∧ exec incompleteReadTimeOut exhausted =
         exec (logReadError kErrorOverallTimeoutExpired 0 None) exhausted)
  ∧ fIncompleteReadRetries (exec (transactionCompletion ref tr) this) =
      fIncompleteReadRetries this.
Proof.
  intros logged spent after. subst after spent logged.
  split; [| split; [| split; [| split; [| split]]]].
  - destruct this. reflexivity.
  - destruct this. cbn. apply lookup_insert_eq.
  - apply incompleteReadTimeOut_exhausted.
  - intros Hn. split; [| split; [| split]].
    + rewrite incompleteReadTimeOut_budget.
      destruct (Z.ltb_spec 0 (fIncompleteReadRetries this)); [reflexivity | lia].
    + intros Hs. wp_start.
      remember (fIncompleteReadRetries this) as n eqn:En.
      destruct this. cbn in Hs, En. subst.
      wp_run; first [lia | reflexivity].
    + intros Hs Hp. wp_start.
      remember (fIncompleteReadRetries this) as n eqn:En.
      destruct this. cbn in Hs, Hp, En. subst.
      wp_run; first [lia | reflexivity].
    + intros Hs Hp. wp_start.
      remember (fIncompleteReadRetries this) as n eqn:En.
      destruct this. cbn in Hs, Hp, En. subst.
      wp_run; first [lia | rewrite <- ?app_assoc; repeat split; reflexivity].
  - intros Hn exhausted.
    assert (Hz : fIncompleteReadRetries exhausted = 0).
    { unfold exhausted. rewrite incompleteReadTimeOut_iter; rewrite Hn;
        unfold kIncompleteReadRetryMax; lia. }
    split; [exact Hz |]. apply incompleteReadTimeOut_exhausted. lia.
  - exact (transactionCompletion_stall_budget ref tr _ this eq_refl).
Qed.

(** *** A whole poll *)

(** A reply that settles its read is not retried, whatever the retry count. *)
Lemma settles_not_retried c t this :
  settles c t → (needsRetry t this).1 = false.
Proof.
  intros (Hc & Hn & Hz & _).
  change (wp (needsRetry t) (λ b _, b = false) this).
  destruct t as [p a c' st data count]. cbn in Hc, Hn, Hz. subst c'.
  destruct this.
  destruct st; try discriminate Hn; destruct c;
    try (specialize (Hz eq_refl eq_refl); unfold zero_word in Hz);
    unfold needsRetry; msimpl.
  all: wp_run.
  all: try reflexivity.
  all: rewrite ?Hz, ?andb_false_r in *; try discriminate; try reflexivity.
Qed.

(** The handler of a state other than the last keeps the poll on its
    course and issues the next read. *)
Lemma runState_on_course c c' t this s reads :
  In (c, c') (consecutive (poll_commands (fMachinePath this))) →
  (c = kMStateCmd →
   status t = kIOSMBusStatusOK
   ∧ bit_set (receiveWord t) kMPresentBatt_A_Bit = true) →
  on_course this s reads →
  on_course this (exec (runState pollBatteryState (Some c) t) s)
    (reads ++ [read_of c']).
Proof.
  intros Hin Hpresent (Hc & Hr & Hp & Hst & Hov & Hiv & Hreads).
  unfold on_course. wp_start.
  remember (fMachinePath this) as path eqn:Hpath.
  remember (fStalledByUserClient this) as stalled eqn:Hstalled.
  remember (fPollingOverridden this) as overridden eqn:Hoverridden.
  remember (fPollingInterval this) as interval eqn:Hinterval.
  remember (List.filter is_read (trace this)) as before eqn:Hbefore.
  clear Hpath Hstalled Hoverridden Hinterval Hbefore this.
  destruct s; cbn in Hc, Hr, Hp, Hst, Hov, Hiv, Hreads. subst.
  unfold consecutive, poll_commands in Hin.
  destruct (kNewBatteryPath =? path) eqn:Hnew; cbn in Hin;
    repeat (destruct Hin as [Hin | Hin]; [inversion Hin; subst c c'; clear Hin |]);
    try contradiction.
  all: try (destruct Hpresent as [Hok Hbit]; [reflexivity |];
            destruct t as [p a c0 st data count]; cbn in Hok; subst st).
  all: try clear Hpresent.
  all: cbn [runState]; wp_run; reads_done.
  all: rewrite ?Hreads, <- ?app_assoc.
  all: repeat split; first [reflexivity | assumption | discriminate].
Qed.

(** A reply that settles a read other than the last moves the poll on by
    one read. *)
Lemma deliver_on_course c c' t this s reads :
  In (c, c') (consecutive (poll_commands (fMachinePath this))) →
  settles c t →
  on_course this s reads →
  on_course this (exec (deliver t) s) (reads ++ [read_of c']).
Proof.
  intros Hin Hs Hcourse. pose proof Hs as (Hcmd & _ & _ & Hpresent).
  pose proof Hcourse as (Hc & Hr & Hp & Hst & Hov & Hiv & Hreads).
  unfold deliver. rewrite Hcmd.
  destruct (transactionCompletion_not_retried (Some c) t s Hc Hr
              (settles_not_retried c t s Hs)) as [-> Hsame].
  apply runState_on_course; [exact Hin | exact Hpresent |].
  pose proof (needsRetry_no_read t _ s Hreads) as Hreads'.
  unfold same_telemetry in Hsame. destruct_and!.
  unfold on_course. repeat split; try congruence.
  intros Ho. rewrite <- (Hiv Ho). congruence.
Qed.

(** The reply that settles the last read ends the poll, or starts the next
    one at once in the continuous debug mode. *)
Lemma deliver_last t this s reads :
  settles kBCurrentCmd t →
  on_course this s reads →
  let after := exec (deliver t) s in
  let restart :=
    fPollingOverridden this && (fPollingInterval this =? 0)
    && negb (fStalledByUserClient this) in
  List.filter is_read (trace after) =
    List.filter is_read (trace this)
      ++ reads ++ (if restart then [read_of kMStateContCmd] else [])
  ∧ fPollingNow after = restart
  ∧ fBatteryReadAllTimer after =
      (if restart then Some kBatteryReadAllTimeout else None).
Proof.
  intros Hs Hcourse after restart. subst after restart.
  pose proof Hs as (Hcmd & _ & _ & _).
  pose proof Hcourse as (Hc & Hr & Hp & Hst & Hov & Hiv & Hreads).
  unfold deliver. rewrite Hcmd.
  destruct (transactionCompletion_not_retried (Some kBCurrentCmd) t s Hc Hr
              (settles_not_retried _ t s Hs)) as [-> Hsame].
  pose proof (needsRetry_no_read t _ s Hreads) as Hreads'.
  unfold same_telemetry in Hsame. destruct_and!.
  remember (needsRetry t s).2 as s' eqn:Hs'.
  assert (Hst' : fStalledByUserClient s' = fStalledByUserClient this) by congruence.
  assert (Hov' : fPollingOverridden s' = fPollingOverridden this) by congruence.
  assert (Hiv' : fPollingOverridden this = true →
                 fPollingInterval s' = fPollingInterval this)
    by (intros Ho; rewrite <- (Hiv Ho); congruence).
  rewrite <- Hst', <- Hov'.
  destruct (fPollingOverridden this) eqn:Ho;
    [rewrite <- (Hiv' eq_refl) | clear Hiv'].
  all: clear - Hreads' Hov'.
  all: revert Hreads' Hov'; generalize (List.filter is_read (trace this)) as before.
  all: intros before Hreads' Hov'; wp_start; destruct s';
    cbn in Hreads', Hov'; subst; cbn [runState]; wp_run; reads_done.
  all: rewrite ?Hreads', ?app_nil_r, <- ?app_assoc.
  all: repeat split; first [reflexivity | assumption | discriminate].
Qed.

(** Move the poll on by one settled read. *)
Ltac advance :=
  lazymatch goal with
  | Hcourse : on_course ?this ?s ?l |- context [exec (deliver ?t) ?s] =>
      lazymatch goal with
      | Hs : settles ?c t |- _ =>
          eapply (deliver_on_course c _ t) in Hcourse;
          [| unfold consecutive, poll_commands;
             match goal with H : (kNewBatteryPath =? _) = _ |- _ => rewrite H end;
             cbn; solve [repeat first [left; reflexivity | right]]
           | exact Hs]
      end
  end.

(** X26.  A whole poll.  With no cancellation or restart pending, replies
    that settle the reads of a poll in their order (each answers its
    command with a status that asks for no retry, no capacity is read as
    zero, the battery system state shows the battery) take the driver
    through the whole sequence: 22 transactions on the new battery path, 17
    on the existing one.  The reads handed out are those of the sequence,
    in order; afterwards no poll is in flight and the read-all watchdog is
    idle, except in the continuous debug mode (override with interval 0,
    driver not stalled), where the next poll has begun at once. *)
Theorem poll_runs_to_completion ts this :
  fCancelPolling this = false →
  fRebootPolling this = false →
  Forall2 settles (poll_commands (fMachinePath this)) ts →
  let after := deliver_all ts this in
  let restart :=
    fPollingOverridden this && (fPollingInterval this =? 0)
    && negb (fStalledByUserClient this) in
  length ts = (if kNewBatteryPath =? fMachinePath this then 22%nat else 17%nat)
  ∧ List.filter is_read (trace after) =
      List.filter is_read (trace this)
        ++ map read_of (tail (poll_commands (fMachinePath this)))
        ++ (if restart then [read_of kMStateContCmd] else [])
  ∧ fPollingNow after = restart
  ∧ fBatteryReadAllTimer after =
      (if restart then Some kBatteryReadAllTimeout else None).
Proof.
  intros Hc Hr Hall after restart. subst after restart.
  assert (Hcourse : on_course this this [])
    by (unfold on_course; rewrite app_nil_r; auto 10).
  unfold poll_commands in Hall |- *.
  destruct (kNewBatteryPath =? fMachinePath this) eqn:Hnew; cbn in Hall;
    repeat match goal with
           | H : Forall2 _ (_ :: _) _ |- _ =>
               apply Forall2_cons_inv_l in H as (? & ? & ? & H & ->)
           end;
    apply Forall2_nil_inv_l in Hall as ->;
    (split; [reflexivity |]);
    cbn [deliver_all foldl].
  all: do 16 advance; repeat advance.
  all: match goal with
       | Hs : settles kBCurrentCmd ?t |- _ =>
           exact (deliver_last t this _ _ Hs Hcourse)
       end.
Qed.

(** *** The name reads *)

Lemma cstring_length bytes : (String.length (cstring bytes) ≤ length bytes)%nat.
Proof.
  induction bytes as [| b rest IH]; [reflexivity |].
  destruct b; cbn [cstring String.length length]; lia.
Qed.

Lemma recv_str_length t :
  (String.length (recv_str t) ≤ Z.to_nat (receiveDataCount t))%nat.
Proof.
  unfold recv_str. etransitivity; [apply cstring_length |].
  rewrite length_take. lia.
Qed.

(** The handler of a name read. *)
Lemma state_name_read c key t this :
  name_key c = Some key →
  let after := exec (runState pollBatteryState (Some c) t) this in
  properties after !! key =
    (if bool_decide (kIOSMBusStatusOK = status t)
     then if receiveDataCount t =? 0 then properties this !! key
          else Some (OSString (recv_str t))
     else None)
  ∧ (∀ k, k ≠ key → properties after !! k = properties this !! k).
Proof.
  intros Hkey after. subst after. wp_start.
  remember (properties this) as table eqn:Ht. destruct this. cbn in Ht. destruct Ht.
  destruct c; try discriminate Hkey; injection Hkey as <-; cbn [runState].
  all: wp_run; unfold nonzero in *.
  all: destruct (receiveDataCount t =? 0); try discriminate.
  all: (split; [map_lookup; reflexivity |]); intros k Hk.
  all: rewrite ?lookup_insert_ne, ?lookup_delete_ne by congruence; reflexivity.
Qed.

(** X27.  The two name reads (manufacturer and device name), with no
    cancellation or restart pending and a status that asks for no retry: a
    failed read removes the name; a successful read with no data leaves
    the name as it was published before; a successful read with data
    publishes the received bytes up to the first NUL, at most
    [receiveDataCount] characters.  No other entry of the table changes. *)
Theorem name_reads c key t this :
  name_key c = Some key →
  fCancelPolling this = false →
  fRebootPolling this = false →
  STATUS_ERROR_NEEDS_RETRY (status t) = false →
  command t = c →
  let after := exec (transactionCompletion (Some c) (Some t)) this in
  properties after !! key =
    (if bool_decide (kIOSMBusStatusOK = status t)
     then if receiveDataCount t =? 0 then properties this !! key
          else Some (OSString (recv_str t))
     else None)
  ∧ (String.length (recv_str t) ≤ Z.to_nat (receiveDataCount t))%nat
  ∧ (∀ k, k ≠ key → properties after !! k = properties this !! k).
Proof.
  intros Hkey Hc Hr Hn Hcmd after. subst after.
  assert (Hs : settles c t).
  { split; [exact Hcmd |]. split; [exact Hn |].
    split; destruct c; try discriminate Hkey; intros H; discriminate H. }
  destruct (transactionCompletion_not_retried (Some c) t this Hc Hr
              (settles_not_retried c t this Hs)) as [-> Hsame].
  unfold same_telemetry in Hsame. destruct_and!.
  destruct (state_name_read c key t (needsRetry t this).2 Hkey) as [Hname Hframe].
  match goal with
  | H : properties _ = properties this |- _ => rewrite H in Hname, Hframe
  end.
  split; [exact Hname |]. split; [apply recv_str_length | exact Hframe].
Qed.

(** *** A poll request while idle *)

(** X28.  A poll requested while none is in flight and no user client stalls
    the driver always starts, whatever cancellation or restart flag an
    earlier poll has left behind: the flags are cleared, the path is the
    requested one, the controller-status read is the one thing handed out,
    the read-all watchdog is armed, the poll timer is idle and the
    published table is untouched. *)
Theorem idle_poll_request_starts_poll path this :
  fPollingNow this = false →
  fStalledByUserClient this = false →
  let after := exec (pollBatteryState path) this in
  fPollingNow after = true
  ∧ fMachinePath after = path
  ∧ fCancelPolling after = false
  ∧ fRebootPolling after = false
  ∧ trace after = trace this ++ [read_of kMStateContCmd]
  ∧ fBatteryReadAllTimer after = Some kBatteryReadAllTimeout
  ∧ fPollTimer after = None
  ∧ properties after = properties this.
Proof.
  intros Hp Hs after. subst after. wp_start.
  destruct this. cbn in Hp, Hs. subst.
  wp_run; repeat split; reflexivity.
Qed.

End Properties.

(** ** The configd plug-in *)

(** Run a function of the plug-in on an object given by its fields. *)
Ltac prun :=
  unfold systemHasSMU, tellSMU_GMTOffset, displayPowerStateChange,
    SleepWakeCallback, mbind, ConfigdM_bind, mret, ConfigdM_ret,
    peek, poke, call, MACH_PORT_NULL in *;
  cbn -[Z.eqb Z.modulo Z.pow Z.add to_int32] in *.

(** X23.  [systemHasSMU] decides once: its first call looks the SMU service
    up and answers whether it was found; every later call returns the same
    answer and leaves the plug-in unchanged, whatever the registry then
    holds. *)
Theorem systemHasSMU_decided_once host host' s :
  known s = false →
  let first := systemHasSMU host s in
  first.1 = nonzero (AppleSMU_service host)
  ∧ known first.2 = true
  ∧ List.filter is_registry_lookup (calls first.2) =
      List.filter is_registry_lookup (calls s)
        ++ [IOServiceGetMatchingService "AppleSMU"]
  ∧ systemHasSMU host' first.2 = (first.1, first.2).
Proof.
  intros Hk first. subst first. destruct s as [? ? k ? ? ? ?]. cbn in Hk. subst k.
  prun. unfold nonzero.
  destruct (Z.eqb_spec 0 (AppleSMU_service host)) as [Heq | Hne]; prun.
  - rewrite <- Heq, List.filter_app. repeat split; reflexivity.
  - rewrite !List.filter_app. cbn. rewrite app_nil_r. unfold nonzero.
    destruct (Z.eqb_spec (AppleSMU_service host) 0); [congruence |].
    repeat split; reflexivity.
Qed.

(** The SMU update of one call, on a machine with an SMU. *)
Lemma tellSMU_GMTOffset_updates host s :
  smu_host host →
  (known s = true → systemHasSMU_smuRegEntry s ≠ 0) →
  List.filter is_timezone_update (calls (tellSMU_GMTOffset host s).2) =
    List.filter is_timezone_update (calls s)
      ++ [IOConnectSetCFProperty
            (if 0 =? smuRegEntry s then AppleSMU_connect host else smuConnect s)
            "TimeZoneOffsetSeconds"
            (default 0 (systemTimeZone_secondsFromGMT host))]
  ∧ level (tellSMU_GMTOffset host s).2 = level s
  ∧ known (tellSMU_GMTOffset host s).2 = true
  ∧ systemHasSMU_smuRegEntry (tellSMU_GMTOffset host s).2 ≠ 0.
Proof.
  intros (Hsmu & [off Htz] & Hdata) Hknown.
  destruct host as [service connect tz data]. cbn in Hsmu, Htz, Hdata. subst.
  unfold MACH_PORT_NULL in Hsmu.
  destruct s as [lv e k e' c' port cs]. cbn in Hknown. prun.
  destruct k; prun.
  - specialize (Hknown eq_refl). unfold nonzero.
    destruct (Z.eqb_spec e 0) as [| _]; [contradiction |]. prun.
    destruct (Z.eqb_spec 0 e') as [<- | _]; prun.
    + destruct (Z.eqb_spec 0 service) as [| _]; [congruence |]. prun.
      rewrite !List.filter_app. cbn. rewrite !app_nil_r.
      repeat split; try reflexivity; assumption.
    + rewrite !List.filter_app. cbn. rewrite !app_nil_r.
      repeat split; try reflexivity; assumption.
  - destruct (Z.eqb_spec 0 service) as [| _]; [congruence |]. prun.
    destruct (Z.eqb_spec 0 e') as [<- | _]; prun.
    + destruct (Z.eqb_spec 0 service) as [| _]; [congruence |]. prun.
      rewrite !List.filter_app. cbn. rewrite !app_nil_r.
      repeat split; try reflexivity; assumption.
    + rewrite !List.filter_app. cbn. rewrite !app_nil_r.
      repeat split; try reflexivity; assumption.
Qed.

(** Whatever the machine, one call appends its calls, none of them an
    acknowledgement and at most one of them an update, and leaves the
    display level and the acknowledgement port alone. *)
Lemma tellSMU_GMTOffset_appends host s :
  ∃ cs, calls (tellSMU_GMTOffset host s).2 = calls s ++ cs
        ∧ forallb (λ c, negb (is_power_change_allowed c)) cs = true
        ∧ (length (List.filter is_timezone_update cs) ≤ 1)%nat
        ∧ level (tellSMU_GMTOffset host s).2 = level s
        ∧ _pm_ack_port (tellSMU_GMTOffset host s).2 = _pm_ack_port s.
Proof.
  destruct host as [service connect tz data].
  destruct s as [lv e k e' c' port cs]. prun.
  destruct k; prun; unfold nonzero;
    repeat match goal with
      | |- context [?a =? ?b] => destruct (a =? b); prun
      | |- context [match ?x with _ => _ end] => destruct x; prun
      end;
    rewrite <- ?app_assoc;
    (eexists; split; [first [reflexivity | symmetry; apply app_nil_r] |]);
    cbn; repeat split; lia.
Qed.

(** A power-off message at a level other than 1 only counts. *)
Lemma display_off_counts host s :
  0 ≤ level s < 2 ^ 31 - 1 →
  level s ≠ 1 →
  (displayPowerStateChange host kIOMessageDeviceWillPowerOff s).2 =
  set_level (level s + 1) s.
Proof.
  intros Hl Hne.
  unfold displayPowerStateChange, mbind, ConfigdM_bind, poke, peek.
  assert (Hw : to_int32 ((level s + 1) mod 2 ^ 32) = level s + 1).
  { rewrite Z.mod_small by lia. unfold to_int32.
    destruct (Z.ltb_spec (level s + 1) (2 ^ 31)); lia. }
  destruct s as [lv e k e' c' port cs]. cbn [level] in *.
  cbn -[Z.eqb Z.modulo Z.pow Z.add to_int32 tellSMU_GMTOffset]. rewrite Hw.
  destruct (Z.eqb_spec 2 (lv + 1)); [lia | reflexivity].
Qed.

(** The second power-off message in a row tells the SMU. *)
Lemma display_off_second host s :
  level s = 1 →
  (displayPowerStateChange host kIOMessageDeviceWillPowerOff s).2 =
  (tellSMU_GMTOffset host (set_level 2 s)).2.
Proof.
  intros Hl. unfold displayPowerStateChange, mbind, ConfigdM_bind, poke, peek.
  destruct s as [lv e k e' c' port cs]. cbn [level] in *. subst lv.
  cbn -[tellSMU_GMTOffset to_int32 Z.eqb Z.modulo Z.pow Z.add].
  change (to_int32 ((1 + 1) mod 2 ^ 32)) with 2.
  cbn -[tellSMU_GMTOffset]. reflexivity.
Qed.

Lemma display_off_iter host (m : nat) s :
  2 ≤ level s →
  level s + Z.of_nat m < 2 ^ 31 →
  display_run host (replicate m kIOMessageDeviceWillPowerOff) s =
  set_level (level s + Z.of_nat m) s.
Proof.
  revert s. induction m as [| m IH]; intros s Hl Hb.
  - cbn. rewrite Z.add_0_r. destruct s. reflexivity.
  - cbn [replicate display_run foldl]. fold (display_run host).
    rewrite display_off_counts by lia.
    change (foldl _ ?s ?l) with (display_run host l s).
    rewrite IH; destruct s; cbn in *; try lia.
    f_equal. lia.
Qed.

(** X24.  The display powers on and then sends [n] power-off messages in a
    row ([n] below 2^31): the level counts them; fewer than two cause no
    call at all; whatever the machine, at most one time zone update is sent;
    and on a machine with an SMU (not found to lack one before) whose time
    zone can be read, exactly one is sent once two or more messages have
    come: at the second, not at the later ones. *)
Theorem display_sleep_tells_time_zone_once host (n : nat) s :
  Z.of_nat n < 2 ^ 31 →
  let after := display_run host (display_messages n) s in
  level after = Z.of_nat n
  ∧ ((n < 2)%nat → calls after = calls s)
  ∧ (timezone_updates after ≤ timezone_updates s + 1)%nat
  ∧ (smu_host host →
     (known s = true → systemHasSMU_smuRegEntry s ≠ 0) →
     (2 ≤ n)%nat →
     timezone_updates after = S (timezone_updates s)).
Proof.
  intros Hn after. subst after. unfold display_messages.
  cbn [display_run foldl]. fold (display_run host).
  change (foldl _ ?s ?l) with (display_run host l s).
  change (displayPowerStateChange host kIOMessageDeviceHasPoweredOn s).2
    with (set_level 0 s).
  assert (Hl0 : level (set_level 0 s) = 0) by (destruct s; reflexivity).
  assert (Hc0 : calls (set_level 0 s) = calls s) by (destruct s; reflexivity).
  destruct n as [| [| n]].
  - cbn [replicate display_run foldl]. rewrite Hl0, Hc0.
    unfold timezone_updates. rewrite Hc0. repeat split; try reflexivity; lia.
  - cbn [replicate display_run foldl].
    rewrite display_off_counts by (rewrite Hl0; lia).
    rewrite Hl0. unfold timezone_updates.
    assert (Hc1 : calls (set_level (0 + 1) (set_level 0 s)) = calls s)
      by (destruct s; reflexivity).
    assert (Hl1 : level (set_level (0 + 1) (set_level 0 s)) = 1)
      by (destruct s; reflexivity).
    rewrite Hc1, Hl1. repeat split; try reflexivity; lia.
  - cbn [replicate display_run foldl]. fold (display_run host).
    change (foldl _ ?s ?l) with (display_run host l s).
    rewrite (display_off_counts host (set_level 0 s)) by (rewrite Hl0; lia).
    rewrite display_off_second by (destruct s; reflexivity).
    remember (set_level 2 (set_level (level (set_level 0 s) + 1) (set_level 0 s)))
      as s1 eqn:Hs1.
    destruct (tellSMU_GMTOffset_appends host s1) as (cs & Hcs & _ & Hone & Hlv & _).
    assert (Hl1 : level s1 = 2) by (subst s1; destruct s; reflexivity).
    assert (Hc1 : calls s1 = calls s) by (subst s1; destruct s; reflexivity).
    assert (Hk1 : known s1 = known s
                  ∧ systemHasSMU_smuRegEntry s1 = systemHasSMU_smuRegEntry s)
      by (subst s1; destruct s; split; reflexivity).
    clear Hs1.
    rewrite display_off_iter by (rewrite Hlv, Hl1; lia).
    remember (tellSMU_GMTOffset host s1).2 as s2 eqn:Hs2.
    assert (Hcalls : calls (set_level (level s2 + Z.of_nat n) s2) = calls s2)
      by (destruct s2; reflexivity).
    assert (Hlevel : level (set_level (level s2 + Z.of_nat n) s2)
                     = level s2 + Z.of_nat n) by (destruct s2; reflexivity).
    unfold timezone_updates. rewrite Hcalls, Hlevel, Hlv, Hl1.
    split; [lia |]. split; [lia |]. split.
    + rewrite Hcs, Hc1, List.filter_app, length_app. lia.
    + intros Hhost Hknown _.
      assert (Hknown1 : known s1 = true → systemHasSMU_smuRegEntry s1 ≠ 0).
      { destruct Hk1 as [-> ->]. exact Hknown. }
      destruct (tellSMU_GMTOffset_updates host s1 Hhost Hknown1) as (Hup & _).
      rewrite <- Hs2 in Hup. rewrite Hup, Hc1, length_app. cbn. lia.
Qed.

(** X25.  [SleepWakeCallback] notifies the four modules of every message, in
    the same order, and ends with the acknowledgement [IOAllowPowerChange]
    on the port of the plug-in, with the argument of the message, exactly
    for the will-sleep and can-sleep messages; the calls in between, which
    tell the SMU the time zone, occur for will-sleep only and contain no
    acknowledgement. *)
Theorem sleep_wake_acknowledgement host messageType messageArgument s :
  let after := (SleepWakeCallback host messageType messageArgument s).2 in
  ∃ smu_calls,
    calls after =
      calls s
        ++ [BatteryTimeRemainingSleepWakeNotification messageType;
            PMSettingsSleepWakeNotification messageType;
            AutoWakeSleepWakeNotification messageType;
            RepeatingAutoWakeSleepWakeNotification messageType]
        ++ smu_calls
        ++ (if asks_acknowledgement messageType
            then [IOAllowPowerChange (_pm_ack_port s) messageArgument] else [])
    ∧ forallb (λ c, negb (is_power_change_allowed c)) smu_calls = true
    ∧ (messageType ≠ kIOMessageSystemWillSleep → smu_calls = []).
Proof.
  intros after. subst after.
  unfold SleepWakeCallback, mbind, ConfigdM_bind, call, poke, peek.
  destruct s as [lv e k e' c' port cs]. cbn -[tellSMU_GMTOffset].
  destruct messageType; cbn -[tellSMU_GMTOffset];
    try (exists []; rewrite <- ?app_assoc; cbn; rewrite ?app_nil_r;
         repeat split; reflexivity).
  match goal with
  | |- context [tellSMU_GMTOffset host ?s0] =>
      destruct (tellSMU_GMTOffset_appends host s0) as (cs' & Hcs & Hno & _ & _ & Hport);
      destruct (tellSMU_GMTOffset host s0) as [[] s1]
  end.
  cbn in Hcs, Hport |- *. rewrite Hcs, Hport. exists cs'.
  rewrite <- !app_assoc. cbn.
  split; [destruct s1; reflexivity | split; [exact Hno | congruence]].
Qed.

(** ** The claims on concrete runs

    The runs below use the header constants [sbs]. *)

#[local] Existing Instance sbs.

(** *** Claim C1 *)

(** C1.  Second poll of a battery whose full charge capacity was read as
    5000 mAh: the full-charge-capacity read answers "busy" six times, so the
    retries are used up and the sequencer moves on to the average current.
    The published maximum capacity is reset to 0, but the field
    [fFullChargeCapacity] still holds 5000: it is not reset. *)
Theorem failed_full_charge_read_keeps_stale_capacity :
  let before := second_poll_at_full_charge in
  let after := deliver_all (replicate 6 full_reply_busy) before in
  fFullChargeCapacity before = 5000
  ∧ last (trace after) =
      Some (performTransaction kIOSMBusProtocolReadWord kSMBusBatteryAddr
              kBAverageCurrentCmd)
  ∧ fRetryAttempts after = 0
  ∧ properties after !! maxCapacityKey = Some (OSNumber 0 32)
  ∧ fFullChargeCapacity after = 5000.
Proof. vm_compute. repeat split; reflexivity. Qed.

(** *** Claim C2 *)

(** C2.  First poll; the battery status 0x4800 has both the terminate-charge
    and the terminate-discharge alarm set.  The failure is logged, the
    read-all timeout is cancelled and the cleared state is published, but
    the handler does not return: it issues the next read of the sequence
    (the manufacturer name), and as the replies come in the sequence runs
    through all of its 22 reads and re-arms the poll timer. *)
Theorem permanent_failure_keeps_reading :
  let before := first_poll_at_status in
  let after := exec (deliver status_reply_failed) before in
  let finished :=
    deliver_all
      (identity_replies ++ [remaining_reply_100; full_reply_5000] ++ tail_replies)
      after in
  registry after !! "LatestErrorType" = Some (OSString kErrorPermanentFailure)
  ∧ fBatteryReadAllTimer after = None
  ∧ properties after !! batteryInstalledKey = Some (OSBoolean false)
  ∧ length (List.filter is_read (trace before)) = 3%nat
  ∧ last (trace after) =
      Some (performTransaction kIOSMBusProtocolReadBlock kSMBusBatteryAddr
              kBManufactureNameCmd)
  ∧ length (List.filter is_read (trace finished)) = 22%nat
  ∧ fPollTimer finished = Some 30000.
Proof. vm_compute. repeat split; reflexivity. Qed.

(** *** Claim C4 *)

(** C4.  First poll; the battery answers every full-charge-capacity read
    with status OK and the value 0.  However many times this happens, the
    read is issued again: the retry count, cleared at each successful
    status, is back at 1, the zero is never accepted and no zero-capacity
    error is logged. *)
Theorem zero_full_charge_capacity_never_accepted (n : nat) :
  let after :=
    Nat.iter (S n) (exec (deliver full_reply_zero)) first_poll_at_full_charge in
  fRetryAttempts after = 1
  ∧ last (trace after) =
      Some (performTransaction kIOSMBusProtocolReadWord kSMBusBatteryAddr
              kBFullChargeCapacityCmd)
  ∧ forallb (λ e, negb (is_zero_capacity_error e)) (trace after) = true.
Proof.
  cbv zeta.
  assert (Hstep : ∀ this,
    fCancelPolling this = false ∧ fRebootPolling this = false
    ∧ forallb (λ e, negb (is_zero_capacity_error e)) (trace this) = true →
    let after := exec (deliver full_reply_zero) this in
    (fCancelPolling after = false ∧ fRebootPolling after = false
     ∧ forallb (λ e, negb (is_zero_capacity_error e)) (trace after) = true)
    ∧ fRetryAttempts after = 1
    ∧ last (trace after) =
        Some (performTransaction kIOSMBusProtocolReadWord kSMBusBatteryAddr
                kBFullChargeCapacityCmd)).
  { intros this (Hc & Hr & Hlog). cbv zeta. unfold exec, deliver.
    rewrite (zero_capacity_read_is_retried _ full_reply_zero this Hc Hr)
      by reflexivity.
    destruct this. cbn in *. subst.
    rewrite forallb_app, Hlog, cons_middle, app_assoc, last_snoc.
    repeat split; reflexivity. }
  assert (Hinv : ∀ k,
    let this := Nat.iter k (exec (deliver full_reply_zero)) first_poll_at_full_charge in
    fCancelPolling this = false ∧ fRebootPolling this = false
    ∧ forallb (λ e, negb (is_zero_capacity_error e)) (trace this) = true).
  { induction k as [| k IH].
    - vm_compute. repeat split; reflexivity.
    - cbv zeta. rewrite Nat.iter_succ. exact (proj1 (Hstep _ IH)). }
  rewrite Nat.iter_succ.
  destruct (Hstep _ (Hinv n)) as ((_ & _ & Hlog) & Ha & Hl).
  repeat split; assumption.
Qed.

(** *** Claim C5 *)

(** C5.  First poll of a battery that is charging on AC (charging bit set,
    average current +1500 mA) at 100 of 5000 mAh, with no debug override:
    the quick interval is selected and the poll timer is armed with 1000 ms,
    although the battery is not discharging. *)
Theorem quick_poll_selected_while_charging :
  let after := deliver_all new_battery_poll booted in
  fPollingOverridden after = false
  ∧ fACConnected after = true
  ∧ properties after !! chargingKey = Some (OSBoolean true)
  ∧ fAvgCurrent after = 1500
  ∧ fRemainingCapacity after = 100
  ∧ fFullChargeCapacity after = 5000
  ∧ fPollingNow after = false
  ∧ fPollingInterval after = kQuickPollInterval
  ∧ fPollTimer after = Some 1000.
Proof. vm_compute. repeat split; reflexivity. Qed.

(** *** Claim C3: the theorem at work and counterexample *)

Lemma retry_backoff_then_abandon_witness :
  fCancelPolling first_poll_at_full_charge = false
  ∧ fRebootPolling first_poll_at_full_charge = false
  ∧ STATUS_ERROR_NEEDS_RETRY (status full_reply_busy) = true
  ∧ 0 ≤ fRetryAttempts first_poll_at_full_charge ≤ kRetryAttempts
  ∧ fRetryAttempts first_poll_at_full_charge < kRetryAttempts
  ∧ transactionCompletion (Some kBFullChargeCapacityCmd) (Some full_reply_busy)
      first_poll_at_full_charge =
    (true,
     set_trace
       (trace first_poll_at_full_charge
          ++ [documented_backoff (fRetryAttempts first_poll_at_full_charge);
              performTransaction kIOSMBusProtocolReadWord
                (address full_reply_busy) (command full_reply_busy)])
       (set_fTransaction
          (Some (mkTransaction kIOSMBusProtocolReadWord (address full_reply_busy)
                   (command full_reply_busy) kIOSMBusStatusOK [] 0))
          (set_fRetryAttempts (fRetryAttempts first_poll_at_full_charge + 1)
             first_poll_at_full_charge))).
Proof.
  assert (Hc : fCancelPolling first_poll_at_full_charge = false)
    by (vm_compute; reflexivity).
  assert (Hr : fRebootPolling first_poll_at_full_charge = false)
    by (vm_compute; reflexivity).
  assert (Hs : STATUS_ERROR_NEEDS_RETRY (status full_reply_busy) = true)
    by reflexivity.
  assert (Ha : fRetryAttempts first_poll_at_full_charge = 0)
    by (vm_compute; reflexivity).
  assert (Hb : 0 ≤ fRetryAttempts first_poll_at_full_charge ≤ kRetryAttempts)
    by (rewrite Ha; unfold kRetryAttempts; lia).
  assert (Hlt : fRetryAttempts first_poll_at_full_charge < kRetryAttempts)
    by (rewrite Ha; unfold kRetryAttempts; lia).
  split; [exact Hc |]. split; [exact Hr |]. split; [exact Hs |].
  split; [exact Hb |]. split; [exact Hlt |].
  exact (proj1 (retry_backoff_then_abandon (Some kBFullChargeCapacityCmd)
                  full_reply_busy first_poll_at_full_charge Hc Hr Hs Hb) Hlt).
Defined.

(** The claim says that after the sixth consecutive failure the sequencer
    advances to the next state.  Here the battery-system-state read of the
    first poll is reported busy six times: after five retries the failure
    is given up, the handler takes "no battery" as the default of that read
    and the poll ends with the cleared state published: nothing is read
    next. *)
Lemma system_state_read_given_up_ends_poll :
  let retried :=
    deliver_all (replicate 5 system_state_reply_busy) first_poll_at_system_state in
  let after := exec (deliver system_state_reply_busy) retried in
  STATUS_ERROR_NEEDS_RETRY (status system_state_reply_busy) = true
  ∧ fPollingNow retried = true
  ∧ fRetryAttempts retried = kRetryAttempts
  ∧ fRetryAttempts after = 0
  ∧ List.filter is_read (trace after) = List.filter is_read (trace retried)
  ∧ fPollingNow after = false
  ∧ properties after !! batteryInstalledKey = Some (OSBoolean false)
  ∧ last (trace after) = Some (updateStatus_published (properties after)).
Proof. vm_compute. repeat split; reflexivity. Qed.

(** *** Claim C6: counterexample and the theorem at work *)

(** The claim says that after a restart requested in mid-run the machine
    path is the new battery path.  Here the inflow-disabled flag is toggled
    while the first read of a poll is in flight: when that read completes,
    state 0 runs again, on the existing battery path. *)
Lemma restart_on_existing_battery_path :
  let requested := exec (handleInflowDisabled true) booted in
  let after :=
    exec (deliver (word_reply kSMBusManagerAddr kMStateContCmd x01 x00)) requested in
  fPollingNow booted = true
  ∧ fRebootPolling requested = true
  ∧ trace requested = trace booted
  ∧ fRebootPolling after = false
  ∧ last (trace after) =
      Some (performTransaction kIOSMBusProtocolReadWord kSMBusManagerAddr
              kMStateContCmd)
  ∧ fMachinePath after = kExistingBatteryPath
  ∧ fMachinePath after ≠ kNewBatteryPath.
Proof. vm_compute. repeat split; try reflexivity. discriminate. Qed.

(** A transaction can be outstanding while [fPollingNow] is clear.  Here the
    battery status has shown the permanent-failure pattern: the handler has
    cleared [fPollingNow] and gone on to read the manufacturer name.  A poll
    request then starts a second sequence while that read is outstanding. *)
Lemma second_sequence_after_permanent_failure :
  let requested := exec (handleInflowDisabled true) permanent_failure_reading in
  fPollingNow permanent_failure_reading = false
  ∧ fStalledByUserClient permanent_failure_reading = false
  ∧ last (trace permanent_failure_reading) =
      Some (performTransaction kIOSMBusProtocolReadBlock kSMBusBatteryAddr
              kBManufactureNameCmd)
  ∧ fPollingNow requested = true
  ∧ trace requested =
      trace permanent_failure_reading
        ++ [performTransaction kIOSMBusProtocolReadWord kSMBusManagerAddr
              kMStateContCmd].
Proof. vm_compute. repeat split; reflexivity. Qed.

Lemma poll_request_in_flight_witness :
  fStalledByUserClient booted = false
  ∧ fPollingNow booted = true
  ∧ fCancelPolling booted = false
  ∧ exec (pollBatteryState kExistingBatteryPath) booted =
    set_fRebootPolling true (set_fMachinePath kExistingBatteryPath booted)
  ∧ fMachinePath
      (exec (transactionCompletion (Some kMStateContCmd)
               (Some (word_reply kSMBusManagerAddr kMStateContCmd x01 x00)))
         (exec (pollBatteryState kExistingBatteryPath) booted)) =
    kExistingBatteryPath.
Proof.
  assert (Hp : fPollingNow booted = true) by (vm_compute; reflexivity).
  assert (Hs : fStalledByUserClient booted = false) by (vm_compute; reflexivity).
  assert (Hc : fCancelPolling booted = false) by (vm_compute; reflexivity).
  pose proof (poll_request_in_flight kExistingBatteryPath (Some kMStateContCmd)
                (word_reply kSMBusManagerAddr kMStateContCmd x01 x00) booted) as H.
  cbv zeta in H. destruct H as (_ & Hflight & _).
  destruct (Hflight Hs Hp) as (Hreq & _ & Hdone & _).
  destruct (Hdone Hc) as (_ & _ & _ & _ & Hpath).
  split; [exact Hs |]. split; [exact Hp |]. split; [exact Hc |].
  split; [exact Hreq | exact Hpath].
Defined.

(** *** Claim C7: counterexample and the theorem at work *)

(** The claim says that every completed sequence restores the stall-restart
    budget.  Here the read timeout fires once during the first poll (budget
    10 to 9); the restarted poll then runs to its terminal state and the
    poll timer is armed, and the budget is still 9. *)
Lemma completed_sequence_keeps_spent_budget :
  let stalled_once := exec incompleteReadTimeOut booted in
  let after :=
    deliver_all
      (word_reply kSMBusManagerAddr kMStateContCmd x01 x00 :: new_battery_poll)
      stalled_once in
  fIncompleteReadRetries booted = kIncompleteReadRetryMax
  ∧ fIncompleteReadRetries stalled_once = 9
  ∧ fPollingNow after = false
  ∧ fPollTimer after = Some 1000
  ∧ fIncompleteReadRetries after = 9
  ∧ fIncompleteReadRetries after ≠ kIncompleteReadRetryMax.
Proof. vm_compute. repeat split; try reflexivity. discriminate. Qed.

Lemma stall_restart_budget_witness :
  0 < fIncompleteReadRetries booted
  ∧ fIncompleteReadRetries booted = kIncompleteReadRetryMax
  ∧ fStalledByUserClient booted = false
  ∧ fPollingNow booted = true
  ∧ exec incompleteReadTimeOut booted =
    set_fRebootPolling true
      (set_fMachinePath kNewBatteryPath
         (set_fIncompleteReadRetries (fIncompleteReadRetries booted - 1)
            (exec (logReadError kErrorOverallTimeoutExpired 0 None) booted)))
  ∧ fIncompleteReadRetries
      (Nat.iter 10 (exec incompleteReadTimeOut) booted) = 0
  ∧ 0 < fIncompleteReadRetries stalled_after_first_poll
  ∧ fStalledByUserClient stalled_after_first_poll = true
  ∧ exec incompleteReadTimeOut stalled_after_first_poll =
    set_fIncompleteReadRetries
      (fIncompleteReadRetries stalled_after_first_poll - 1)
      (exec (logReadError kErrorOverallTimeoutExpired 0 None)
         stalled_after_first_poll).
Proof.
  assert (Hn : fIncompleteReadRetries booted = kIncompleteReadRetryMax)
    by (vm_compute; reflexivity).
  assert (Hpos : 0 < fIncompleteReadRetries booted)
    by (rewrite Hn; unfold kIncompleteReadRetryMax; lia).
  assert (Hs : fStalledByUserClient booted = false) by (vm_compute; reflexivity).
  assert (Hp : fPollingNow booted = true) by (vm_compute; reflexivity).
  assert (Hn' : fIncompleteReadRetries stalled_after_first_poll = 10)
    by (vm_compute; reflexivity).
  assert (Hpos' : 0 < fIncompleteReadRetries stalled_after_first_poll)
    by (rewrite Hn'; lia).
  assert (Hs' : fStalledByUserClient stalled_after_first_poll = true)
    by (vm_compute; reflexivity).
  pose proof (stall_restart_budget None None booted) as H.
  cbv zeta in H. destruct H as (_ & _ & _ & Hdec & Hten & _).
  destruct (Hdec Hpos) as (_ & _ & Hflag & _).
  pose proof (stall_restart_budget None None stalled_after_first_poll) as H'.
  cbv zeta in H'. destruct H' as (_ & _ & _ & Hdec' & _).
  destruct (Hdec' Hpos') as (_ & Hstalled & _).
  split; [exact Hpos |]. split; [exact Hn |]. split; [exact Hs |].
  split; [exact Hp |]. split; [exact (Hflag Hs Hp) |].
  split; [exact (proj1 (Hten Hn)) |]. split; [exact Hpos' |].
  split; [exact Hs' | exact (Hstalled Hs')].
Defined.

(** *** Claim C8: counterexample and the theorem at work *)

(** The claim says the poll timer is left unarmed only when no debug
    override is active.  Here the override is active with interval 0: at the
    terminal state the timer is not armed; a new sequence starts at once. *)
Lemma continuous_polling_leaves_timer_unarmed :
  let before := poll_before_terminal booted_continuous in
  let after := exec (deliver current_reply) before in
  fPollingOverridden before = true
  ∧ fPollingInterval before = 0
  ∧ fPollTimer before = None
  ∧ fPollTimer after = None
  ∧ fPollingNow after = true
  ∧ last (trace after) =
      Some (performTransaction kIOSMBusProtocolReadWord kSMBusManagerAddr
              kMStateContCmd).
Proof. vm_compute. repeat split; reflexivity. Qed.

Lemma terminal_state_poll_timer_witness :
  fCancelPolling (poll_before_terminal booted) = false
  ∧ fRebootPolling (poll_before_terminal booted) = false
  ∧ (needsRetry current_reply (poll_before_terminal booted)).1 = false
  ∧ fPollTimer (poll_before_terminal booted) = None
  ∧ fPollTimer
      (exec (transactionCompletion (Some kBCurrentCmd) (Some current_reply))
         (poll_before_terminal booted)) =
    Some 1000.
Proof.
  assert (Hc : fCancelPolling (poll_before_terminal booted) = false)
    by (vm_compute; reflexivity).
  assert (Hr : fRebootPolling (poll_before_terminal booted) = false)
    by (vm_compute; reflexivity).
  assert (Hn : (needsRetry current_reply (poll_before_terminal booted)).1 = false)
    by (vm_compute; reflexivity).
  assert (Ht : fPollTimer (poll_before_terminal booted) = None)
    by (vm_compute; reflexivity).
  split; [exact Hc |]. split; [exact Hr |]. split; [exact Hn |].
  split; [exact Ht |].
  pose proof (terminal_state_poll_timer current_reply (poll_before_terminal booted)
                Hc Hr Hn Ht) as H.
  cbv zeta in H. destruct H as (_ & _ & _ & Harm).
  rewrite Harm.
  - vm_compute. reflexivity.
  - intros (_ & _ & Hcd & _). vm_compute in Hcd. apply Hcd. reflexivity.
  - intros (Hov & _). vm_compute in Hov. discriminate Hov.
Defined.

(** *** Claims C9 and C10: the theorems at work *)

Lemma retry_is_read_word_witness :
  fCancelPolling first_poll_at_manufacturer = false
  ∧ fRebootPolling first_poll_at_manufacturer = false
  ∧ (needsRetry manufacturer_reply_busy first_poll_at_manufacturer).1 = true
  ∧ protocol manufacturer_reply_busy = kIOSMBusProtocolReadBlock
  ∧ last (trace (exec (transactionCompletion (Some kBManufactureNameCmd)
                         (Some manufacturer_reply_busy))
                   first_poll_at_manufacturer)) =
    Some (performTransaction kIOSMBusProtocolReadWord kSMBusBatteryAddr
            kBManufactureNameCmd).
Proof.
  assert (Hc : fCancelPolling first_poll_at_manufacturer = false)
    by (vm_compute; reflexivity).
  assert (Hr : fRebootPolling first_poll_at_manufacturer = false)
    by (vm_compute; reflexivity).
  assert (Hn : (needsRetry manufacturer_reply_busy first_poll_at_manufacturer).1
               = true) by (vm_compute; reflexivity).
  split; [exact Hc |]. split; [exact Hr |]. split; [exact Hn |].
  split; [reflexivity |].
  exact (proj1 (retry_is_read_word (Some kBManufactureNameCmd)
                  manufacturer_reply_busy first_poll_at_manufacturer Hc Hr Hn)).
Defined.

Lemma controller_status_failure_publishes_ac_witness :
  fCancelPolling booted = false
  ∧ fRebootPolling booted = false
  ∧ status controller_reply_pec ≠ kIOSMBusStatusOK
  ∧ definitive controller_reply_pec booted
  ∧ fACConnected
      (exec (transactionCompletion (Some kMStateContCmd) (Some controller_reply_pec))
         booted) = false
  ∧ properties
      (exec (transactionCompletion (Some kMStateContCmd) (Some controller_reply_pec))
         booted) !! externalConnectedKey = Some (OSBoolean true).
Proof.
  assert (Hc : fCancelPolling booted = false) by (vm_compute; reflexivity).
  assert (Hr : fRebootPolling booted = false) by (vm_compute; reflexivity).
  assert (Hs : status controller_reply_pec ≠ kIOSMBusStatusOK) by discriminate.
  assert (Hd : definitive controller_reply_pec booted)
    by (intros H; vm_compute in H; discriminate H).
  pose proof (controller_status_failure_publishes_ac controller_reply_pec booted
                Hc Hr Hs Hd) as H.
  cbv zeta in H. destruct H as (Hac & Hconn & _).
  split; [exact Hc |]. split; [exact Hr |]. split; [exact Hs |].
  split; [exact Hd |]. split; [exact Hac | exact Hconn].
Defined.

(** ** The rest of the driver and the plug-in: the theorems at work *)

Lemma retry_delay_table_in_bounds_witness :
  reachable first_poll_at_manufacturer
  ∧ (needsRetry manufacturer_reply_busy first_poll_at_manufacturer).1 = true
  ∧ 0 ≤ fRetryAttempts first_poll_at_manufacturer ≤ kRetryAttempts
  ∧ is_Some (microSecDelayTable !!
               Z.to_nat (fRetryAttempts
                           (needsRetry manufacturer_reply_busy
                              first_poll_at_manufacturer).2)).
Proof.
  assert (Hr : reachable first_poll_at_manufacturer)
    by (unfold first_poll_at_manufacturer, booted;
        apply reachable_deliver_all, reachable_start).
  assert (Hn : (needsRetry manufacturer_reply_busy first_poll_at_manufacturer).1
               = true) by (vm_compute; reflexivity).
  pose proof (retry_delay_table_in_bounds manufacturer_reply_busy
                first_poll_at_manufacturer Hr) as H.
  cbv zeta in H. destruct H as [Hb Hi].
  split; [exact Hr |]. split; [exact Hn |]. split; [exact Hb |].
  exact (proj2 (Hi Hn)).
Defined.

Lemma polling_table_in_bounds_witness :
  reachable first_poll_done
  ∧ fPollingOverridden first_poll_done = false
  ∧ length (milliSecPollingTable first_poll_done) = 2%nat
  ∧ is_Some (milliSecPollingTable first_poll_done !!
               Z.to_nat (fPollingInterval first_poll_done)).
Proof.
  assert (Hr : reachable first_poll_done)
    by (unfold first_poll_done, booted;
        apply reachable_deliver_all, reachable_start).
  assert (Hov : fPollingOverridden first_poll_done = false)
    by (vm_compute; reflexivity).
  pose proof (polling_table_in_bounds first_poll_done Hr) as H.
  destruct H as (Hlen & _ & Hi).
  split; [exact Hr |]. split; [exact Hov |]. split; [exact Hlen |].
  exact (proj2 (Hi Hov)).
Defined.

Lemma read_sequence_is_fixed_witness :
  fCancelPolling first_poll_at_status = false
  ∧ fRebootPolling first_poll_at_status = false
  ∧ (needsRetry status_reply_healthy first_poll_at_status).1 = false
  ∧ next_read kBBatteryStatusCmd status_reply_healthy first_poll_at_status =
      Some (kIOSMBusProtocolReadBlock, kSMBusBatteryAddr, kBManufactureNameCmd)
  ∧ last (trace (exec (transactionCompletion (Some kBBatteryStatusCmd)
                         (Some status_reply_healthy)) first_poll_at_status)) =
      Some (performTransaction kIOSMBusProtocolReadBlock kSMBusBatteryAddr
              kBManufactureNameCmd)
  ∧ fCancelPolling first_poll_at_system_state = false
  ∧ fRebootPolling first_poll_at_system_state = false
  ∧ (needsRetry system_state_reply_absent first_poll_at_system_state).1 = false
  ∧ next_read kMStateCmd system_state_reply_absent first_poll_at_system_state = None
  ∧ List.filter is_read
      (trace (exec (transactionCompletion (Some kMStateCmd)
                      (Some system_state_reply_absent))
                first_poll_at_system_state)) =
    List.filter is_read (trace first_poll_at_system_state) ++ [].
Proof.
  assert (Hc : fCancelPolling first_poll_at_status = false)
    by (vm_compute; reflexivity).
  assert (Hr : fRebootPolling first_poll_at_status = false)
    by (vm_compute; reflexivity).
  assert (Hn : (needsRetry status_reply_healthy first_poll_at_status).1 = false)
    by (vm_compute; reflexivity).
  assert (Hs : next_read kBBatteryStatusCmd status_reply_healthy
                 first_poll_at_status =
               Some (kIOSMBusProtocolReadBlock, kSMBusBatteryAddr,
                     kBManufactureNameCmd)) by (vm_compute; reflexivity).
  assert (Hc' : fCancelPolling first_poll_at_system_state = false)
    by (vm_compute; reflexivity).
  assert (Hr' : fRebootPolling first_poll_at_system_state = false)
    by (vm_compute; reflexivity).
  assert (Hn' : (needsRetry system_state_reply_absent
                   first_poll_at_system_state).1 = false)
    by (vm_compute; reflexivity).
  assert (Hs' : next_read kMStateCmd system_state_reply_absent
                  first_poll_at_system_state = None)
    by (vm_compute; reflexivity).
  pose proof (read_sequence_is_fixed kBBatteryStatusCmd status_reply_healthy
                first_poll_at_status Hc Hr Hn) as H.
  cbv zeta in H. destruct H as (_ & Hlast & _).
  pose proof (read_sequence_is_fixed kMStateCmd system_state_reply_absent
                first_poll_at_system_state Hc' Hr' Hn') as H'.
  cbv zeta in H'. destruct H' as (Hreads & _).
  rewrite Hs' in Hreads.
  change (option_list (read_event <$> None)) with (@nil Event) in Hreads.
  split; [exact Hc |]. split; [exact Hr |]. split; [exact Hn |].
  split; [exact Hs |]. split; [exact (proj1 (Hlast _ _ _ Hs)) |].
  split; [exact Hc' |]. split; [exact Hr' |]. split; [exact Hn' |].
  split; [exact Hs' | exact Hreads].
Defined.

Lemma intermediate_states_publish_nothing_witness :
  publishes_at (Some kBManufactureNameCmd) = false
  ∧ List.filter is_publication
      (trace (exec (transactionCompletion (Some kBManufactureNameCmd)
                      (Some manufacturer_reply_busy)) first_poll_at_manufacturer)) =
    List.filter is_publication (trace first_poll_at_manufacturer).
Proof.
  assert (Hp : publishes_at (Some kBManufactureNameCmd) = false) by reflexivity.
  split; [exact Hp |].
  exact (intermediate_states_publish_nothing (Some kBManufactureNameCmd)
           (Some manufacturer_reply_busy) first_poll_at_manufacturer Hp).
Defined.

Lemma poll_end_publishes_final_table_witness :
  fCancelPolling (poll_before_terminal booted) = false
  ∧ fRebootPolling (poll_before_terminal booted) = false
  ∧ (needsRetry current_reply (poll_before_terminal booted)).1 = false
  ∧ List.filter is_publication
      (trace (exec (transactionCompletion (Some kBCurrentCmd) (Some current_reply))
                (poll_before_terminal booted))) =
    List.filter is_publication (trace (poll_before_terminal booted))
      ++ [updateStatus_published
            (properties
               (exec (transactionCompletion (Some kBCurrentCmd) (Some current_reply))
                  (poll_before_terminal booted)))].
Proof.
  assert (Hc : fCancelPolling (poll_before_terminal booted) = false)
    by (vm_compute; reflexivity).
  assert (Hr : fRebootPolling (poll_before_terminal booted) = false)
    by (vm_compute; reflexivity).
  assert (Hn : (needsRetry current_reply (poll_before_terminal booted)).1 = false)
    by (vm_compute; reflexivity).
  pose proof (poll_end_publishes_final_table current_reply
                (poll_before_terminal booted) Hc Hr Hn) as H.
  cbv zeta in H. destruct H as (Hpub & _).
  split; [exact Hc |]. split; [exact Hr |]. split; [exact Hn | exact Hpub].
Defined.

Lemma start_begins_first_poll_witness :
  fStalledByUserClient zeroed = false
  ∧ fPollingNow booted_continuous = true
  ∧ fMachinePath booted_continuous = kNewBatteryPath
  ∧ fPollingOverridden booted_continuous = true
  ∧ fBatteryReadAllTimer booted_continuous = Some kBatteryReadAllTimeout
  ∧ fPollTimer booted_continuous = None.
Proof.
  assert (Hs : fStalledByUserClient zeroed = false) by reflexivity.
  pose proof (start_begins_first_poll (Some 0) zeroed Hs) as H.
  cbv zeta in H.
  destruct H as (Hnow & Hpath & Hov & _ & _ & _ & _ & Hall & Hpoll & _).
  split; [exact Hs |]. split; [exact Hnow |]. split; [exact Hpath |].
  split; [exact Hov |]. split; [exact Hall | exact Hpoll].
Defined.

Lemma ac_change_is_notified_witness :
  fCancelPolling booted = false
  ∧ fRebootPolling booted = false
  ∧ status controller_reply_ac = kIOSMBusStatusOK
  ∧ command controller_reply_ac = kMStateContCmd
  ∧ fACConnected
      (exec (transactionCompletion (Some kMStateContCmd) (Some controller_reply_ac))
         booted) =
    negb (fInflowDisabled booted)
    && bit_set (receiveWord controller_reply_ac) kMACPresentBit
  ∧ last (trace (exec (transactionCompletion (Some kMStateContCmd)
                         (Some controller_reply_ac)) booted)) =
    Some (performTransaction kIOSMBusProtocolReadWord kSMBusManagerAddr kMStateCmd).
Proof.
  assert (Hc : fCancelPolling booted = false) by (vm_compute; reflexivity).
  assert (Hr : fRebootPolling booted = false) by (vm_compute; reflexivity).
  assert (Hs : status controller_reply_ac = kIOSMBusStatusOK) by reflexivity.
  assert (Hm : command controller_reply_ac = kMStateContCmd) by reflexivity.
  pose proof (ac_change_is_notified controller_reply_ac booted Hc Hr Hs Hm) as H.
  cbv zeta in H. destruct H as (Hac & _ & _ & _ & Hlast).
  split; [exact Hc |]. split; [exact Hr |]. split; [exact Hs |].
  split; [exact Hm |]. split; [exact Hac | exact Hlast].
Defined.

Lemma absent_battery_ends_poll_witness :
  fCancelPolling first_poll_at_system_state = false
  ∧ fRebootPolling first_poll_at_system_state = false
  ∧ (needsRetry system_state_reply_absent first_poll_at_system_state).1 = false
  ∧ bit_set (receiveWord system_state_reply_absent) kMPresentBatt_A_Bit = false
  ∧ fPollingNow
      (exec (transactionCompletion (Some kMStateCmd) (Some system_state_reply_absent))
         first_poll_at_system_state) = false
  ∧ fBatteryReadAllTimer
      (exec (transactionCompletion (Some kMStateCmd) (Some system_state_reply_absent))
         first_poll_at_system_state) =
    fBatteryReadAllTimer first_poll_at_system_state.
Proof.
  assert (Hc : fCancelPolling first_poll_at_system_state = false)
    by (vm_compute; reflexivity).
  assert (Hr : fRebootPolling first_poll_at_system_state = false)
    by (vm_compute; reflexivity).
  assert (Hn : (needsRetry system_state_reply_absent first_poll_at_system_state).1
               = false) by (vm_compute; reflexivity).
  assert (Hb : bit_set (receiveWord system_state_reply_absent) kMPresentBatt_A_Bit
               = false) by (vm_compute; reflexivity).
  pose proof (absent_battery_ends_poll system_state_reply_absent
                first_poll_at_system_state Hc Hr Hn (λ _, Hb)) as H.
  cbv zeta in H.
  destruct H as (Hnow & _ & _ & _ & _ & _ & _ & _ & _ & _ & _ & _ & _ & Hall).
  split; [exact Hc |]. split; [exact Hr |]. split; [exact Hn |].
  split; [exact Hb |]. split; [exact Hnow | exact Hall].
Defined.

Lemma full_discharge_reported_once_witness :
  fCancelPolling first_poll_at_status = false
  ∧ fRebootPolling first_poll_at_status = false
  ∧ status status_reply_discharged = kIOSMBusStatusOK
  ∧ command status_reply_discharged = kBBatteryStatusCmd
  ∧ (Z.land (receiveWord status_reply_discharged) permanentFailureMask
       =? permanentFailureMask) = false
  ∧ fFullyDischarged
      (exec (transactionCompletion (Some kBBatteryStatusCmd)
               (Some status_reply_discharged)) first_poll_at_status) =
    bit_set (receiveWord status_reply_discharged) kBFullyDischargedStatusBit.
Proof.
  assert (Hc : fCancelPolling first_poll_at_status = false)
    by (vm_compute; reflexivity).
  assert (Hr : fRebootPolling first_poll_at_status = false)
    by (vm_compute; reflexivity).
  assert (Hs : status status_reply_discharged = kIOSMBusStatusOK) by reflexivity.
  assert (Hm : command status_reply_discharged = kBBatteryStatusCmd) by reflexivity.
  assert (Hp : (Z.land (receiveWord status_reply_discharged) permanentFailureMask
                  =? permanentFailureMask) = false) by (vm_compute; reflexivity).
  pose proof (full_discharge_reported_once status_reply_discharged
                first_poll_at_status Hc Hr Hs Hm Hp) as H.
  cbv zeta in H. destruct H as (Hd & _).
  split; [exact Hc |]. split; [exact Hr |]. split; [exact Hs |].
  split; [exact Hm |]. split; [exact Hp | exact Hd].
Defined.

Lemma current_publication_witness :
  fCancelPolling booted = false
  ∧ fRebootPolling booted = false
  ∧ status average_current_reply_discharging = kIOSMBusStatusOK
  ∧ command average_current_reply_discharging = kBAverageCurrentCmd
  ∧ status current_reply = kIOSMBusStatusOK
  ∧ command current_reply = kBCurrentCmd
  ∧ fAvgCurrent
      (exec (transactionCompletion (Some kBAverageCurrentCmd)
               (Some average_current_reply_discharging)) booted) =
    to_int16 (receiveWord average_current_reply_discharging)
  ∧ registry
      (exec (transactionCompletion (Some kBCurrentCmd) (Some current_reply)) booted)
      !! "RealCurrent" = Some (OSNumber (receiveWord current_reply) 16).
Proof.
  assert (Hc : fCancelPolling booted = false) by (vm_compute; reflexivity).
  assert (Hr : fRebootPolling booted = false) by (vm_compute; reflexivity).
  assert (Hs : status average_current_reply_discharging = kIOSMBusStatusOK)
    by reflexivity.
  assert (Hm : command average_current_reply_discharging = kBAverageCurrentCmd)
    by reflexivity.
  assert (Hs' : status current_reply = kIOSMBusStatusOK) by reflexivity.
  assert (Hm' : command current_reply = kBCurrentCmd) by reflexivity.
  pose proof (current_publication average_current_reply_discharging current_reply
                booted Hc Hr Hs Hm Hs' Hm') as H.
  cbv zeta in H. destruct H as (Havg & _ & _ & Hreal).
  split; [exact Hc |]. split; [exact Hr |]. split; [exact Hs |].
  split; [exact Hm |]. split; [exact Hs' |]. split; [exact Hm' |].
  split; [exact Havg | exact Hreal].
Defined.

Lemma time_remaining_follows_current_witness :
  fCancelPolling discharging = false
  ∧ fRebootPolling discharging = false
  ∧ status time_to_empty_reply = kIOSMBusStatusOK
  ∧ command time_to_empty_reply = kBAverageTimeToEmptyCmd
  ∧ status time_to_full_reply = kIOSMBusStatusOK
  ∧ command time_to_full_reply = kBAverageTimeToFullCmd
  ∧ properties
      (exec (transactionCompletion (Some kBAverageTimeToFullCmd)
               (Some time_to_full_reply))
         (exec (transactionCompletion (Some kBAverageTimeToEmptyCmd)
                  (Some time_to_empty_reply)) discharging))
      !! timeRemainingKey =
    (if fAvgCurrent discharging <? 0
     then Some (OSNumber (receiveWord time_to_empty_reply) 32)
     else if 0 <? fAvgCurrent discharging
          then Some (OSNumber (receiveWord time_to_full_reply) 32)
          else properties discharging !! timeRemainingKey).
Proof.
  assert (Hc : fCancelPolling discharging = false) by (vm_compute; reflexivity).
  assert (Hr : fRebootPolling discharging = false) by (vm_compute; reflexivity).
  assert (Hs : status time_to_empty_reply = kIOSMBusStatusOK) by reflexivity.
  assert (Hm : command time_to_empty_reply = kBAverageTimeToEmptyCmd)
    by reflexivity.
  assert (Hs' : status time_to_full_reply = kIOSMBusStatusOK) by reflexivity.
  assert (Hm' : command time_to_full_reply = kBAverageTimeToFullCmd)
    by reflexivity.
  pose proof (time_remaining_follows_current time_to_empty_reply
                time_to_full_reply discharging Hc Hr Hs Hm Hs' Hm') as H.
  cbv zeta in H. destruct H as (_ & _ & Hrem).
  split; [exact Hc |]. split; [exact Hr |]. split; [exact Hs |].
  split; [exact Hm |]. split; [exact Hs' |]. split; [exact Hm' | exact Hrem].
Defined.

Lemma cell_voltages_published_together_witness :
  fCancelPolling booted = false
  ∧ fRebootPolling booted = false
  ∧ STATUS_ERROR_NEEDS_RETRY (status (cell_reply kBReadCellVoltage1Cmd)) = false
  ∧ STATUS_ERROR_NEEDS_RETRY (status cell_reply_pec) = false
  ∧ command cell_reply_pec = kBReadCellVoltage2Cmd
  ∧ registry
      (exec (transactionCompletion (Some kBReadCellVoltage4Cmd)
               (Some (cell_reply kBReadCellVoltage4Cmd)))
         (exec (transactionCompletion (Some kBReadCellVoltage3Cmd)
                  (Some (cell_reply kBReadCellVoltage3Cmd)))
            (exec (transactionCompletion (Some kBReadCellVoltage2Cmd)
                     (Some cell_reply_pec))
               (exec (transactionCompletion (Some kBReadCellVoltage1Cmd)
                        (Some (cell_reply kBReadCellVoltage1Cmd))) booted))))
      !! _CellVoltageSym =
    Some (OSArray [cellVoltage_number (cell_reply kBReadCellVoltage1Cmd);
                   cellVoltage_number cell_reply_pec;
                   cellVoltage_number (cell_reply kBReadCellVoltage3Cmd);
                   cellVoltage_number (cell_reply kBReadCellVoltage4Cmd)]).
Proof.
  assert (Hc : fCancelPolling booted = false) by (vm_compute; reflexivity).
  assert (Hr : fRebootPolling booted = false) by (vm_compute; reflexivity).
  assert (H1 : STATUS_ERROR_NEEDS_RETRY (status (cell_reply kBReadCellVoltage1Cmd))
               = false) by reflexivity.
  assert (H2 : STATUS_ERROR_NEEDS_RETRY (status cell_reply_pec) = false)
    by reflexivity.
  assert (Hm : command cell_reply_pec = kBReadCellVoltage2Cmd) by reflexivity.
  pose proof (cell_voltages_published_together
                (cell_reply kBReadCellVoltage1Cmd) cell_reply_pec
                (cell_reply kBReadCellVoltage3Cmd) (cell_reply kBReadCellVoltage4Cmd)
                booted Hc Hr H1 eq_refl H2 Hm eq_refl eq_refl eq_refl eq_refl) as H.
  cbv zeta in H. destruct H as (Harr & _).
  split; [exact Hc |]. split; [exact Hr |]. split; [exact H1 |].
  split; [exact H2 |]. split; [exact Hm | exact Harr].
Defined.

Lemma retry_count_survives_non_recoverable_failure_witness :
  fCancelPolling retried_twice = false
  ∧ fRebootPolling retried_twice = false
  ∧ STATUS_ERROR_NON_RECOVERABLE (status full_reply_pec) = true
  ∧ kBFullChargeCapacityCmd ≠ kMStateCmd
  ∧ fRetryAttempts retried_twice = 2
  ∧ fRetryAttempts
      (exec (transactionCompletion (Some kBFullChargeCapacityCmd) (Some full_reply_pec))
         retried_twice) = fRetryAttempts retried_twice.
Proof.
  assert (Hc : fCancelPolling retried_twice = false) by (vm_compute; reflexivity).
  assert (Hr : fRebootPolling retried_twice = false) by (vm_compute; reflexivity).
  assert (Hs : STATUS_ERROR_NON_RECOVERABLE (status full_reply_pec) = true)
    by reflexivity.
  assert (Hne : kBFullChargeCapacityCmd ≠ kMStateCmd) by discriminate.
  assert (Hn : fRetryAttempts retried_twice = 2) by (vm_compute; reflexivity).
  pose proof (retry_count_survives_non_recoverable_failure kBFullChargeCapacityCmd
                full_reply_pec retried_twice Hc Hr Hs Hne) as H.
  cbv zeta in H. destruct H as (Hkeep & _).
  split; [exact Hc |]. split; [exact Hr |]. split; [exact Hs |].
  split; [exact Hne |]. split; [exact Hn | exact Hkeep].
Defined.

Lemma reinsertion_during_cancelled_poll_witness :
  fPollingNow booted = true
  ∧ fStalledByUserClient booted = false
  ∧ fPollingNow
      (exec (transactionCompletion (Some kMStateContCmd) (Some controller_reply_ac))
         (exec handleBatteryInserted (exec handleBatteryRemoved booted))) = false
  ∧ fRebootPolling
      (exec (transactionCompletion (Some kMStateContCmd) (Some controller_reply_ac))
         (exec handleBatteryInserted (exec handleBatteryRemoved booted))) = true
  ∧ fPollTimer
      (exec (transactionCompletion (Some kMStateContCmd) (Some controller_reply_ac))
         (exec handleBatteryInserted (exec handleBatteryRemoved booted))) = None.
Proof.
  assert (Hp : fPollingNow booted = true) by (vm_compute; reflexivity).
  assert (Hs : fStalledByUserClient booted = false) by (vm_compute; reflexivity).
  pose proof (reinsertion_during_cancelled_poll (Some kMStateContCmd)
                controller_reply_ac booted Hp Hs) as H.
  cbv zeta in H. destruct H as (_ & _ & Hnow & Hre & Htimer & _).
  split; [exact Hp |]. split; [exact Hs |]. split; [exact Hnow |].
  split; [exact Hre | exact Htimer].
Defined.

Lemma unstall_during_cancelled_poll_witness :
  fPollingNow booted = true
  ∧ fStalledByUserClient
      (exec (transactionCompletion (Some kMStateContCmd) (Some controller_reply_ac))
         (exec (handleUCStalled false) (exec (handleUCStalled true) booted))) = false
  ∧ fPollingNow
      (exec (transactionCompletion (Some kMStateContCmd) (Some controller_reply_ac))
         (exec (handleUCStalled false) (exec (handleUCStalled true) booted))) = false
  ∧ trace
      (exec (transactionCompletion (Some kMStateContCmd) (Some controller_reply_ac))
         (exec (handleUCStalled false) (exec (handleUCStalled true) booted))) =
    trace booted.
Proof.
  assert (Hp : fPollingNow booted = true) by (vm_compute; reflexivity).
  pose proof (unstall_during_cancelled_poll (Some kMStateContCmd)
                controller_reply_ac booted Hp) as H.
  cbv zeta in H. destruct H as (_ & _ & _ & Hst & Hnow & _ & _ & _ & Htr).
  split; [exact Hp |]. split; [exact Hst |]. split; [exact Hnow | exact Htr].
Defined.

Lemma stalled_driver_starts_no_poll_witness :
  fStalledByUserClient stalled_after_first_poll = true
  ∧ fPollingNow stalled_after_first_poll = false
  ∧ is_request call_handleBatteryInserted = true
  ∧ fPollingNow (exec (perform call_handleBatteryInserted) stalled_after_first_poll)
    = false
  ∧ List.filter is_read
      (trace (exec (perform call_handleBatteryInserted) stalled_after_first_poll)) =
    List.filter is_read (trace stalled_after_first_poll).
Proof.
  assert (Hs : fStalledByUserClient stalled_after_first_poll = true)
    by (vm_compute; reflexivity).
  assert (Hp : fPollingNow stalled_after_first_poll = false)
    by (vm_compute; reflexivity).
  assert (Hq : is_request call_handleBatteryInserted = true) by reflexivity.
  pose proof (stalled_driver_starts_no_poll call_handleBatteryInserted
                stalled_after_first_poll Hs Hp Hq) as H.
  cbv zeta in H. destruct H as (_ & Hnow & Hreads & _).
  split; [exact Hs |]. split; [exact Hp |]. split; [exact Hq |].
  split; [exact Hnow | exact Hreads].
Defined.

Lemma accessors_round_trip_witness :
  - 2 ^ 31 ≤ -1 < 2 ^ 31
  ∧ (setMaxErr (-1);; maxErr) zeroed = (-1, exec (setMaxErr (-1)) zeroed)
  ∧ (setDeviceName "ASMB016";; deviceName) zeroed =
    (Some "ASMB016", exec (setDeviceName "ASMB016") zeroed).
Proof.
  assert (He : - 2 ^ 31 ≤ -1 < 2 ^ 31) by lia.
  pose proof (accessors_round_trip (-1) true "ASMB016" zeroed He) as H.
  destruct H as (Herr & _ & _ & _ & _ & Hname & _).
  split; [exact He |]. split; [exact Herr | exact Hname].
Defined.

Lemma setPollingInterval_replaces_default_witness :
  reachable booted
  ∧ fPollingOverridden booted = false
  ∧ milliSecPollingTable (exec (setPollingInterval 5000) booted) = [5000; 1000]
  ∧ fPollingInterval (exec (setPollingInterval 5000) booted) = kDefaultPollInterval.
Proof.
  assert (Hr : reachable booted) by (unfold booted; apply reachable_start).
  assert (Hov : fPollingOverridden booted = false) by (vm_compute; reflexivity).
  pose proof (setPollingInterval_replaces_default 5000 booted Hr) as H.
  cbv zeta in H. rewrite Hov in H. destruct H as (Htable & Hiv & _).
  split; [exact Hr |]. split; [exact Hov |]. split; [exact Htable | exact Hiv].
Defined.

Lemma systemHasSMU_decided_once_witness :
  known configd_loaded = false
  ∧ (systemHasSMU smu_machine configd_loaded).1 = nonzero (AppleSMU_service smu_machine)
  ∧ systemHasSMU other_machine (systemHasSMU smu_machine configd_loaded).2 =
    ((systemHasSMU smu_machine configd_loaded).1,
     (systemHasSMU smu_machine configd_loaded).2).
Proof.
  assert (Hk : known configd_loaded = false) by reflexivity.
  pose proof (systemHasSMU_decided_once smu_machine other_machine configd_loaded Hk)
    as H.
  cbv zeta in H. destruct H as (Hfirst & _ & _ & Hagain).
  split; [exact Hk |]. split; [exact Hfirst | exact Hagain].
Defined.

Lemma display_sleep_tells_time_zone_once_witness :
  Z.of_nat 3 < 2 ^ 31
  ∧ smu_host smu_machine
  ∧ level (display_run smu_machine (display_messages 3) configd_loaded) = Z.of_nat 3
  ∧ timezone_updates (display_run smu_machine (display_messages 3) configd_loaded) =
    S (timezone_updates configd_loaded).
Proof.
  assert (Hn : Z.of_nat 3 < 2 ^ 31) by (compute; reflexivity).
  assert (Hh : smu_host smu_machine).
  { split; [discriminate |]. split; [eexists; reflexivity | reflexivity]. }
  pose proof (display_sleep_tells_time_zone_once smu_machine 3 configd_loaded Hn)
    as H.
  cbv zeta in H. destruct H as (Hlevel & _ & _ & Hone).
  split; [exact Hn |]. split; [exact Hh |]. split; [exact Hlevel |].
  apply (Hone Hh).
  - intros Hk. discriminate Hk.
  - lia.
Defined.

Lemma poll_runs_to_completion_witness :
  fCancelPolling booted = false
  ∧ fRebootPolling booted = false
  ∧ Forall2 settles (poll_commands (fMachinePath booted)) new_battery_poll
  ∧ length new_battery_poll = 22%nat
  ∧ fPollingNow (deliver_all new_battery_poll booted) = false
  ∧ fBatteryReadAllTimer (deliver_all new_battery_poll booted) = None.
Proof.
  assert (Hc : fCancelPolling booted = false) by (vm_compute; reflexivity).
  assert (Hr : fRebootPolling booted = false) by (vm_compute; reflexivity).
  assert (Hp : fMachinePath booted = kNewBatteryPath) by (vm_compute; reflexivity).
  assert (Hall : Forall2 settles (poll_commands (fMachinePath booted))
                   new_battery_poll).
  { rewrite Hp.
    unfold poll_commands, new_battery_poll, manager_replies, identity_replies,
      tail_replies.
    cbn [app Z.eqb Pos.eqb kNewBatteryPath].
    repeat (apply List.Forall2_cons;
            [split; [reflexivity |]; split; [reflexivity |];
             split;
             [intros Hcap; vm_compute in Hcap;
              first [discriminate Hcap | intros _; vm_compute; reflexivity]
             |intros Hm;
              first [discriminate Hm | split; vm_compute; reflexivity]] |]).
    apply List.Forall2_nil. }
  assert (Hrestart : fPollingOverridden booted && (fPollingInterval booted =? 0)
                     && negb (fStalledByUserClient booted) = false)
    by (vm_compute; reflexivity).
  pose proof (poll_runs_to_completion new_battery_poll booted Hc Hr Hall) as H.
  cbv zeta in H. rewrite Hrestart in H. rewrite Hp in H.
  destruct H as (Hlen & _ & Hnow & Hall').
  split; [exact Hc |]. split; [exact Hr |]. split; [exact Hall |].
  split; [exact Hlen |]. split; [exact Hnow | exact Hall'].
Defined.

Lemma name_reads_witness :
  name_key kBDeviceNameCmd = Some _DeviceNameSym
  ∧ fCancelPolling first_poll_done = false
  ∧ fRebootPolling first_poll_done = false
  ∧ STATUS_ERROR_NEEDS_RETRY (status device_name_reply_empty) = false
  ∧ command device_name_reply_empty = kBDeviceNameCmd
  ∧ properties
      (exec (transactionCompletion (Some kBDeviceNameCmd)
               (Some device_name_reply_empty)) first_poll_done)
      !! _DeviceNameSym = properties first_poll_done !! _DeviceNameSym.
Proof.
  assert (Hk : name_key kBDeviceNameCmd = Some _DeviceNameSym) by reflexivity.
  assert (Hc : fCancelPolling first_poll_done = false) by (vm_compute; reflexivity).
  assert (Hr : fRebootPolling first_poll_done = false) by (vm_compute; reflexivity).
  assert (Hn : STATUS_ERROR_NEEDS_RETRY (status device_name_reply_empty) = false)
    by reflexivity.
  assert (Hm : command device_name_reply_empty = kBDeviceNameCmd) by reflexivity.
  pose proof (name_reads kBDeviceNameCmd _DeviceNameSym device_name_reply_empty
                first_poll_done Hk Hc Hr Hn Hm) as H.
  cbv zeta in H. destruct H as (Hname & _).
  assert (Hok : bool_decide (kIOSMBusStatusOK = status device_name_reply_empty)
                = true) by reflexivity.
  assert (Hempty : (receiveDataCount device_name_reply_empty =? 0) = true)
    by reflexivity.
  rewrite Hok, Hempty in Hname.
  split; [exact Hk |]. split; [exact Hc |]. split; [exact Hr |].
  split; [exact Hn |]. split; [exact Hm | exact Hname].
Defined.

Lemma idle_poll_request_starts_poll_witness :
  fPollingNow first_poll_done = false
  ∧ fStalledByUserClient first_poll_done = false
  ∧ fPollingNow (exec (pollBatteryState kExistingBatteryPath) first_poll_done) = true
  ∧ fMachinePath (exec (pollBatteryState kExistingBatteryPath) first_poll_done) =
    kExistingBatteryPath.
Proof.
  assert (Hp : fPollingNow first_poll_done = false) by (vm_compute; reflexivity).
  assert (Hs : fStalledByUserClient first_poll_done = false)
    by (vm_compute; reflexivity).
  pose proof (idle_poll_request_starts_poll kExistingBatteryPath first_poll_done
                Hp Hs) as H.
  cbv zeta in H. destruct H as (Hnow & Hpath & _).
  split; [exact Hp |]. split; [exact Hs |]. split; [exact Hnow | exact Hpath].
Defined.
